(** * PyApple: response normalisation and the dual-mode client facade

    A shallow embedding of

    - [pyapple/interface/ios.py]: [to_dt] and the dataclasses [IPSW],
      [FirmwareKeys], [DeviceKeys], [OTA], [iDevice];
    - [pyapple/client.py]: the operation set [HALFTIME] and the facade
      [Client] ([__run_coroutine], [__getattribute__]);
    - [pyapple/src/ipsw.py]: the operations of class [IPSW] other than
      [device].

    Python values are dynamically typed, so decoded payloads and record slots
    live in one universe [pyobj]; raising is an explicit [result]. *)

From stdpp Require Import base list strings.
From Stdlib Require Import ZArith Lia Ascii String.

Set Warnings "-register-all".
Open Scope string_scope.
Open Scope Z_scope.

(** ** Python values, exceptions and results *)

(** [datetime.tzinfo] values the code builds: only [dateutil.tz.tzutc()]. *)
Inductive tzinfo : Type := tzutc.

(** A [datetime.datetime]; [dt_tzinfo = None] is a naive instant. *)
Record datetime : Type := mk_datetime {
  dt_year : Z; dt_month : Z; dt_day : Z;
  dt_hour : Z; dt_minute : Z; dt_second : Z;
  dt_microsecond : Z;
  dt_tzinfo : option tzinfo
}.

(** The dataclasses of [interface/ios.py]. *)
Inductive dataclass : Type := IPSW | FirmwareKeys | DeviceKeys | OTA | iDevice.

Inductive pyobj : Type :=
| PNone
| PBool (b : bool)
| PInt (n : Z)
| PStr (s : string)
| PList (xs : list pyobj)
| PDict (items : list (string * pyobj))
| PDatetime (dt : datetime)
| PInstance (cls : dataclass) (slots : list (string * pyobj)).

Inductive type_error : Type :=
| NotAMapping                 (* argument after ** must be a mapping *)
| UnexpectedKeyword (func key : string)
                              (* func() got an unexpected keyword argument 'key' *)
| MissingArguments (func : string) (names : list string)
                              (* func() missing N required positional arguments: names *)
| NotCallable                 (* object is not callable *)
| NotIterable                 (* object is not iterable *)
| NotSubscriptable            (* object is not subscriptable / bad index type *)
| StrptimeArgNotStr.          (* strptime() argument 1 must be str *)

Inductive value_error : Type :=
| DoesNotMatchFormat          (* time data does not match format *)
| UnconvertedDataRemains      (* unconverted data remains *)
| OutOfRange.                 (* day is out of range for month, second must be in 0..59, ... *)

Inductive exn : Type :=
| TypeError (msg : type_error)
| ValueError (msg : value_error)
| KeyError (key : string)
| AttributeError (name : string)
| RuntimeError (msg : string)
| TransportError (msg : string).

Inductive result (A : Type) : Type :=
| Ok (a : A)
| Raise (e : exn).
Arguments Ok {A} a.
Arguments Raise {A} e.

#[global] Instance result_ret : MRet result := fun A a => Ok a.
#[global] Instance result_bind : MBind result := fun A B f r =>
  match r with
  | Ok a => f a
  | Raise e => Raise e
  end.

#[global] Instance result_fmap : FMap result := fun A B f r =>
  match r with
  | Ok a => Ok (f a)
  | Raise e => Raise e
  end.

(** A list comprehension [[f(x) for x in xs]]: left to right, the first
    exception aborts it. *)
Fixpoint comprehension {A B : Type} (f : A -> result B) (xs : list A) : result (list B) :=
  match xs with
  | [] => Ok []
  | x :: xs' =>
      match f x with
      | Ok y =>
          match comprehension f xs' with
          | Ok ys => Ok (y :: ys)
          | Raise e => Raise e
          end
      | Raise e => Raise e
      end
  end.

(** ** Dictionaries: insertion-ordered, keyed by strings *)

Fixpoint dict_get (items : list (string * pyobj)) (key : string) : option pyobj :=
  match items with
  | [] => None
  | (k, v) :: rest => if String.eqb k key then Some v else dict_get rest key
  end.

Definition dict_has (items : list (string * pyobj)) (key : string) : bool :=
  match dict_get items key with
  | Some _ => true
  | None => false
  end.

(** [d[key] = v]: an existing key keeps its position, a new key is appended. *)
Fixpoint dict_set (items : list (string * pyobj)) (key : string) (v : pyobj)
  : list (string * pyobj) :=
  match items with
  | [] => [(key, v)]
  | (k, w) :: rest =>
      if String.eqb k key then (k, v) :: rest else (k, w) :: dict_set rest key v
  end.

(** [obj[key]] for a string key. *)
Definition getitem (obj : pyobj) (key : string) : result pyobj :=
  match obj with
  | PDict items =>
      match dict_get items key with
      | Some v => Ok v
      | None => Raise (KeyError key)
      end
  | _ => Raise (TypeError NotSubscriptable)
  end.

(** [obj[key] = v] for a string key. *)
Definition setitem (obj : pyobj) (key : string) (v : pyobj) : result pyobj :=
  match obj with
  | PDict items => Ok (PDict (dict_set items key v))
  | _ => Raise (TypeError NotSubscriptable)
  end.

(** [iter(obj)] run to exhaustion: lists yield their elements, dicts their
    keys, strings their characters. *)
Fixpoint chars (s : string) : list pyobj :=
  match s with
  | EmptyString => []
  | String c rest => PStr (String c EmptyString) :: chars rest
  end.

Definition iterate (obj : pyobj) : result (list pyobj) :=
  match obj with
  | PList xs => Ok xs
  | PDict items => Ok (map (fun kv => PStr (fst kv)) items)
  | PStr s => Ok (chars s)
  | _ => Raise (TypeError NotIterable)
  end.

(** ** [datetime.strptime(time, "%Y-%m-%dT%H:%M:%SZ")]

    CPython's [_strptime] turns the format into a regular expression,
    compiled with [re.IGNORECASE], and matches it at the start of the input:
    [%Y] is [\d\d\d\d], [%m] is [1[0-2]|0[1-9]|[1-9]], [%d] is
    [3[0-1]|[1-2]\d|0[1-9]|[1-9]| [1-9]], [%H] is [2[0-3]|[0-1]\d|\d],
    [%M] is [[0-5]\d|\d], [%S] is [6[0-1]|[0-5]\d|\d]; every other character
    stands for itself. Alternatives are tried left to right with
    backtracking, so a directive yields its candidate matches in priority
    order.

    A string is a sequence of characters below U+0100. Among those, the
    decimal digits, which is what [\d] matches, are the ASCII ones, and only
    [t], [T], [z] and [Z] match the letters of the format when case is
    ignored. Python strings with characters beyond that range are not
    represented, among them the decimal digits of other scripts, which [\d]
    matches too; the statements about the strings that [to_dt] accepts are
    made for ASCII strings. *)

Definition digit_of (c : ascii) : option Z :=
  let n := Z.of_N (N_of_ascii c) in
  if (48 <=? n) && (n <=? 57) then Some (n - 48) else None.

(** Two digits [a b] accepted by [ok], read as the number [10a + b]. *)
Definition two_digits (ok : Z -> Z -> bool) (s : string) : list (Z * string) :=
  match s with
  | String c1 (String c2 rest) =>
      match digit_of c1, digit_of c2 with
      | Some a, Some b => if ok a b then [(10 * a + b, rest)] else []
      | _, _ => []
      end
  | _ => []
  end.

(** One digit accepted by [ok]. *)
Definition one_digit (ok : Z -> bool) (s : string) : list (Z * string) :=
  match s with
  | String c1 rest =>
      match digit_of c1 with
      | Some a => if ok a then [(a, rest)] else []
      | None => []
      end
  | _ => []
  end.

Definition re_Y (s : string) : list (Z * string) :=
  match s with
  | String c1 (String c2 (String c3 (String c4 rest))) =>
      match digit_of c1, digit_of c2, digit_of c3, digit_of c4 with
      | Some a, Some b, Some c, Some d =>
          [(1000 * a + 100 * b + 10 * c + d, rest)]
      | _, _, _, _ => []
      end
  | _ => []
  end.

Definition re_m (s : string) : list (Z * string) :=
  two_digits (fun a b => (a =? 1) && (b <=? 2)) s
  ++ two_digits (fun a b => (a =? 0) && (1 <=? b)) s
  ++ one_digit (fun a => 1 <=? a) s.

Definition re_d (s : string) : list (Z * string) :=
  two_digits (fun a b => (a =? 3) && (b <=? 1)) s
  ++ two_digits (fun a b => (1 <=? a) && (a <=? 2)) s
  ++ two_digits (fun a b => (a =? 0) && (1 <=? b)) s
  ++ one_digit (fun a => 1 <=? a) s
  ++ match s with
     | String c rest =>
         if Ascii.eqb c " " then one_digit (fun a => 1 <=? a) rest else []
     | _ => []
     end.

Definition re_H (s : string) : list (Z * string) :=
  two_digits (fun a b => (a =? 2) && (b <=? 3)) s
  ++ two_digits (fun a b => a <=? 1) s
  ++ one_digit (fun a => true) s.

Definition re_M (s : string) : list (Z * string) :=
  two_digits (fun a b => a <=? 5) s
  ++ one_digit (fun a => true) s.

Definition re_S (s : string) : list (Z * string) :=
  two_digits (fun a b => (a =? 6) && (b <=? 1)) s
  ++ two_digits (fun a b => a <=? 5) s
  ++ one_digit (fun a => true) s.

(** ASCII lower-casing, for [re.IGNORECASE]. *)
Definition lower (c : ascii) : ascii :=
  let n := N_of_ascii c in
  if ((65 <=? n) && (n <=? 90))%N then ascii_of_N (n + 32) else c.

(** A literal character of the format. *)
Definition re_lit (c : ascii) (s : string) : list string :=
  match s with
  | String x rest => if Ascii.eqb (lower x) (lower c) then [rest] else []
  | _ => []
  end.

(** The six captured groups of a match. *)
Record time_groups : Type := mk_groups {
  g_Y : Z; g_m : Z; g_d : Z; g_H : Z; g_M : Z; g_S : Z
}.

(** All matches of the compiled format at the start of [s], in the order the
    backtracking matcher finds them, each with the unmatched rest. *)
Definition format_regex (s : string) : list (time_groups * string) :=
  '(year, s1) ← re_Y s;
  s2 ← re_lit "-" s1;
  '(month, s3) ← re_m s2;
  s4 ← re_lit "-" s3;
  '(day, s5) ← re_d s4;
  s6 ← re_lit "T" s5;
  '(hour, s7) ← re_H s6;
  s8 ← re_lit ":" s7;
  '(minute, s9) ← re_M s8;
  s10 ← re_lit ":" s9;
  '(second, s11) ← re_S s10;
  s12 ← re_lit "Z" s11;
  [(mk_groups year month day hour minute second, s12)].

Definition is_leap (year : Z) : bool :=
  (year mod 4 =? 0) && (negb (year mod 100 =? 0) || (year mod 400 =? 0)).

Definition days_in_month (year month : Z) : Z :=
  if month =? 2 then (if is_leap year then 29 else 28)
  else if (month =? 4) || (month =? 6) || (month =? 9) || (month =? 11) then 30
  else 31.

(** The range checks of the [date] and [datetime] constructors. *)
Definition valid_datetime (Y m d H M S : Z) : bool :=
  (1 <=? Y) && (Y <=? 9999) && (1 <=? m) && (m <=? 12)
  && (1 <=? d) && (d <=? days_in_month Y m)
  && (0 <=? H) && (H <=? 23) && (0 <=? M) && (M <=? 59)
  && (0 <=? S) && (S <=? 59).

(** [datetime.strptime(time, "%Y-%m-%dT%H:%M:%SZ")]: the first match must
    reach the end of the input; the groups must form a valid naive
    [datetime]. *)
Definition strptime (time : pyobj) : result datetime :=
  match time with
  | PStr s =>
      match head (format_regex s) with
      | None => Raise (ValueError DoesNotMatchFormat)
      | Some (g, rest) =>
          match rest with
          | EmptyString =>
              if valid_datetime (g_Y g) (g_m g) (g_d g) (g_H g) (g_M g) (g_S g)
              then Ok (mk_datetime (g_Y g) (g_m g) (g_d g) (g_H g) (g_M g) (g_S g) 0 None)
              else Raise (ValueError OutOfRange)
          | _ => Raise (ValueError UnconvertedDataRemains)
          end
      end
  | _ => Raise (TypeError StrptimeArgNotStr)
  end.

(** [obj.replace(tzinfo=dest)] *)
Definition replace_tzinfo (obj : datetime) (dest : option tzinfo) : datetime :=
  mk_datetime (dt_year obj) (dt_month obj) (dt_day obj)
              (dt_hour obj) (dt_minute obj) (dt_second obj)
              (dt_microsecond obj) dest.

Module ios.

(** [to_dt], ios.py lines 8-15. *)
Definition to_dt (time : pyobj) : result pyobj :=
  match time with
  | PNone => Ok time (* early return *)
  | _ =>
      let dest := tzutc in
      obj ← strptime time;
      let obj := replace_tzinfo obj (Some dest) in
      Ok (PDatetime obj)
  end.

(** The name and the fields of each dataclass, in declaration order. None
    has a default, so the generated [__init__] requires every one of them. *)
Definition class_name (cls : dataclass) : string :=
  match cls with
  | IPSW => "IPSW"
  | FirmwareKeys => "FirmwareKeys"
  | DeviceKeys => "DeviceKeys"
  | OTA => "OTA"
  | iDevice => "iDevice"
  end.

Definition fields (cls : dataclass) : list string :=
  match cls with
  | IPSW =>
      ["identifier"; "buildid"; "version"; "url"; "filesize"; "sha1sum";
       "md5sum"; "releasedate"; "uploaddate"; "signed"]
  | FirmwareKeys => ["image"; "filename"; "kbag"; "key"; "iv"; "date"]
  | DeviceKeys =>
      ["identifier"; "buildid"; "codename"; "baseband";
       "updateramdiskexists"; "restoreramdiskexists"; "keys"]
  | OTA =>
      ["identifier"; "buildid"; "version"; "url"; "filesize";
       "prerequisitebuildid"; "prerequisiteversion"; "release_type";
       "uploaddate"; "releasedate"; "signed"]
  | iDevice =>
      ["name"; "identifier"; "boardconfig"; "platform"; "cpid"; "bdid";
       "firmwares"; "boards"]
  end.

(** The qualified name under which CPython (3.10 and later) reports a bad
    call of the generated constructor. *)
Definition init_qualname (cls : dataclass) : string :=
  class_name cls +:+ ".__init__".

Definition is_field (cls : dataclass) (key : string) : bool :=
  existsb (String.eqb key) (fields cls).

(** Binding the keyword arguments [kwargs] of a call of [cls] to the
    parameters of [__init__]: the first keyword that is no parameter is
    rejected, then the parameters left without a value are reported
    together. *)
Definition unexpected (cls : dataclass) (kwargs : list (string * pyobj))
  : option (string * pyobj) :=
  List.find (fun kv => negb (is_field cls (fst kv))) kwargs.

Definition missing (cls : dataclass) (kwargs : list (string * pyobj)) : list string :=
  List.filter (fun f => negb (dict_has kwargs f)) (fields cls).

Definition bound (cls : dataclass) (kwargs : list (string * pyobj))
  : list (string * pyobj) :=
  omap (fun f => pair f <$> dict_get kwargs f) (fields cls).

Definition bind_arguments (cls : dataclass) (kwargs : list (string * pyobj))
  : result (list (string * pyobj)) :=
  match unexpected cls kwargs with
  | Some (key, _) => Raise (TypeError (UnexpectedKeyword (init_qualname cls) key))
  | None =>
      match missing cls kwargs with
      | [] => Ok (bound cls kwargs)
      | names => Raise (TypeError (MissingArguments (init_qualname cls) names))
      end
  end.

(** [self.name] and [self.name = v] on the slots of an instance. *)
Definition getattr (self : list (string * pyobj)) (name : string) : result pyobj :=
  match dict_get self name with
  | Some v => Ok v
  | None => Raise (AttributeError name)
  end.

Definition setattr (self : list (string * pyobj)) (name : string) (v : pyobj)
  : list (string * pyobj) :=
  dict_set self name v.

(** [self.name = to_dt(self.name)] *)
Definition normalize_slot (self : list (string * pyobj)) (name : string)
  : result (list (string * pyobj)) :=
  v ← getattr self name;
  v' ← to_dt v;
  Ok (setattr self name v').

(** The timestamp slots each [__post_init__] rewrites, in its order. *)
Definition post_init_slots (cls : dataclass) : list string :=
  match cls with
  | IPSW => ["releasedate"; "uploaddate"]
  | FirmwareKeys => ["date"]
  | OTA => ["releasedate"; "uploaddate"]
  | DeviceKeys | iDevice => []
  end.

Definition post_init_step (acc : result (list (string * pyobj))) (name : string)
  : result (list (string * pyobj)) :=
  self' ← acc; normalize_slot self' name.

Definition post_init (cls : dataclass) (self : list (string * pyobj))
  : result (list (string * pyobj)) :=
  foldl post_init_step (Ok self) (post_init_slots cls).

Definition is_timestamp (cls : dataclass) (f : string) : bool :=
  existsb (String.eqb f) (post_init_slots cls).

(** [cls] called with the items of [data] as keyword arguments: the
    generated [__init__] stores every argument in its slot, then runs
    [__post_init__]. *)
Definition construct (cls : dataclass) (data : pyobj) : result pyobj :=
  match data with
  | PDict kwargs =>
      self ← bind_arguments cls kwargs;
      self' ← post_init cls self;
      Ok (PInstance cls self')
  | _ => Raise (TypeError NotAMapping)
  end.

(** Reading a field of a constructed record. *)
Definition field (obj : pyobj) (name : string) : option pyobj :=
  match obj with
  | PInstance _ slots => dict_get slots name
  | _ => None
  end.

End ios.

(** Modelled from the spec: [client.py] imports [OTAIPSW], [IPSWKeys] and
    [KeysObject] from a module [.model], and [src/ipsw.py] imports [OTAIPSW],
    [IPSWKeys] and [Keys] from the package [..interface]; neither the module
    nor the package initialiser is among the sources. They are taken to be
    the spec's OTAFirmware, KeySet and Key records, that is the dataclasses
    [OTA], [DeviceKeys] and [FirmwareKeys] of [interface/ios.py]. *)
Definition OTAIPSW : dataclass := OTA.
Definition IPSWKeys : dataclass := DeviceKeys.
Definition KeysObject : dataclass := FirmwareKeys.
Definition Keys : dataclass := FirmwareKeys.

(** ** Coroutines and the event loop

    A coroutine object is a suspended computation: creating it runs nothing,
    awaiting it (or driving it with a loop) runs its body once. What running a
    body does to the world is to send requests to the collaborators, so a
    coroutine is run against the requests sent so far. *)
Inductive request : Type :=
| HTTPRequest (method endpoint : string)
| ProductsRequest (catalog_id : pyobj)
| PackageRequest (build_id version product_id catalog_id : pyobj).

Definition coroutine : Type := list request -> result pyobj * list request.

(** The value that awaiting the coroutine yields. *)
Definition await (c : coroutine) : result pyobj := fst (c []).

(** A body that awaits one answer of a collaborator and then computes
    without awaiting anything more: the request is sent, and the rest runs on
    the answer unless the collaborator raised. *)
Definition awaiting (req : request) (answer : result pyobj)
           (rest : pyobj -> result pyobj) : coroutine :=
  fun sent => (answer ≫= rest, (sent ++ [req])%list).

(** What a call through the facade hands back. *)
Inductive retval : Type :=
| Value (v : pyobj)
| Pending (c : coroutine).

(** The asyncio state of the process, seen from the calling thread. Event
    loops are numbered in the order they are constructed.
    - [current_loop]: the loop the policy holds for the calling thread;
    - [running_loop]: the loop that is running on the calling thread;
    - [running_elsewhere]: the loops that other threads are running;
    - [closed_loops]: the loops that have been closed;
    - [constructed]: how many loops have been constructed;
    - [acquired]: how many times [asyncio.get_event_loop] was called;
    - [driven]: the loops on which [run_until_complete] ran, oldest first;
    - [requests]: the requests sent to the collaborators, oldest first. *)
Record World : Type := mk_world {
  current_loop : option nat;
  running_loop : option nat;
  running_elsewhere : list nat;
  closed_loops : list nat;
  constructed : nat;
  acquired : nat;
  driven : list nat;
  requests : list request
}.

(** [asyncio.get_event_loop()]: the running loop if there is one, else the
    thread's current loop, constructing and installing one if the thread has
    none yet. *)
Definition get_event_loop (w : World) : nat * World :=
  match running_loop w with
  | Some l =>
      (l, mk_world (current_loop w) (running_loop w) (running_elsewhere w)
                   (closed_loops w) (constructed w)
                   (S (acquired w)) (driven w) (requests w))
  | None =>
      match current_loop w with
      | Some l =>
          (l, mk_world (current_loop w) None (running_elsewhere w)
                       (closed_loops w) (constructed w)
                       (S (acquired w)) (driven w) (requests w))
      | None =>
          let l := constructed w in
          (l, mk_world (Some l) None (running_elsewhere w)
                       (closed_loops w) (S (constructed w))
                       (S (acquired w)) (driven w) (requests w))
      end
  end.

(** [loop.is_running()]: the loop is being run, by the calling thread or by
    any other. *)
Definition is_running (l : nat) (w : World) : bool :=
  match running_loop w with
  | Some l' => Nat.eqb l l'
  | None => false
  end
  || existsb (Nat.eqb l) (running_elsewhere w).

(** [loop.is_closed()] *)
Definition is_closed (l : nat) (w : World) : bool :=
  existsb (Nat.eqb l) (closed_loops w).

(** The world once loop [l] has run a coroutine to its end on the calling
    thread, [sent] being the requests sent by then: the loop is idle again. *)
Definition after_run (l : nat) (sent : list request) (w : World) : World :=
  mk_world (current_loop w) None (running_elsewhere w) (closed_loops w)
           (constructed w) (acquired w) (driven w ++ [l]) sent.

(** [loop.run_until_complete(future)]: refused when the loop is closed, when
    it is running already, and when another loop is running on the calling
    thread; otherwise the loop runs until the coroutine has finished, and its
    result or exception is the call's. *)
Definition run_until_complete (l : nat) (future : coroutine) (w : World)
  : result pyobj * World :=
  if is_closed l w then
    (Raise (RuntimeError "Event loop is closed"), w)
  else if is_running l w then
    (Raise (RuntimeError "This event loop is already running"), w)
  else
    match running_loop w with
    | Some _ =>
        (Raise (RuntimeError
                  "Cannot run the event loop while another loop is running"), w)
    | None =>
        let '(r, sent) := future (requests w) in (r, after_run l sent w)
    end.

(** ** [pyapple/client.py] *)
Module client.

(** The collaborators of [HALFTIME], none of which is among the sources:
    [Parser.ipsw(method, endpoint)] and the two queries of [SWSCAN]. Each
    hands back a decoded payload or raises. *)
Record Collaborators : Type := mk_collaborators {
  Parser_ipsw : string -> string -> result pyobj;
  SWSCAN_get_products : pyobj -> result pyobj;
  SWSCAN_get_package : pyobj -> pyobj -> pyobj -> pyobj -> result pyobj
}.

Section HALFTIME.
Variable env : Collaborators.

(** [await Parser.ipsw(method=..., endpoint=...)], then the rest of the body. *)
Definition await_Parser_ipsw (method endpoint : string)
           (rest : pyobj -> result pyobj) : coroutine :=
  awaiting (HTTPRequest method endpoint) (Parser_ipsw env method endpoint) rest.

Definition device (identifier : string) : coroutine :=
  await_Parser_ipsw "GET" ("/device/" +:+ identifier) (fun data =>
    firmwares ← getitem data "firmwares";
    items ← iterate firmwares;
    firmware_list ← comprehension (ios.construct IPSW) items;
    data ← setitem data "firmwares" (PList firmware_list);
    ios.construct iDevice data).

Definition ipsw (identifier buildid : string) : coroutine :=
  await_Parser_ipsw "GET" ("/ipsw/" +:+ identifier +:+ "/" +:+ buildid) (fun data =>
    ios.construct IPSW data).

Definition ipsw_version (version : string) : coroutine :=
  await_Parser_ipsw "GET" ("/ipsw/" +:+ version) (fun data =>
    items ← iterate data;
    PList <$> comprehension (ios.construct IPSW) items).

Definition keys_device (identifier : string) : coroutine :=
  await_Parser_ipsw "GET" ("/keys/device/" +:+ identifier) (fun data =>
    items ← iterate data;
    PList <$> comprehension (ios.construct IPSWKeys) items).

Definition keys (identifier buildid : string) : coroutine :=
  await_Parser_ipsw "GET" ("/keys/ipsw/" +:+ identifier +:+ "/" +:+ buildid) (fun data =>
    keys ← getitem data "keys";
    items ← iterate keys;
    key_list ← comprehension (ios.construct KeysObject) items;
    data ← setitem data "keys" (PList key_list);
    ios.construct IPSWKeys data).

Definition ota (identifier buildid : string) : coroutine :=
  await_Parser_ipsw "GET" ("/ota/" +:+ identifier +:+ "/" +:+ buildid) (fun data =>
    ios.construct OTAIPSW data).

Definition ota_version (version : string) : coroutine :=
  await_Parser_ipsw "GET" ("/ota/" +:+ version) (fun data =>
    items ← iterate data;
    PList <$> comprehension (ios.construct OTAIPSW) items).

Definition available_macos (seed : pyobj) : coroutine :=
  awaiting (ProductsRequest seed) (SWSCAN_get_products env seed) (fun list_macos =>
    Ok list_macos).

Definition get_macos (buildid version product_id seed : pyobj) : coroutine :=
  awaiting (PackageRequest buildid version product_id seed)
           (SWSCAN_get_package env buildid version product_id seed)
           (fun list_specific_macos => Ok list_specific_macos).

(** An operation of [HALFTIME] together with the arguments of one call. *)
Inductive invocation : Type :=
| call_device (identifier : string)
| call_ipsw (identifier buildid : string)
| call_ipsw_version (version : string)
| call_keys_device (identifier : string)
| call_keys (identifier buildid : string)
| call_ota (identifier buildid : string)
| call_ota_version (version : string)
| call_available_macos (seed : pyobj)
| call_get_macos (buildid version product_id seed : pyobj).

Definition method_name (inv : invocation) : string :=
  match inv with
  | call_device _ => "device"
  | call_ipsw _ _ => "ipsw"
  | call_ipsw_version _ => "ipsw_version"
  | call_keys_device _ => "keys_device"
  | call_keys _ _ => "keys"
  | call_ota _ _ => "ota"
  | call_ota_version _ => "ota_version"
  | call_available_macos _ => "available_macos"
  | call_get_macos _ _ _ _ => "get_macos"
  end.

(** Calling a coroutine function with the arguments of the call creates the
    coroutine object and runs none of its body. *)
Definition HALFTIME_call (inv : invocation) : coroutine :=
  match inv with
  | call_device identifier => device identifier
  | call_ipsw identifier buildid => ipsw identifier buildid
  | call_ipsw_version version => ipsw_version version
  | call_keys_device identifier => keys_device identifier
  | call_keys identifier buildid => keys identifier buildid
  | call_ota identifier buildid => ota identifier buildid
  | call_ota_version version => ota_version version
  | call_available_macos seed => available_macos seed
  | call_get_macos buildid version product_id seed =>
      get_macos buildid version product_id seed
  end.

(** The [async def]s of [HALFTIME]: the names for which
    [getattr(super(), name, None)] is a coroutine function. Neither [object]
    nor [Client] defines another. *)
Definition coroutine_functions : list string :=
  ["device"; "ipsw"; "ipsw_version"; "keys_device"; "keys"; "ota";
   "ota_version"; "available_macos"; "get_macos"].

(** The facade instance: the loop handle stored by [__init__]. *)
Record Client : Type := mk_client { loop : nat }.

(** [Client.__init__]: [self.loop = asyncio.get_event_loop()] *)
Definition Client_init (w : World) : Client * World :=
  let '(l, w') := get_event_loop w in (mk_client l, w').

(** [Client.__run_coroutine] *)
Definition run_coroutine (self : Client) (inv : invocation) (w : World)
  : result retval * World :=
  if is_running (loop self) w then
    (Ok (Pending (HALFTIME_call inv)), w)
  else
    let '(r, w') := run_until_complete (loop self) (HALFTIME_call inv) w in
    (Value <$> r, w').

(** What [__getattribute__] hands back. For a name that is none of the
    facade's own, [python_attribute] stands for the outcome of Python's own
    lookup: an attribute that [object] or the class machinery defines, handed
    back unwrapped since it is no coroutine function, or [AttributeError]. *)
Inductive attribute : Type :=
| partial_run_coroutine (name : string)
    (* functools.partial(self.__run_coroutine, attribute) *)
| bound_method (name : string)
| loop_handle (l : nat)
| SWSCAN_instance
| python_attribute (name : string).

(** [Client.__getattribute__]: a coroutine function found through [super()]
    is wrapped; [__init__], found there too, is a plain method; the instance
    attributes and the private method of [Client] are not found through
    [super()] and come from [object.__getattribute__]. *)
Definition getattribute (self : Client) (name : string) : attribute :=
  if existsb (String.eqb name) coroutine_functions then partial_run_coroutine name
  else if String.eqb name "__init__" then bound_method name
  else if String.eqb name "loop" then loop_handle (loop self)
  else if String.eqb name "SWSCAN" then SWSCAN_instance
  else if String.eqb name "_Client__run_coroutine" then bound_method name
  else python_attribute name.

(** A call [client.name(...)]: look the name up, then call what was found. *)
Definition invoke (self : Client) (inv : invocation) (w : World)
  : result retval * World :=
  match getattribute self (method_name inv) with
  | partial_run_coroutine _ => run_coroutine self inv w
  | _ => (Raise (TypeError NotCallable), w)
  end.

(** Calls made one after the other, each outcome kept (a caller may catch
    an exception and go on), while the other threads leave their loops as
    they are. *)
Fixpoint invoke_all (self : Client) (invs : list invocation) (w : World)
  : list (result retval) * World :=
  match invs with
  | [] => ([], w)
  | inv :: rest =>
      let '(r, w') := invoke self inv w in
      let '(rs, w'') := invoke_all self rest w' in
      (r :: rs, w'')
  end.

End HALFTIME.

End client.

(** ** [pyapple/src/ipsw.py] *)
Module ipsw.

(** A coroutine of this class may print: the state is what has been handed
    to [print], oldest first. *)
Definition printing (A : Type) : Type := list pyobj -> result A * list pyobj.

Definition printing_coroutine : Type := printing pyobj.

(** An instance of the operations class [IPSW] of this module. *)
Inductive operations : Type := IPSW_instance.

Section IPSW.
(** [self.HTTP.ipsw(endpoint, return_type)] of [AsyncRequest], which is not
    among the sources. *)
Variable HTTP_ipsw : string -> string -> result pyobj.

(** [AsyncRequest()], which the constructor of the class calls: it returns
    or raises. *)
Variable AsyncRequest : result unit.

(** [ota_docs]: the text is fetched and printed; the function ends without
    a [return], so its value is [None]. *)
Definition ota_docs (identifier version : string) : printing_coroutine :=
  fun stdout =>
    match HTTP_ipsw ("/ota/documentation/" +:+ identifier +:+ "/" +:+ version) "text" with
    | Ok data => (Ok PNone, (stdout ++ [data])%list)
    | Raise e => (Raise e, stdout)
    end.

(** The other operations print nothing: their value is what they build.
    [device] is not modelled: the list it stores under ["firmwares"] holds
    instances of the operations class, which are no values of [pyobj]. *)
Definition silent {A : Type} (r : result A) : printing A := fun stdout => (r, stdout).

(** The module imports the dataclass under the name [IPSW] and then defines
    [class IPSW], which rebinds the name: in the methods, [IPSW] called with
    the items of [data] as keyword arguments calls the operations class,
    whose [__init__(self)] has no other parameter. The first keyword is
    rejected; without any, an instance is made. *)
Definition IPSW_call (data : pyobj) : result operations :=
  match data with
  | PDict [] => _ ← AsyncRequest; Ok IPSW_instance
  | PDict ((key, _) :: _) => Raise (TypeError (UnexpectedKeyword "IPSW.__init__" key))
  | _ => Raise (TypeError NotAMapping)
  end.

Definition ipsw (identifier buildid : string) : printing operations :=
  silent (data ← HTTP_ipsw ("/ipsw/" +:+ identifier +:+ "/" +:+ buildid) "json";
          IPSW_call data).

Definition ipsw_version (version : string) : printing (list operations) :=
  silent (data ← HTTP_ipsw ("/ipsw/" +:+ version) "json";
          items ← iterate data;
          comprehension IPSW_call items).

Definition keys_device (identifier : string) : printing_coroutine :=
  silent (data ← HTTP_ipsw ("/keys/device/" +:+ identifier) "json";
          items ← iterate data;
          PList <$> comprehension (ios.construct IPSWKeys) items).

Definition keys (identifier buildid : string) : printing_coroutine :=
  silent (data ← HTTP_ipsw ("/keys/ipsw/" +:+ identifier +:+ "/" +:+ buildid) "json";
          keys ← getitem data "keys";
          items ← iterate keys;
          key_list ← comprehension (ios.construct Keys) items;
          data ← setitem data "keys" (PList key_list);
          ios.construct IPSWKeys data).

Definition ota (identifier buildid : string) : printing_coroutine :=
  silent (data ← HTTP_ipsw ("/ota/" +:+ identifier +:+ "/" +:+ buildid) "json";
          ios.construct OTAIPSW data).

Definition ota_version (version : string) : printing_coroutine :=
  silent (data ← HTTP_ipsw ("/ota/" +:+ version) "json";
          items ← iterate data;
          PList <$> comprehension (ios.construct OTAIPSW) items).

End IPSW.

End ipsw.

(** ** Timestamp strings, as the specification describes them *)

Definition digit_char (n : Z) : ascii := ascii_of_N (Z.to_N (48 + n)).

Definition pad2 (n : Z) : string :=
  String (digit_char (n / 10)) (String (digit_char (n mod 10)) "").

Definition pad4 (n : Z) : string :=
  String (digit_char (n / 1000)) (String (digit_char (n / 100 mod 10)) (pad2 (n mod 100))).

(** The text [YYYY-MM-DDTHH:MM:SSZ] of a date and a time of day. *)
Definition isoformat_Z (year month day hour minute second : Z) : string :=
  pad4 year +:+ "-" +:+ pad2 month +:+ "-" +:+ pad2 day +:+ "T"
  +:+ pad2 hour +:+ ":" +:+ pad2 minute +:+ ":" +:+ pad2 second +:+ "Z".

Definition is_digit (c : ascii) : bool :=
  match digit_of c with
  | Some _ => true
  | None => false
  end.

(** The strings of ASCII characters only. *)
Definition is_ascii (s : string) : bool :=
  forallb (fun c => (N_of_ascii c <? 128)%N) (list_ascii_of_string s).

(** The shape [dddd-dd-ddTdd:dd:ddZ], every [d] a digit. *)
Definition exact_format (s : string) : bool :=
  match s with
  | String y1 (String y2 (String y3 (String y4 (String "-"
    (String m1 (String m2 (String "-"
    (String d1 (String d2 (String "T"
    (String h1 (String h2 (String ":"
    (String n1 (String n2 (String ":"
    (String s1 (String s2 (String "Z" EmptyString))))))))))))))))))) =>
      forallb is_digit [y1; y2; y3; y4; m1; m2; d1; d2; h1; h2; n1; n2; s1; s2]
  | _ => false
  end.

(** The strings [strptime] reads a number from: four digits for the year;
    one or two digits elsewhere; for the day also a space and a digit. *)
Definition year_number (s : string) : option Z :=
  match s with
  | String a (String b (String c (String d EmptyString))) =>
      match digit_of a, digit_of b, digit_of c, digit_of d with
      | Some x, Some y, Some z, Some t => Some (1000 * x + 100 * y + 10 * z + t)
      | _, _, _, _ => None
      end
  | _ => None
  end.

Definition short_number (s : string) : option Z :=
  match s with
  | String a EmptyString => digit_of a
  | String a (String b EmptyString) =>
      match digit_of a, digit_of b with
      | Some x, Some y => Some (10 * x + y)
      | _, _ => None
      end
  | _ => None
  end.

Definition day_number (s : string) : option Z :=
  match s with
  | String c (String a EmptyString) =>
      if Ascii.eqb c " " then digit_of a else short_number s
  | _ => short_number s
  end.

(** The lenient shape: the numbers need no leading zero and the letters may
    be of either case. *)
Definition lenient_format (s : string) (g : time_groups) : Prop :=
  exists sY sm sd sH sM sS (t z : ascii),
    s = sY +:+ "-" +:+ sm +:+ "-" +:+ sd +:+ String t
          (sH +:+ ":" +:+ sM +:+ ":" +:+ sS +:+ String z EmptyString)
    /\ year_number sY = Some (g_Y g)
    /\ short_number sm = Some (g_m g)
    /\ day_number sd = Some (g_d g)
    /\ short_number sH = Some (g_H g)
    /\ short_number sM = Some (g_M g)
    /\ short_number sS = Some (g_S g)
    /\ lower t = "t"%char /\ lower z = "z"%char.

(** ** What an exception tells its catcher *)

(** The exception carries the name [f]: as a missing argument, as the
    rejected keyword, or as the key of a failed lookup. *)
Definition names_field (e : exn) (f : string) : bool :=
  match e with
  | TypeError (MissingArguments _ names) => existsb (String.eqb f) names
  | TypeError (UnexpectedKeyword _ key) => String.eqb f key
  | KeyError key => String.eqb f key
  | _ => false
  end.

(** The exception carries the record type: the qualified name of the
    constructor of [cls], which CPython 3.10 and later put in the message of
    a bad call; earlier versions give the bare [__init__]. *)
Definition names_record (e : exn) (cls : dataclass) : bool :=
  match e with
  | TypeError (MissingArguments func _) => String.eqb func (ios.init_qualname cls)
  | TypeError (UnexpectedKeyword func _) => String.eqb func (ios.init_qualname cls)
  | _ => false
  end.

(** The [TypeError] of the generated constructor of [cls] for the fields
    that [kwargs] leaves without a value. *)
Definition missing_error (cls : dataclass) (kwargs : list (string * pyobj)) : exn :=
  TypeError (MissingArguments (ios.init_qualname cls) (ios.missing cls kwargs)).

Definition is_instance (cls : dataclass) (obj : pyobj) : bool :=
  match obj with
  | PInstance cls' _ => String.eqb (ios.class_name cls') (ios.class_name cls)
  | _ => false
  end.

(** ** Payloads used as examples *)

(** The firmware of the specification's device scenario. *)
Definition firmware_19A5297e : list (string * pyobj) :=
  [("identifier", PStr "iPhone12,1"); ("buildid", PStr "19A5297e");
   ("version", PStr "15.0"); ("url", PStr "http://x/fw.ipsw");
   ("filesize", PInt 1000); ("sha1sum", PStr "a"); ("md5sum", PStr "b");
   ("releasedate", PNone); ("uploaddate", PStr "2021-09-20T18:00:00Z");
   ("signed", PBool true)].

Definition device_iPhone12_1 : list (string * pyobj) :=
  [("name", PStr "iPhone 11"); ("identifier", PStr "iPhone12,1");
   ("boardconfig", PStr "D421AP"); ("platform", PStr "t8030");
   ("cpid", PStr "0x8030"); ("bdid", PStr "0x08");
   ("firmwares", PList [PDict firmware_19A5297e]); ("boards", PList [])].

Definition key_iBoot : list (string * pyobj) :=
  [("image", PStr "iBoot"); ("filename", PStr "Firmware/all_flash/iBoot.img4");
   ("kbag", PStr "k"); ("key", PStr "0011"); ("iv", PStr "2233");
   ("date", PStr "2021-09-20T18:00:00Z")].

Definition keyset_19A5297e : list (string * pyobj) :=
  [("identifier", PStr "iPhone12,1"); ("buildid", PStr "19A5297e");
   ("codename", PStr "Sky"); ("baseband", PNone);
   ("updateramdiskexists", PBool true); ("restoreramdiskexists", PBool true);
   ("keys", PList [PDict key_iBoot])].

(** A transport that answers every request with the same payload. *)
Definition always (data : pyobj) : client.Collaborators :=
  client.mk_collaborators (fun _ _ => Ok data) (fun _ => Ok data)
                          (fun _ _ _ _ => Ok data).

Definition device_without_firmwares : list (string * pyobj) :=
  [("name", PStr "iPhone 11"); ("identifier", PStr "iPhone12,1");
   ("boardconfig", PStr "D421AP"); ("platform", PStr "t8030");
   ("cpid", PStr "0x8030"); ("bdid", PStr "0x08"); ("boards", PList [])].

(** ** The operations by the shape of their result *)

(** The transport answers a [GET] of [endpoint] with [data]. *)
Definition answers (env : client.Collaborators) (endpoint : string) (data : pyobj) : Prop :=
  client.Parser_ipsw env "GET" endpoint = Ok data.

Definition raises (c : coroutine) : Prop := exists e, await c = Raise e.

(** The operations that build one record of class [cls] from the payload. *)
Definition single_operation (env : client.Collaborators) (cls : dataclass)
           (c : coroutine) (endpoint : string) : Prop :=
  (exists identifier buildid,
      cls = IPSW /\ c = client.ipsw env identifier buildid
      /\ endpoint = "/ipsw/" +:+ identifier +:+ "/" +:+ buildid)
  \/ (exists identifier buildid,
      cls = OTAIPSW /\ c = client.ota env identifier buildid
      /\ endpoint = "/ota/" +:+ identifier +:+ "/" +:+ buildid).

(** The operations that build a list of records of class [cls]. *)
Definition list_operation (env : client.Collaborators) (cls : dataclass)
           (c : coroutine) (endpoint : string) : Prop :=
  (exists version,
      cls = IPSW /\ c = client.ipsw_version env version
      /\ endpoint = "/ipsw/" +:+ version)
  \/ (exists identifier,
      cls = IPSWKeys /\ c = client.keys_device env identifier
      /\ endpoint = "/keys/device/" +:+ identifier)
  \/ (exists version,
      cls = OTAIPSW /\ c = client.ota_version env version
      /\ endpoint = "/ota/" +:+ version).

(** The operations that first build the records of the list under the key
    [nested], of class [inner], and then the record of class [outer]. *)
Definition composite_operation (env : client.Collaborators) (outer inner : dataclass)
           (nested : string) (c : coroutine) (endpoint : string) : Prop :=
  (exists identifier,
      outer = iDevice /\ inner = IPSW /\ nested = "firmwares"
      /\ c = client.device env identifier
      /\ endpoint = "/device/" +:+ identifier)
  \/ (exists identifier buildid,
      outer = IPSWKeys /\ inner = KeysObject /\ nested = "keys"
      /\ c = client.keys env identifier buildid
      /\ endpoint = "/keys/ipsw/" +:+ identifier +:+ "/" +:+ buildid).

(** ** Vocabulary for the further properties *)

(** The instant, in UTC, that the groups of a match denote. *)
Definition instant_of (g : time_groups) : pyobj :=
  PDatetime (mk_datetime (g_Y g) (g_m g) (g_d g) (g_H g) (g_M g) (g_S g) 0 (Some tzutc)).

(** [None], or a valid instant bound to UTC. *)
Definition none_or_utc (v : pyobj) : bool :=
  match v with
  | PNone => true
  | PDatetime dt =>
      valid_datetime (dt_year dt) (dt_month dt) (dt_day dt)
                     (dt_hour dt) (dt_minute dt) (dt_second dt)
      && (dt_microsecond dt =? 0)
      && match dt_tzinfo dt with
         | Some tzutc => true
         | None => false
         end
  | _ => false
  end.

(** The canonical text of an instant. *)
Definition isoformat_of (dt : datetime) : string :=
  isoformat_Z (dt_year dt) (dt_month dt) (dt_day dt)
              (dt_hour dt) (dt_minute dt) (dt_second dt).

(** The endpoint an operation of [HALFTIME] asks the transport for: the
    f-string of its first line. The two catalog queries ask [SWSCAN]. *)
Definition endpoint_of (inv : client.invocation) : option string :=
  match inv with
  | client.call_device identifier => Some ("/device/" +:+ identifier)
  | client.call_ipsw identifier buildid =>
      Some ("/ipsw/" +:+ identifier +:+ "/" +:+ buildid)
  | client.call_ipsw_version version => Some ("/ipsw/" +:+ version)
  | client.call_keys_device identifier => Some ("/keys/device/" +:+ identifier)
  | client.call_keys identifier buildid =>
      Some ("/keys/ipsw/" +:+ identifier +:+ "/" +:+ buildid)
  | client.call_ota identifier buildid =>
      Some ("/ota/" +:+ identifier +:+ "/" +:+ buildid)
  | client.call_ota_version version => Some ("/ota/" +:+ version)
  | client.call_available_macos _ => None
  | client.call_get_macos _ _ _ _ => None
  end.

(** The request an operation of [HALFTIME] sends: the [await] of its first
    line. *)
Definition request_of (inv : client.invocation) : request :=
  match inv with
  | client.call_device identifier => HTTPRequest "GET" ("/device/" +:+ identifier)
  | client.call_ipsw identifier buildid =>
      HTTPRequest "GET" ("/ipsw/" +:+ identifier +:+ "/" +:+ buildid)
  | client.call_ipsw_version version => HTTPRequest "GET" ("/ipsw/" +:+ version)
  | client.call_keys_device identifier =>
      HTTPRequest "GET" ("/keys/device/" +:+ identifier)
  | client.call_keys identifier buildid =>
      HTTPRequest "GET" ("/keys/ipsw/" +:+ identifier +:+ "/" +:+ buildid)
  | client.call_ota identifier buildid =>
      HTTPRequest "GET" ("/ota/" +:+ identifier +:+ "/" +:+ buildid)
  | client.call_ota_version version => HTTPRequest "GET" ("/ota/" +:+ version)
  | client.call_available_macos seed => ProductsRequest seed
  | client.call_get_macos buildid version product_id seed =>
      PackageRequest buildid version product_id seed
  end.

(** A well-formed record of class [cls]: its slots are the declared fields,
    in declaration order, and its timestamps are [None] or instants in UTC. *)
Definition record_of (cls : dataclass) (r : pyobj) : Prop :=
  exists slots, r = PInstance cls slots
    /\ map fst slots = ios.fields cls
    /\ forall f, ios.is_timestamp cls f = true ->
         exists v, dict_get slots f = Some v /\ none_or_utc v = true.

(** Running the body of an operation. *)
Ltac run_operation :=
  unfold await, client.device, client.ipsw, client.ipsw_version,
    client.keys_device, client.keys, client.ota, client.ota_version,
    client.await_Parser_ipsw, awaiting;
  cbn [fst snd].

Ltac run_operation_in H :=
  unfold await, client.device, client.ipsw, client.ipsw_version,
    client.keys_device, client.keys, client.ota, client.ota_version,
    client.await_Parser_ipsw, awaiting in H;
  cbn [fst snd] in H.

(** ** Properties of [to_dt] *)

Section Strptime.

Lemma digit_of_digit_char (n : Z) :
  0 <= n <= 9 -> digit_of (digit_char n) = Some n.
Proof.
  intros Hn. unfold digit_of, digit_char. cbv zeta.
  rewrite N_ascii_embedding by lia.
  rewrite Z2N.id by lia.
  assert (Hin : (48 <=? 48 + n) && (48 + n <=? 57) = true)
    by (apply andb_true_iff; split; apply Z.leb_le; lia).
  rewrite Hin. f_equal. lia.
Qed.

Lemma append_String (c : ascii) (s t : string) :
  String c s +:+ t = String c (s +:+ t).
Proof. reflexivity. Qed.

Lemma append_empty (t : string) : "" +:+ t = t.
Proof. reflexivity. Qed.

Lemma head_bind_cons {A B : Type} (f : A -> list B) (x : A) (tl : list A) (r : B) :
  head (f x) = Some r -> head ((x :: tl) ≫= f) = Some r.
Proof.
  intros Hf. cbn. rewrite head_app, Hf. reflexivity.
Qed.

Lemma re_lit_same (c : ascii) (rest : string) :
  re_lit c (String c rest) = [rest].
Proof.
  unfold re_lit. rewrite Ascii.eqb_refl. reflexivity.
Qed.

Lemma two_digits_pad2 (ok : Z -> Z -> bool) (n : Z) (rest : string) :
  0 <= n <= 99 ->
  two_digits ok (pad2 n +:+ rest)
  = if ok (n / 10) (n mod 10) then [(n, rest)] else [].
Proof.
  intros Hn. unfold two_digits, pad2. rewrite ?append_String, ?append_empty.
  rewrite !digit_of_digit_char by (Z.div_mod_to_equations; lia).
  replace (10 * (n / 10) + n mod 10) with n by (Z.div_mod_to_equations; lia).
  reflexivity.
Qed.

Lemma re_Y_pad4 (n : Z) (rest : string) :
  0 <= n <= 9999 -> re_Y (pad4 n +:+ rest) = [(n, rest)].
Proof.
  intros Hn. unfold re_Y, pad4, pad2. rewrite ?append_String, ?append_empty.
  rewrite !digit_of_digit_char by (Z.div_mod_to_equations; lia).
  do 3 f_equal. Z.div_mod_to_equations; lia.
Qed.

Lemma re_m_pad2 (n : Z) (rest : string) :
  1 <= n <= 12 -> exists tl, re_m (pad2 n +:+ rest) = (n, rest) :: tl.
Proof.
  intros Hn. unfold re_m. rewrite !two_digits_pad2 by lia.
  destruct ((n / 10 =? 1) && (n mod 10 <=? 2)) eqn:E1; [eauto |].
  destruct ((n / 10 =? 0) && (1 <=? n mod 10)) eqn:E2; [eauto |].
  exfalso. Z.div_mod_to_equations; lia.
Qed.

Lemma re_d_pad2 (n : Z) (rest : string) :
  1 <= n <= 31 -> exists tl, re_d (pad2 n +:+ rest) = (n, rest) :: tl.
Proof.
  intros Hn. unfold re_d. rewrite !two_digits_pad2 by lia.
  destruct ((n / 10 =? 3) && (n mod 10 <=? 1)) eqn:E1; [eauto |].
  destruct ((1 <=? n / 10) && (n / 10 <=? 2)) eqn:E2; [eauto |].
  destruct ((n / 10 =? 0) && (1 <=? n mod 10)) eqn:E3; [eauto |].
  exfalso. Z.div_mod_to_equations; lia.
Qed.

Lemma re_H_pad2 (n : Z) (rest : string) :
  0 <= n <= 23 -> exists tl, re_H (pad2 n +:+ rest) = (n, rest) :: tl.
Proof.
  intros Hn. unfold re_H. rewrite !two_digits_pad2 by lia.
  destruct ((n / 10 =? 2) && (n mod 10 <=? 3)) eqn:E1; [eauto |].
  destruct (n / 10 <=? 1) eqn:E2; [eauto |].
  exfalso. Z.div_mod_to_equations; lia.
Qed.

Lemma re_M_pad2 (n : Z) (rest : string) :
  0 <= n <= 59 -> exists tl, re_M (pad2 n +:+ rest) = (n, rest) :: tl.
Proof.
  intros Hn. unfold re_M. rewrite !two_digits_pad2 by lia.
  destruct (n / 10 <=? 5) eqn:E1; [eauto |].
  exfalso. Z.div_mod_to_equations; lia.
Qed.

Lemma re_S_pad2 (n : Z) (rest : string) :
  0 <= n <= 59 -> exists tl, re_S (pad2 n +:+ rest) = (n, rest) :: tl.
Proof.
  intros Hn. unfold re_S. rewrite !two_digits_pad2 by lia.
  destruct ((n / 10 =? 6) && (n mod 10 <=? 1)) eqn:E1;
    [exfalso; Z.div_mod_to_equations; lia |].
  destruct (n / 10 <=? 5) eqn:E2; [eauto |].
  exfalso. Z.div_mod_to_equations; lia.
Qed.

Lemma days_in_month_le (year month : Z) : days_in_month year month <= 31.
Proof.
  unfold days_in_month.
  repeat match goal with |- context [if ?b then _ else _] => destruct b end; lia.
Qed.

Lemma valid_datetime_bounds (Y m d H M S : Z) :
  valid_datetime Y m d H M S = true ->
  1 <= Y <= 9999 /\ 1 <= m <= 12 /\ 1 <= d <= 31
  /\ 0 <= H <= 23 /\ 0 <= M <= 59 /\ 0 <= S <= 59.
Proof.
  unfold valid_datetime. intros Hv.
  pose proof (days_in_month_le Y m). lia.
Qed.

(** The matcher finds the groups of a well-formed timestamp first, with
    nothing left over. *)
Lemma format_regex_isoformat (Y m d H M S : Z) :
  valid_datetime Y m d H M S = true ->
  head (format_regex (isoformat_Z Y m d H M S))
  = Some (mk_groups Y m d H M S, EmptyString).
Proof.
  intros Hv. apply valid_datetime_bounds in Hv.
  destruct Hv as (HY & Hm & Hd & HH & HM & HS).
  unfold format_regex, isoformat_Z.
  rewrite re_Y_pad4 by lia. apply head_bind_cons.
  rewrite ?append_String, ?append_empty.
  rewrite re_lit_same. apply head_bind_cons.
  match goal with |- context [re_m (pad2 m +:+ ?r)] =>
    destruct (re_m_pad2 m r Hm) as [tl ->] end.
  apply head_bind_cons. rewrite re_lit_same. apply head_bind_cons.
  match goal with |- context [re_d (pad2 d +:+ ?r)] =>
    destruct (re_d_pad2 d r Hd) as [tl' ->] end.
  apply head_bind_cons. rewrite re_lit_same. apply head_bind_cons.
  match goal with |- context [re_H (pad2 H +:+ ?r)] =>
    destruct (re_H_pad2 H r HH) as [tl'' ->] end.
  apply head_bind_cons. rewrite re_lit_same. apply head_bind_cons.
  match goal with |- context [re_M (pad2 M +:+ ?r)] =>
    destruct (re_M_pad2 M r HM) as [tl3 ->] end.
  apply head_bind_cons. rewrite re_lit_same. apply head_bind_cons.
  match goal with |- context [re_S (pad2 S +:+ ?r)] =>
    destruct (re_S_pad2 S r HS) as [tl4 ->] end.
  apply head_bind_cons. rewrite re_lit_same. reflexivity.
Qed.

Lemma strptime_isoformat (Y m d H M S : Z) :
  valid_datetime Y m d H M S = true ->
  strptime (PStr (isoformat_Z Y m d H M S)) = Ok (mk_datetime Y m d H M S 0 None).
Proof.
  intros Hv. unfold strptime.
  rewrite format_regex_isoformat by exact Hv.
  cbn. rewrite Hv. reflexivity.
Qed.

(** Conversely, whatever a directive matches is a short number. *)
Lemma two_digits_elem (ok : Z -> Z -> bool) (s : string) (v : Z) (rest : string) :
  (v, rest) ∈ two_digits ok s ->
  exists ds, s = ds +:+ rest /\ short_number ds = Some v
             /\ day_number ds = Some v.
Proof.
  unfold two_digits.
  destruct s as [| c1 [| c2 s']]; try (intros H; inversion H; fail).
  destruct (digit_of c1) as [a |] eqn:Ea; [| intros H; inversion H].
  destruct (digit_of c2) as [b |] eqn:Eb; [| intros H; inversion H].
  destruct (ok a b); [| intros H; inversion H].
  intros H. apply list_elem_of_singleton in H. injection H as -> ->.
  exists (String c1 (String c2 EmptyString)).
  split; [reflexivity |].
  assert (Hs : short_number (String c1 (String c2 "")) = Some (10 * a + b))
    by (cbn; rewrite Ea, Eb; reflexivity).
  split; [exact Hs |].
  unfold day_number. destruct (Ascii.eqb c1 " ") eqn:E; [| exact Hs].
  apply Ascii.eqb_eq in E. subst c1. discriminate Ea.
Qed.

Lemma one_digit_elem (ok : Z -> bool) (s : string) (v : Z) (rest : string) :
  (v, rest) ∈ one_digit ok s ->
  exists c, s = String c rest /\ digit_of c = Some v.
Proof.
  unfold one_digit. destruct s as [| c1 s']; [intros H; inversion H |].
  destruct (digit_of c1) as [a |] eqn:Ea; [| intros H; inversion H].
  destruct (ok a); [| intros H; inversion H].
  intros H. apply list_elem_of_singleton in H. injection H as -> ->.
  eauto.
Qed.

Lemma one_digit_short (ok : Z -> bool) (s : string) (v : Z) (rest : string) :
  (v, rest) ∈ one_digit ok s ->
  exists ds, s = ds +:+ rest /\ short_number ds = Some v
             /\ day_number ds = Some v.
Proof.
  intros H. apply one_digit_elem in H as (c & -> & Hc).
  exists (String c EmptyString). repeat split; exact Hc.
Qed.

Ltac short_alternatives H :=
  repeat (apply elem_of_app in H as [H | H]);
  eauto using two_digits_elem, one_digit_short.

Lemma re_m_elem (s : string) (v : Z) (rest : string) :
  (v, rest) ∈ re_m s -> exists ds, s = ds +:+ rest /\ short_number ds = Some v.
Proof.
  unfold re_m. intros H.
  assert (exists ds, s = ds +:+ rest /\ short_number ds = Some v
                     /\ day_number ds = Some v) as (ds & ? & ? & _)
    by short_alternatives H.
  eauto.
Qed.

Lemma re_H_elem (s : string) (v : Z) (rest : string) :
  (v, rest) ∈ re_H s -> exists ds, s = ds +:+ rest /\ short_number ds = Some v.
Proof.
  unfold re_H. intros H.
  assert (exists ds, s = ds +:+ rest /\ short_number ds = Some v
                     /\ day_number ds = Some v) as (ds & ? & ? & _)
    by short_alternatives H.
  eauto.
Qed.

Lemma re_M_elem (s : string) (v : Z) (rest : string) :
  (v, rest) ∈ re_M s -> exists ds, s = ds +:+ rest /\ short_number ds = Some v.
Proof.
  unfold re_M. intros H.
  assert (exists ds, s = ds +:+ rest /\ short_number ds = Some v
                     /\ day_number ds = Some v) as (ds & ? & ? & _)
    by short_alternatives H.
  eauto.
Qed.

Lemma re_S_elem (s : string) (v : Z) (rest : string) :
  (v, rest) ∈ re_S s -> exists ds, s = ds +:+ rest /\ short_number ds = Some v.
Proof.
  unfold re_S. intros H.
  assert (exists ds, s = ds +:+ rest /\ short_number ds = Some v
                     /\ day_number ds = Some v) as (ds & ? & ? & _)
    by short_alternatives H.
  eauto.
Qed.

Lemma re_d_elem (s : string) (v : Z) (rest : string) :
  (v, rest) ∈ re_d s -> exists ds, s = ds +:+ rest /\ day_number ds = Some v.
Proof.
  unfold re_d. intros H.
  repeat (apply elem_of_app in H as [H | H]).
  - apply two_digits_elem in H as (ds & ? & _ & ?). eauto.
  - apply two_digits_elem in H as (ds & ? & _ & ?). eauto.
  - apply two_digits_elem in H as (ds & ? & _ & ?). eauto.
  - apply one_digit_short in H as (ds & ? & _ & ?). eauto.
  - destruct s as [| c s']; [inversion H |].
    destruct (Ascii.eqb c " ") eqn:E; [| inversion H].
    apply one_digit_elem in H as (a & -> & Ha).
    exists (String c (String a EmptyString)). split; [reflexivity |].
    unfold day_number. rewrite E. exact Ha.
Qed.

Lemma re_Y_elem (s : string) (v : Z) (rest : string) :
  (v, rest) ∈ re_Y s -> exists ds, s = ds +:+ rest /\ year_number ds = Some v.
Proof.
  unfold re_Y.
  destruct s as [| c1 [| c2 [| c3 [| c4 s']]]]; try (intros H; inversion H; fail).
  destruct (digit_of c1) as [a |] eqn:Ea; [| intros H; inversion H].
  destruct (digit_of c2) as [b |] eqn:Eb; [| intros H; inversion H].
  destruct (digit_of c3) as [c |] eqn:Ec; [| intros H; inversion H].
  destruct (digit_of c4) as [d |] eqn:Ed; [| intros H; inversion H].
  intros H. apply list_elem_of_singleton in H. injection H as -> ->.
  exists (String c1 (String c2 (String c3 (String c4 EmptyString)))).
  split; [reflexivity |]. cbn. rewrite Ea, Eb, Ec, Ed. reflexivity.
Qed.

Lemma re_lit_elem (c : ascii) (s rest : string) :
  rest ∈ re_lit c s -> exists x, s = String x rest /\ lower x = lower c.
Proof.
  unfold re_lit. destruct s as [| x s']; [intros H; inversion H |].
  destruct (Ascii.eqb (lower x) (lower c)) eqn:E; [| intros H; inversion H].
  intros H. apply list_elem_of_singleton in H. subst rest.
  apply Ascii.eqb_eq in E. eauto.
Qed.

Lemma lower_punctuation (x c : ascii) :
  (N_of_ascii c < 65)%N -> lower x = lower c -> x = c.
Proof.
  intros Hc. unfold lower at 2.
  replace ((65 <=? N_of_ascii c) && (N_of_ascii c <=? 90))%N with false
    by (symmetry; apply andb_false_iff; left; apply N.leb_gt; exact Hc).
  intros <-. unfold lower in *.
  destruct ((65 <=? N_of_ascii x) && (N_of_ascii x <=? 90))%N eqn:E; [| reflexivity].
  exfalso. apply andb_true_iff in E as [E1 E2].
  apply N.leb_le in E1, E2.
  rewrite N_ascii_embedding in Hc by lia. lia.
Qed.

(** Every match of the compiled format has the lenient shape. *)
Lemma format_regex_lenient (s : string) (g : time_groups) :
  (g, EmptyString) ∈ format_regex s -> lenient_format s g.
Proof.
  unfold format_regex. intros H.
  apply list_elem_of_bind in H as ([yr s1] & H & HY).
  apply list_elem_of_bind in H as (s2 & H & H1).
  apply list_elem_of_bind in H as ([mo s3] & H & Hm).
  apply list_elem_of_bind in H as (s4 & H & H2).
  apply list_elem_of_bind in H as ([dy s5] & H & Hd).
  apply list_elem_of_bind in H as (s6 & H & H3).
  apply list_elem_of_bind in H as ([hh s7] & H & HH).
  apply list_elem_of_bind in H as (s8 & H & H4).
  apply list_elem_of_bind in H as ([mi s9] & H & HM).
  apply list_elem_of_bind in H as (s10 & H & H5).
  apply list_elem_of_bind in H as ([ss s11] & H & HS).
  apply list_elem_of_bind in H as (s12 & H & H6).
  apply list_elem_of_singleton in H. injection H as -> <-.
  apply re_Y_elem in HY as (sY & -> & HY).
  apply re_lit_elem in H1 as (x1 & -> & L1).
  apply re_m_elem in Hm as (sm & -> & Hm).
  apply re_lit_elem in H2 as (x2 & -> & L2).
  apply re_d_elem in Hd as (sd & -> & Hd).
  apply re_lit_elem in H3 as (t & -> & L3).
  apply re_H_elem in HH as (sH & -> & HH).
  apply re_lit_elem in H4 as (x4 & -> & L4).
  apply re_M_elem in HM as (sM & -> & HM).
  apply re_lit_elem in H5 as (x5 & -> & L5).
  apply re_S_elem in HS as (sS & -> & HS).
  apply re_lit_elem in H6 as (z & -> & L6).
  apply lower_punctuation in L1; [subst x1 | reflexivity].
  apply lower_punctuation in L2; [subst x2 | reflexivity].
  apply lower_punctuation in L4; [subst x4 | reflexivity].
  apply lower_punctuation in L5; [subst x5 | reflexivity].
  exists sY, sm, sd, sH, sM, sS, t, z. cbn.
  repeat split; assumption.
Qed.

(** [strptime] on a string: a valid naive instant read off a string of the
    lenient shape, or a [ValueError]. *)
Lemma strptime_string (s : string) :
  match strptime (PStr s) with
  | Ok dt =>
      exists g, lenient_format s g
        /\ valid_datetime (g_Y g) (g_m g) (g_d g) (g_H g) (g_M g) (g_S g) = true
        /\ dt = mk_datetime (g_Y g) (g_m g) (g_d g) (g_H g) (g_M g) (g_S g) 0 None
  | Raise e => exists msg, e = ValueError msg
  end.
Proof.
  unfold strptime.
  destruct (head (format_regex s)) as [[g rest] |] eqn:Eh; [| eauto].
  destruct rest; [| eauto].
  destruct (valid_datetime _ _ _ _ _ _) eqn:Ev; [| eauto].
  exists g. split; [| split; [exact Ev | reflexivity]].
  apply format_regex_lenient, head_Some_elem_of, Eh.
Qed.

End Strptime.

(** ** Properties of record construction *)

Section Dataclasses.

Lemma dict_get_set (items : list (string * pyobj)) (k k' : string) (v : pyobj) :
  dict_get (dict_set items k v) k'
  = if String.eqb k k' then Some v else dict_get items k'.
Proof.
  induction items as [| [k0 w] rest IH]; cbn.
  - destruct (String.eqb k k'); reflexivity.
  - destruct (String.eqb k0 k) eqn:E0; cbn.
    + apply String.eqb_eq in E0. subst k0.
      destruct (String.eqb k k'); reflexivity.
    + rewrite IH. destruct (String.eqb k0 k') eqn:E1; [| reflexivity].
      apply String.eqb_eq in E1. subst k0.
      rewrite String.eqb_sym, E0. reflexivity.
Qed.

Lemma dict_get_bound (kwargs : list (string * pyobj)) (fs : list string) (f : string) :
  dict_get (omap (fun f0 => pair f0 <$> dict_get kwargs f0) fs) f
  = if existsb (String.eqb f) fs then dict_get kwargs f else None.
Proof.
  induction fs as [| f0 fs IH]; [reflexivity |].
  cbn. destruct (dict_get kwargs f0) as [v |] eqn:E0; cbn.
  - rewrite String.eqb_sym.
    destruct (String.eqb f f0) eqn:E; cbn; [| exact IH].
    apply String.eqb_eq in E. subst f0. symmetry. exact E0.
  - rewrite IH. destruct (String.eqb f f0) eqn:E; cbn; [| reflexivity].
    apply String.eqb_eq in E. subst f0. rewrite E0.
    destruct (existsb (String.eqb f) fs); reflexivity.
Qed.

Lemma missing_nil (cls : dataclass) (kwargs : list (string * pyobj)) (f : string) :
  ios.missing cls kwargs = [] -> ios.is_field cls f = true ->
  exists v, dict_get kwargs f = Some v.
Proof.
  unfold ios.missing, ios.is_field. intros Hm Hf.
  apply existsb_exists in Hf as (f0 & Hin & Heq).
  apply String.eqb_eq in Heq. subst f0.
  destruct (dict_get kwargs f) as [v |] eqn:E; [eauto |].
  assert (Hin' : In f (List.filter (fun f => negb (dict_has kwargs f)) (ios.fields cls))).
  { apply filter_In. split; [exact Hin |]. unfold dict_has. rewrite E. reflexivity. }
  rewrite Hm in Hin'. destruct Hin'.
Qed.

Lemma missing_In (cls : dataclass) (kwargs : list (string * pyobj)) (f : string) :
  In f (ios.missing cls kwargs)
  <-> ios.is_field cls f = true /\ dict_get kwargs f = None.
Proof.
  unfold ios.missing, ios.is_field, dict_has. rewrite filter_In.
  split.
  - intros [Hin Hn]. split.
    + apply existsb_exists. exists f. split; [exact Hin | apply String.eqb_refl].
    + destruct (dict_get kwargs f); [discriminate | reflexivity].
  - intros [Hf Hn]. split.
    + apply existsb_exists in Hf as (f0 & Hin & Heq).
      apply String.eqb_eq in Heq. subst f0. exact Hin.
    + rewrite Hn. reflexivity.
Qed.

Lemma bind_arguments_Ok (cls : dataclass) (kwargs self : list (string * pyobj)) :
  ios.bind_arguments cls kwargs = Ok self ->
  ios.unexpected cls kwargs = None /\ ios.missing cls kwargs = []
  /\ self = ios.bound cls kwargs.
Proof.
  unfold ios.bind_arguments.
  destruct (ios.unexpected cls kwargs) as [[k v] |]; [discriminate |].
  destruct (ios.missing cls kwargs); [| discriminate].
  intros [= <-]. auto.
Qed.

Lemma post_init_raise (e : exn) (names : list string) :
  foldl ios.post_init_step (Raise e) names = Raise e.
Proof. induction names as [| n names IH]; [reflexivity | exact IH]. Qed.

Lemma normalize_slot_Ok (self self' : list (string * pyobj)) (name : string) :
  ios.normalize_slot self name = Ok self' ->
  exists v v', dict_get self name = Some v /\ ios.to_dt v = Ok v'
               /\ self' = dict_set self name v'.
Proof.
  unfold ios.normalize_slot, ios.getattr, ios.setattr.
  destruct (dict_get self name) as [v |]; [| discriminate].
  cbn. destruct (ios.to_dt v) as [v' |] eqn:E; [| discriminate].
  cbn. intros [= <-]. eauto.
Qed.

Lemma post_init_fold (names : list string) :
  NoDup names ->
  forall self self', foldl ios.post_init_step (Ok self) names = Ok self' ->
  forall f,
    if existsb (String.eqb f) names
    then exists v v', dict_get self f = Some v /\ ios.to_dt v = Ok v'
                      /\ dict_get self' f = Some v'
    else dict_get self' f = dict_get self f.
Proof.
  induction 1 as [| n names Hn Hnd IH]; intros self self' Hfold f.
  - cbn in *. injection Hfold as ->. reflexivity.
  - cbn in Hfold.
    destruct (ios.normalize_slot self n) as [self1 |] eqn:E1;
      [| rewrite post_init_raise in Hfold; discriminate].
    apply normalize_slot_Ok in E1 as (v & v' & Hget & Hdt & ->).
    specialize (IH _ _ Hfold f). cbn.
    destruct (String.eqb f n) eqn:Efn; cbn.
    + apply String.eqb_eq in Efn. subst n.
      assert (Hex : existsb (String.eqb f) names = false).
      { destruct (existsb (String.eqb f) names) eqn:Ex; [| reflexivity].
        apply existsb_exists in Ex as (f0 & Hin & Heq).
        apply String.eqb_eq in Heq. subst f0.
        exfalso. apply Hn. apply list_elem_of_In. exact Hin. }
      rewrite Hex in IH. rewrite IH, dict_get_set, String.eqb_refl. eauto.
    + rewrite dict_get_set, String.eqb_sym, Efn in IH. exact IH.
Qed.

Lemma post_init_slots_NoDup (cls : dataclass) : NoDup (ios.post_init_slots cls).
Proof.
  destruct cls; cbn; repeat constructor; intros H;
    repeat (apply elem_of_cons in H as [H | H]; [discriminate |]);
    inversion H.
Qed.

Lemma timestamp_is_field (cls : dataclass) (f : string) :
  ios.is_timestamp cls f = true -> ios.is_field cls f = true.
Proof.
  unfold ios.is_timestamp. intros H.
  apply existsb_exists in H as (f0 & Hin & Heq).
  apply String.eqb_eq in Heq. subst f0.
  destruct cls; cbn in Hin; intuition (subst; reflexivity).
Qed.

(** What a successfully built record holds: every declared field, taken
    from the mapping; the timestamp slots through [to_dt]. *)
Lemma construct_Ok (cls : dataclass) (kwargs : list (string * pyobj)) (obj : pyobj) :
  ios.construct cls (PDict kwargs) = Ok obj ->
  exists slots, obj = PInstance cls slots
    /\ ios.unexpected cls kwargs = None
    /\ forall f, ios.is_field cls f = true ->
         exists v, dict_get kwargs f = Some v
           /\ if ios.is_timestamp cls f
              then exists v', ios.to_dt v = Ok v' /\ dict_get slots f = Some v'
              else dict_get slots f = Some v.
Proof.
  unfold ios.construct.
  destruct (ios.bind_arguments cls kwargs) as [self |] eqn:Eb; [| discriminate].
  apply bind_arguments_Ok in Eb as (Hu & Hm & ->). cbn.
  destruct (ios.post_init cls (ios.bound cls kwargs)) as [self' |] eqn:Ep;
    [| discriminate].
  cbn. intros [= <-]. exists self'. split; [reflexivity |]. split; [exact Hu |].
  intros f Hf. destruct (missing_nil cls kwargs f Hm Hf) as [v Hv].
  exists v. split; [exact Hv |].
  pose proof (post_init_fold _ (post_init_slots_NoDup cls) _ _ Ep f) as Hp.
  unfold ios.is_timestamp.
  assert (Hb : dict_get (ios.bound cls kwargs) f = Some v).
  { unfold ios.bound. rewrite dict_get_bound.
    unfold ios.is_field in Hf. rewrite Hf. exact Hv. }
  destruct (existsb (String.eqb f) (ios.post_init_slots cls)).
  - destruct Hp as (v0 & v' & H0 & Hdt & Hs). rewrite Hb in H0.
    injection H0 as <-. eauto.
  - rewrite Hp. exact Hb.
Qed.

Lemma dict_get_In (items : list (string * pyobj)) (k : string) :
  dict_get items k <> None <-> In k (map fst items).
Proof.
  induction items as [| [k0 v] rest IH]; cbn.
  - split; [congruence | tauto].
  - destruct (String.eqb k0 k) eqn:E.
    + apply String.eqb_eq in E. split; [auto | congruence].
    + apply String.eqb_neq in E. rewrite IH. tauto.
Qed.

Lemma unexpected_Some (cls : dataclass) (kwargs : list (string * pyobj)) (k : string) :
  dict_get kwargs k <> None -> ios.is_field cls k = false ->
  exists k' v', ios.unexpected cls kwargs = Some (k', v')
    /\ dict_get kwargs k' <> None /\ ios.is_field cls k' = false.
Proof.
  intros Hk Hf. apply dict_get_In in Hk. apply in_map_iff in Hk as ([k0 v] & Hfst & Hin).
  cbn in Hfst. subst k0. unfold ios.unexpected.
  destruct (List.find _ kwargs) as [[k' v'] |] eqn:E.
  - apply find_some in E as [Hin' Hnf]. cbn in Hnf.
    exists k', v'. split; [reflexivity |]. split.
    + apply dict_get_In, in_map_iff. exists (k', v'). auto.
    + apply negb_true_iff. exact Hnf.
  - exfalso. pose proof (find_none _ _ E _ Hin) as Hn. cbn in Hn.
    rewrite Hf in Hn. discriminate.
Qed.

Lemma unexpected_None (cls : dataclass) (kwargs : list (string * pyobj)) (k : string) :
  ios.unexpected cls kwargs = None -> dict_get kwargs k <> None ->
  ios.is_field cls k = true.
Proof.
  intros Hu Hk. destruct (ios.is_field cls k) eqn:E; [reflexivity |].
  destruct (unexpected_Some cls kwargs k Hk E) as (k' & v' & Hs & _).
  congruence.
Qed.

(** An undeclared key makes the constructor raise, whatever else the
    mapping holds. *)
Lemma construct_unexpected (cls : dataclass) (kwargs : list (string * pyobj)) (k : string) :
  dict_get kwargs k <> None -> ios.is_field cls k = false ->
  exists k', ios.construct cls (PDict kwargs)
             = Raise (TypeError (UnexpectedKeyword (ios.init_qualname cls) k'))
    /\ dict_get kwargs k' <> None /\ ios.is_field cls k' = false.
Proof.
  intros Hk Hf.
  destruct (unexpected_Some cls kwargs k Hk Hf) as (k' & v' & Hu & Hk' & Hf').
  exists k'. split; [| auto].
  unfold ios.construct, ios.bind_arguments. rewrite Hu. reflexivity.
Qed.

(** With declared keys only, the absent fields are reported together, under
    the constructor's qualified name. *)
Lemma construct_missing (cls : dataclass) (kwargs : list (string * pyobj)) (f : string) :
  ios.unexpected cls kwargs = None ->
  ios.is_field cls f = true -> dict_get kwargs f = None ->
  ios.construct cls (PDict kwargs)
  = Raise (TypeError (MissingArguments (ios.init_qualname cls) (ios.missing cls kwargs)))
  /\ In f (ios.missing cls kwargs).
Proof.
  intros Hu Hf Hn.
  assert (Hin : In f (ios.missing cls kwargs)) by (apply missing_In; auto).
  split; [| exact Hin].
  unfold ios.construct, ios.bind_arguments. rewrite Hu.
  destruct (ios.missing cls kwargs); [destruct Hin | reflexivity].
Qed.

(** A mapping that lacks a declared field never yields a record. *)
Lemma construct_incomplete (cls : dataclass) (kwargs : list (string * pyobj)) (f : string) :
  ios.is_field cls f = true -> dict_get kwargs f = None ->
  exists e, ios.construct cls (PDict kwargs) = Raise e.
Proof.
  intros Hf Hn.
  destruct (ios.unexpected cls kwargs) as [[k v] |] eqn:Hu.
  - unfold ios.construct, ios.bind_arguments. rewrite Hu. eauto.
  - destruct (construct_missing cls kwargs f Hu Hf Hn) as [-> _]. eauto.
Qed.

Lemma post_init_total (names : list string) :
  forall self,
    (forall f, In f names -> exists v, dict_get self f = Some v
                                       /\ exists v', ios.to_dt v = Ok v') ->
    NoDup names ->
    exists self', foldl ios.post_init_step (Ok self) names = Ok self'.
Proof.
  induction names as [| n names IH]; intros self Hall Hnd; [cbn; eauto |].
  apply NoDup_cons in Hnd as [Hn Hnd].
  destruct (Hall n (or_introl eq_refl)) as (v & Hv & v' & Hdt).
  cbn. unfold ios.normalize_slot, ios.getattr. rewrite Hv. cbn. rewrite Hdt. cbn.
  apply IH; [| exact Hnd].
  intros f Hf. destruct (Hall f (or_intror Hf)) as (u & Hu & Hu').
  exists u. split; [| exact Hu'].
  unfold ios.setattr. rewrite dict_get_set.
  destruct (String.eqb n f) eqn:E; [| exact Hu].
  apply String.eqb_eq in E. subst f. exfalso. apply Hn, list_elem_of_In, Hf.
Qed.

(** The constructor returns a record whenever the mapping has exactly the
    declared keys and its timestamps are acceptable to [to_dt]. *)
Lemma construct_total (cls : dataclass) (kwargs : list (string * pyobj)) :
  ios.unexpected cls kwargs = None -> ios.missing cls kwargs = [] ->
  (forall f v, ios.is_timestamp cls f = true -> dict_get kwargs f = Some v ->
               exists v', ios.to_dt v = Ok v') ->
  exists slots, ios.construct cls (PDict kwargs) = Ok (PInstance cls slots).
Proof.
  intros Hu Hm Hts.
  unfold ios.construct, ios.bind_arguments. rewrite Hu, Hm. cbn.
  destruct (post_init_total (ios.post_init_slots cls) (ios.bound cls kwargs))
    as [self' Hs].
  - intros f Hf.
    assert (Ht : ios.is_timestamp cls f = true).
    { apply existsb_exists. exists f. split; [exact Hf | apply String.eqb_refl]. }
    destruct (missing_nil cls kwargs f Hm (timestamp_is_field cls f Ht)) as [v Hv].
    exists v. split; [| eauto].
    unfold ios.bound. rewrite dict_get_bound.
    pose proof (timestamp_is_field cls f Ht) as Hfld. unfold ios.is_field in Hfld.
    rewrite Hfld. exact Hv.
  - apply post_init_slots_NoDup.
  - unfold ios.post_init. rewrite Hs. cbn. eauto.
Qed.

(** A comprehension returns exactly when every element builds, and then
    element by element, in order. *)
Lemma comprehension_Ok {A B : Type} (f : A -> result B) (xs : list A) (ys : list B) :
  comprehension f xs = Ok ys <-> Forall2 (fun x y => f x = Ok y) xs ys.
Proof.
  revert ys. induction xs as [| x xs IH]; intros ys; cbn.
  - split; [intros [= <-]; constructor | intros H; inversion H; reflexivity].
  - destruct (f x) as [y |] eqn:Ex.
    + destruct (comprehension f xs) as [ys' |] eqn:Exs.
      * split.
        -- intros [= <-]. constructor; [exact Ex | apply IH; reflexivity].
        -- intros H. inversion H as [| ? y0 ? ys0 Hy Hys]; subst.
           apply IH in Hys. congruence.
      * split; [discriminate |].
        intros H. inversion H as [| ? y0 ? ys0 Hy Hys]; subst.
        apply IH in Hys. discriminate.
    + split; [discriminate |].
      intros H. inversion H; subst. congruence.
Qed.

Lemma comprehension_total {A B : Type} (f : A -> result B) (xs : list A) :
  (forall x, In x xs -> exists y, f x = Ok y) ->
  exists ys, comprehension f xs = Ok ys.
Proof.
  induction xs as [| x xs IH]; intros Hall; cbn; [eauto |].
  destruct (Hall x (or_introl eq_refl)) as [y ->].
  destruct IH as [ys ->]; [intros x' Hx'; apply Hall; right; exact Hx' |].
  eauto.
Qed.

Lemma comprehension_raise {A B : Type} (f : A -> result B) (xs : list A) (x : A) (e : exn) :
  In x xs -> f x = Raise e -> exists e', comprehension f xs = Raise e'.
Proof.
  intros Hin Hx.
  destruct (comprehension f xs) as [ys |] eqn:E; [| eauto].
  apply comprehension_Ok in E. apply list_elem_of_In in Hin.
  apply list_elem_of_lookup in Hin as [i Hi].
  destruct (Forall2_lookup_l _ _ _ _ _ E Hi) as (y & _ & Hy). congruence.
Qed.

(** The exception of a comprehension is that of its first failing element. *)
Lemma comprehension_first_raise {A B : Type} (f : A -> result B)
      (pre : list A) (x : A) (post : list A) (e : exn) :
  (forall y, In y pre -> exists r, f y = Ok r) -> f x = Raise e ->
  comprehension f (pre ++ x :: post) = Raise e.
Proof.
  induction pre as [| y pre IH]; intros Hpre Hx; cbn.
  - rewrite Hx. reflexivity.
  - destruct (Hpre y (or_introl eq_refl)) as [r ->].
    rewrite IH; [reflexivity | | exact Hx].
    intros y' Hy'. apply Hpre. right. exact Hy'.
Qed.

End Dataclasses.

(** ** Timestamp normalisation *)

Lemma exact_format_isoformat (Y m d H M S : Z) :
  valid_datetime Y m d H M S = true ->
  exact_format (isoformat_Z Y m d H M S) = true.
Proof.
  intros Hv. apply valid_datetime_bounds in Hv.
  destruct Hv as (HY & Hm & Hd & HH & HM & HS).
  unfold isoformat_Z, pad4, pad2. rewrite ?append_String, ?append_empty.
  cbn [exact_format forallb]. unfold is_digit.
  rewrite !digit_of_digit_char by (Z.div_mod_to_equations; lia).
  reflexivity.
Qed.

Lemma to_dt_isoformat (Y m d H M S : Z) :
  valid_datetime Y m d H M S = true ->
  ios.to_dt (PStr (isoformat_Z Y m d H M S))
  = Ok (PDatetime (mk_datetime Y m d H M S 0 (Some tzutc))).
Proof.
  intros Hv. unfold ios.to_dt. rewrite strptime_isoformat by exact Hv. reflexivity.
Qed.

Lemma construct_timestamp (cls : dataclass) (f : string)
      (kwargs : list (string * pyobj)) (obj : pyobj) :
  ios.is_timestamp cls f = true ->
  ios.construct cls (PDict kwargs) = Ok obj ->
  exists v v', dict_get kwargs f = Some v /\ ios.to_dt v = Ok v'
               /\ ios.field obj f = Some v'.
Proof.
  intros Ht Hc. apply construct_Ok in Hc as (slots & -> & _ & Hf).
  destruct (Hf f (timestamp_is_field cls f Ht)) as (v & Hv & Hs).
  rewrite Ht in Hs. destruct Hs as (v' & Hdt & Hs). cbn. eauto.
Qed.

(** C2. Every timestamp field of every record ([releasedate] and
    [uploaddate] of [IPSW] and of [OTA], [date] of [FirmwareKeys]) goes
    through [to_dt]: [None] stays [None], and the text
    [YYYY-MM-DDTHH:MM:SSZ] of a valid date and time becomes the instant with
    these very components and [tzinfo] set to UTC. A mapping with exactly the
    declared keys whose timestamps are of these two kinds does build. *)
Theorem C2_timestamps_normalized (Y m d H M S : Z) :
  valid_datetime Y m d H M S = true ->
  let text := PStr (isoformat_Z Y m d H M S) in
  let instant := PDatetime (mk_datetime Y m d H M S 0 (Some tzutc)) in
  exact_format (isoformat_Z Y m d H M S) = true
  /\ ios.to_dt PNone = Ok PNone
  /\ ios.to_dt text = Ok instant
  /\ (forall cls f kwargs obj,
        ios.is_timestamp cls f = true ->
        ios.construct cls (PDict kwargs) = Ok obj ->
        (dict_get kwargs f = Some PNone -> ios.field obj f = Some PNone)
        /\ (dict_get kwargs f = Some text -> ios.field obj f = Some instant))
  /\ (forall cls kwargs,
        ios.unexpected cls kwargs = None -> ios.missing cls kwargs = [] ->
        (forall f v, ios.is_timestamp cls f = true -> dict_get kwargs f = Some v ->
                     v = PNone \/ v = text) ->
        exists slots, ios.construct cls (PDict kwargs) = Ok (PInstance cls slots))
  /\ (forall cls f, ios.is_timestamp cls f = true <->
        (cls = IPSW /\ (f = "releasedate" \/ f = "uploaddate"))
        \/ (cls = OTA /\ (f = "releasedate" \/ f = "uploaddate"))
        \/ (cls = FirmwareKeys /\ f = "date")).
Proof.
  intros Hv text instant.
  split; [apply exact_format_isoformat, Hv |].
  split; [reflexivity |].
  split; [apply to_dt_isoformat, Hv |].
  split; [| split].
  - intros cls f kwargs obj Ht Hc.
    destruct (construct_timestamp cls f kwargs obj Ht Hc) as (v & v' & Hg & Hdt & Hf).
    split; intros Hin; rewrite Hin in Hg; injection Hg as <-.
    + cbn in Hdt. congruence.
    + unfold text in Hdt. rewrite to_dt_isoformat in Hdt by exact Hv.
      injection Hdt as <-. exact Hf.
  - intros cls kwargs Hu Hm Hts. apply construct_total; [exact Hu | exact Hm |].
    intros f v Ht Hg. destruct (Hts f v Ht Hg) as [-> | ->].
    + exists PNone. reflexivity.
    + exists instant. apply to_dt_isoformat, Hv.
  - intros cls f. unfold ios.is_timestamp. split.
    + intros Hex. apply existsb_exists in Hex as (f0 & Hin & Heq).
      apply String.eqb_eq in Heq. subst f0.
      destruct cls; cbn in Hin; intuition auto.
    + intros [[-> [-> | ->]] | [[-> [-> | ->]] | [-> ->]]]; reflexivity.
Qed.

Lemma C2_timestamps_normalized_witness :
  ios.to_dt (PStr "2021-09-20T18:00:00Z")
  = Ok (PDatetime (mk_datetime 2021 9 20 18 0 0 0 (Some tzutc))).
Proof.
  exact (proj1 (proj2 (proj2 (C2_timestamps_normalized 2021 9 20 18 0 0 eq_refl)))).
Defined.

(** ** The operations of [HALFTIME] *)

Section Operations.
Variable env : client.Collaborators.

Lemma single_operation_await (cls : dataclass) (c : coroutine) (endpoint : string)
      (data : pyobj) :
  single_operation env cls c endpoint -> answers env endpoint data ->
  await c = ios.construct cls data.
Proof.
  unfold answers.
  intros [(i & b & -> & -> & ->) | (i & b & -> & -> & ->)] Ha;
    run_operation; rewrite Ha; reflexivity.
Qed.

Lemma list_operation_await (cls : dataclass) (c : coroutine) (endpoint : string)
      (data : pyobj) :
  list_operation env cls c endpoint -> answers env endpoint data ->
  await c = (items ← iterate data; PList <$> comprehension (ios.construct cls) items).
Proof.
  unfold answers.
  intros [(v & -> & -> & ->) | [(i & -> & -> & ->) | (v & -> & -> & ->)]] Ha;
    run_operation; rewrite Ha; reflexivity.
Qed.

Lemma composite_operation_await (outer inner : dataclass) (nested : string)
      (c : coroutine) (endpoint : string) (kwargs : list (string * pyobj)) :
  composite_operation env outer inner nested c endpoint ->
  answers env endpoint (PDict kwargs) ->
  await c =
  match dict_get kwargs nested with
  | None => Raise (KeyError nested)
  | Some v =>
      items ← iterate v;
      l ← comprehension (ios.construct inner) items;
      ios.construct outer (PDict (dict_set kwargs nested (PList l)))
  end.
Proof.
  unfold answers.
  intros [(i & -> & -> & -> & -> & ->) | (i & b & -> & -> & -> & -> & ->)] Ha;
    run_operation; rewrite Ha; cbn;
    destruct (dict_get kwargs _); reflexivity.
Qed.

(** Whatever the nested list holds, a composite operation fails when the
    outer constructor refuses every completion of the mapping. *)
Lemma composite_operation_raises (outer inner : dataclass) (nested : string)
      (c : coroutine) (endpoint : string) (kwargs : list (string * pyobj)) :
  composite_operation env outer inner nested c endpoint ->
  answers env endpoint (PDict kwargs) ->
  (forall v, exists e,
      ios.construct outer (PDict (dict_set kwargs nested v)) = Raise e) ->
  raises c.
Proof.
  intros Hop Ha Hall. unfold raises.
  rewrite (composite_operation_await _ _ _ _ _ _ Hop Ha).
  destruct (dict_get kwargs nested) as [v |]; [| eauto].
  destruct (iterate v) as [items |]; cbn; [| eauto].
  destruct (comprehension (ios.construct inner) items) as [l |]; cbn; [| eauto].
  apply Hall.
Qed.

End Operations.

(** The operations of class [IPSW] in [src/ipsw.py] that do not mention the
    rebound name build the same values as those of [HALFTIME] from the same
    answers. *)
Lemma ipsw_agrees_with_client (env : client.Collaborators)
      (HTTP_ipsw : string -> string -> result pyobj) (stdout : list pyobj) :
  (forall endpoint, HTTP_ipsw endpoint "json" = client.Parser_ipsw env "GET" endpoint) ->
  (forall i, ipsw.keys_device HTTP_ipsw i stdout
             = (await (client.keys_device env i), stdout))
  /\ (forall i b, ipsw.keys HTTP_ipsw i b stdout = (await (client.keys env i b), stdout))
  /\ (forall i b, ipsw.ota HTTP_ipsw i b stdout = (await (client.ota env i b), stdout))
  /\ (forall v, ipsw.ota_version HTTP_ipsw v stdout
                = (await (client.ota_version env v), stdout)).
Proof.
  intros Hsame.
  repeat split; intros;
    unfold ipsw.keys_device, ipsw.keys, ipsw.ota, ipsw.ota_version, ipsw.silent;
    run_operation; rewrite Hsame; reflexivity.
Qed.

(** ** Missing and undeclared fields *)

Lemma names_missing (cls : dataclass) (kwargs : list (string * pyobj)) (f : string) :
  In f (ios.missing cls kwargs) ->
  names_field (missing_error cls kwargs) f = true
  /\ names_record (missing_error cls kwargs) cls = true.
Proof.
  intros Hin. cbn. split; [| apply String.eqb_refl].
  apply existsb_exists. exists f. split; [exact Hin | apply String.eqb_refl].
Qed.

Lemma unexpected_None_iff (cls : dataclass) (kwargs : list (string * pyobj)) :
  ios.unexpected cls kwargs = None
  <-> forall k, dict_get kwargs k <> None -> ios.is_field cls k = true.
Proof.
  split.
  - intros Hu k. apply unexpected_None, Hu.
  - intros Hall. destruct (ios.unexpected cls kwargs) as [[k v] |] eqn:E; [| reflexivity].
    unfold ios.unexpected in E. apply find_some in E as [Hin Hnf]. cbn in Hnf.
    rewrite Hall in Hnf; [discriminate |].
    apply dict_get_In, in_map_iff. exists (k, v). auto.
Qed.

Lemma missing_nil_iff (cls : dataclass) (kwargs : list (string * pyobj)) :
  ios.missing cls kwargs = []
  <-> forall f, ios.is_field cls f = true -> dict_get kwargs f <> None.
Proof.
  split.
  - intros Hm f Hf. destruct (missing_nil cls kwargs f Hm Hf) as [v ->]. discriminate.
  - intros Hall. destruct (ios.missing cls kwargs) as [| f rest] eqn:E; [reflexivity |].
    assert (Hin : In f (ios.missing cls kwargs)) by (rewrite E; left; reflexivity).
    apply missing_In in Hin as [Hf Hn]. exfalso. apply (Hall f Hf Hn).
Qed.

Lemma dict_set_present (items : list (string * pyobj)) (k : string) (v : pyobj) :
  dict_get items k <> None ->
  forall k', dict_get (dict_set items k v) k' <> None <-> dict_get items k' <> None.
Proof.
  intros Hk k'. rewrite dict_get_set. destruct (String.eqb k k') eqn:E; [| tauto].
  apply String.eqb_eq in E. subst k'. split; [auto | discriminate].
Qed.

(** Storing a value under a key the mapping has already changes neither the
    fields it leaves out nor its having declared keys only. *)
Lemma missing_dict_set (cls : dataclass) (kwargs : list (string * pyobj))
      (k : string) (v : pyobj) :
  dict_get kwargs k <> None ->
  ios.missing cls (dict_set kwargs k v) = ios.missing cls kwargs.
Proof.
  intros Hk. unfold ios.missing. apply List.filter_ext. intros f. f_equal.
  unfold dict_has. rewrite dict_get_set.
  destruct (String.eqb k f) eqn:E; [| reflexivity].
  apply String.eqb_eq in E. subst f.
  destruct (dict_get kwargs k); [reflexivity | congruence].
Qed.

Lemma unexpected_dict_set (cls : dataclass) (kwargs : list (string * pyobj))
      (k : string) (v : pyobj) :
  dict_get kwargs k <> None -> ios.unexpected cls kwargs = None ->
  ios.unexpected cls (dict_set kwargs k v) = None.
Proof.
  intros Hk Hu. apply unexpected_None_iff. intros k' Hk'.
  apply (dict_set_present _ _ _ Hk) in Hk'. revert k' Hk'.
  apply unexpected_None_iff, Hu.
Qed.

(** The constructor's error for a missing field, when all keys are
    declared: it names the field and the record. *)
Lemma construct_missing_error (cls : dataclass) (kwargs : list (string * pyobj))
      (f : string) :
  ios.is_field cls f = true -> dict_get kwargs f = None ->
  ios.unexpected cls kwargs = None ->
  ios.construct cls (PDict kwargs) = Raise (missing_error cls kwargs)
  /\ names_field (missing_error cls kwargs) f = true
  /\ names_record (missing_error cls kwargs) cls = true.
Proof.
  intros Hf Hn Hu. destruct (construct_missing cls kwargs f Hu Hf Hn) as [Hc Hin].
  split; [exact Hc | apply names_missing, Hin].
Qed.

(** An undeclared key hides the missing fields: the constructor's error is
    about that key, and names no missing field. *)
Lemma undeclared_key_hides_missing_field :
  ios.is_field IPSW "signed" = true
  /\ dict_get [("colour", PStr "red")] "signed" = None
  /\ ios.construct IPSW (PDict [("colour", PStr "red")])
     = Raise (TypeError (UnexpectedKeyword "IPSW.__init__" "colour"))
  /\ names_field (TypeError (UnexpectedKeyword "IPSW.__init__" "colour")) "signed" = false.
Proof. repeat split. Qed.

(** C4, counterexample. A device payload without ["firmwares"], a field the
    record [iDevice] requires, makes [device] raise [KeyError 'firmwares']: the
    exception carries the key and nothing about the record being built. *)
Lemma C4_counterexample :
  ~ (forall env identifier kwargs f,
       answers env ("/device/" +:+ identifier) (PDict kwargs) ->
       ios.is_field iDevice f = true -> dict_get kwargs f = None ->
       exists e, await (client.device env identifier) = Raise e
                 /\ names_field e f = true /\ names_record e iDevice = true).
Proof.
  intros H.
  destruct (H (always (PDict device_without_firmwares)) "iPhone12,1"
              device_without_firmwares "firmwares" eq_refl eq_refl eq_refl)
    as (e & He & _ & Hr).
  vm_compute in He. injection He as <-. discriminate Hr.
Qed.

(** C4, amended. A mapping [kwargs] that omits a declared field [f] of the
    record [cls] never yields a record, and nothing is defaulted: the
    constructor raises, and so does every operation that builds the record
    from it, be it the whole payload ([ipsw], [ota]), an element of the
    payload ([ipsw_version], [keys_device], [ota_version]), the outer mapping
    of [device] or [keys], or an element of their nested list. The error is
    the constructor's [TypeError] that lists the missing fields under the
    constructor's qualified name, as CPython 3.10 and later word it, and so
    names both [f] and the record, provided that all keys of [kwargs] are
    declared fields and that the operation gets as far as building the
    record: the elements before it build, and for the outer mapping of
    [device] and [keys] the nested list is there and builds. An outer mapping
    without its nested list makes [device] and [keys] raise the [KeyError] of
    the lookup instead, which names the key only. *)
Theorem C4_missing_field_raises (cls : dataclass) (kwargs : list (string * pyobj))
        (f : string) :
  ios.is_field cls f = true -> dict_get kwargs f = None ->
  (exists e, ios.construct cls (PDict kwargs) = Raise e)
  /\ (ios.unexpected cls kwargs = None ->
      ios.construct cls (PDict kwargs) = Raise (missing_error cls kwargs)
      /\ names_field (missing_error cls kwargs) f = true
      /\ names_record (missing_error cls kwargs) cls = true)
  /\ (forall env c endpoint,
        single_operation env cls c endpoint ->
        answers env endpoint (PDict kwargs) ->
        raises c
        /\ (ios.unexpected cls kwargs = None ->
            await c = Raise (missing_error cls kwargs)))
  /\ (forall env c endpoint pre post,
        list_operation env cls c endpoint ->
        answers env endpoint (PList (pre ++ PDict kwargs :: post)) ->
        raises c
        /\ ((forall m, In m pre -> exists r, ios.construct cls m = Ok r) ->
            ios.unexpected cls kwargs = None ->
            await c = Raise (missing_error cls kwargs)))
  /\ (forall env inner nested c endpoint,
        composite_operation env cls inner nested c endpoint ->
        answers env endpoint (PDict kwargs) ->
        raises c
        /\ (dict_get kwargs nested = None -> await c = Raise (KeyError nested))
        /\ (forall ms,
              dict_get kwargs nested = Some (PList ms) ->
              (forall m, In m ms -> exists r, ios.construct inner m = Ok r) ->
              ios.unexpected cls kwargs = None ->
              await c = Raise (missing_error cls kwargs)))
  /\ (forall env outer nested c endpoint payload pre post,
        composite_operation env outer cls nested c endpoint ->
        answers env endpoint (PDict payload) ->
        dict_get payload nested = Some (PList (pre ++ PDict kwargs :: post)) ->
        raises c
        /\ ((forall m, In m pre -> exists r, ios.construct cls m = Ok r) ->
            ios.unexpected cls kwargs = None ->
            await c = Raise (missing_error cls kwargs))).
Proof.
  intros Hf Hn.
  pose proof (construct_incomplete cls kwargs f Hf Hn) as Hraise.
  pose proof (construct_missing_error cls kwargs f Hf Hn) as Hexact.
  split; [exact Hraise |]. split; [exact Hexact |].
  split; [| split; [| split]].
  - intros env c endpoint Hop Ha. unfold raises.
    rewrite (single_operation_await env _ _ _ _ Hop Ha).
    split; [exact Hraise | intros Hu; apply Hexact, Hu].
  - intros env c endpoint pre post Hop Ha. unfold raises.
    rewrite (list_operation_await env _ _ _ _ Hop Ha). cbn. split.
    + destruct Hraise as [e He].
      destruct (comprehension_raise (ios.construct cls) (pre ++ PDict kwargs :: post)
                  (PDict kwargs) e) as [e' ->];
        [apply in_or_app; right; left; reflexivity | exact He | cbn; eauto].
    + intros Hpre Hu. destruct (Hexact Hu) as [Hc _].
      rewrite (comprehension_first_raise _ pre _ post _ Hpre Hc). reflexivity.
  - intros env inner nested c endpoint Hop Ha. unfold raises.
    rewrite (composite_operation_await env _ _ _ _ _ _ Hop Ha).
    split; [| split].
    + destruct (dict_get kwargs nested) as [v |] eqn:Hv; [| eauto].
      destruct (iterate v) as [items |]; cbn; [| eauto].
      destruct (comprehension (ios.construct inner) items) as [l |]; cbn; [| eauto].
      apply (construct_incomplete cls _ f Hf).
      rewrite dict_get_set. destruct (String.eqb nested f) eqn:E; [| exact Hn].
      apply String.eqb_eq in E. subst f. congruence.
    + intros ->. reflexivity.
    + intros ms Hms Hall Hu. rewrite Hms.
      destruct (comprehension_total _ _ Hall) as [recs Hrecs].
      change (comprehension (ios.construct inner) ms
              ≫= (fun l => ios.construct cls (PDict (dict_set kwargs nested (PList l))))
              = Raise (missing_error cls kwargs)).
      rewrite Hrecs.
      change (ios.construct cls (PDict (dict_set kwargs nested (PList recs)))
              = Raise (missing_error cls kwargs)).
      assert (Hp : dict_get kwargs nested <> None) by (rewrite Hms; discriminate).
      destruct (construct_missing_error cls (dict_set kwargs nested (PList recs)) f Hf)
        as [Hc _].
      * rewrite dict_get_set. destruct (String.eqb nested f) eqn:E; [| exact Hn].
        apply String.eqb_eq in E. subst f. congruence.
      * apply unexpected_dict_set; assumption.
      * rewrite Hc. unfold missing_error. rewrite missing_dict_set by exact Hp.
        reflexivity.
  - intros env outer nested c endpoint payload pre post Hop Ha Hnested. unfold raises.
    rewrite (composite_operation_await env _ _ _ _ _ _ Hop Ha), Hnested. cbn. split.
    + destruct Hraise as [e He].
      destruct (comprehension_raise (ios.construct cls) (pre ++ PDict kwargs :: post)
                  (PDict kwargs) e) as [e' ->];
        [apply in_or_app; right; left; reflexivity | exact He | cbn; eauto].
    + intros Hpre Hu. destruct (Hexact Hu) as [Hc _].
      rewrite (comprehension_first_raise _ pre _ post _ Hpre Hc). reflexivity.
Qed.

Lemma C4_missing_field_raises_witness :
  await (client.device
           (always (PDict (dict_set device_iPhone12_1 "firmwares"
                             (PList [PDict firmware_19A5297e;
                                     PDict [("identifier", PStr "iPhone12,1")]]))))
           "iPhone12,1")
  = Raise (TypeError (MissingArguments "IPSW.__init__"
             ["buildid"; "version"; "url"; "filesize"; "sha1sum"; "md5sum";
              "releasedate"; "uploaddate"; "signed"])).
Proof.
  refine (proj2 (proj2 (proj2 (proj2 (proj2 (proj2
            (C4_missing_field_raises IPSW [("identifier", PStr "iPhone12,1")] "signed"
               eq_refl eq_refl)))))
            (always (PDict (dict_set device_iPhone12_1 "firmwares"
                              (PList [PDict firmware_19A5297e;
                                      PDict [("identifier", PStr "iPhone12,1")]]))))
            iDevice "firmwares" _ "/device/iPhone12,1"
            (dict_set device_iPhone12_1 "firmwares"
               (PList [PDict firmware_19A5297e;
                       PDict [("identifier", PStr "iPhone12,1")]]))
            [PDict firmware_19A5297e] [] _ eq_refl eq_refl) _ eq_refl).
  - left. exists "iPhone12,1". repeat split.
  - intros m [<- | []]. eexists. vm_compute. reflexivity.
Defined.

(** C10. A mapping with a key that is not a declared field of the target
    record is refused: the constructor raises a [TypeError] about an
    undeclared keyword of the mapping, and every operation that builds the
    record from such a payload (alone, as an element of a list, or as the
    outer mapping of a composite) raises instead of returning. *)
Theorem C10_undeclared_key_raises (cls : dataclass) (kwargs : list (string * pyobj))
        (k : string) :
  dict_get kwargs k <> None -> ios.is_field cls k = false ->
  (exists k', ios.construct cls (PDict kwargs)
              = Raise (TypeError (UnexpectedKeyword (ios.init_qualname cls) k'))
     /\ dict_get kwargs k' <> None /\ ios.is_field cls k' = false)
  /\ (forall env c endpoint,
        single_operation env cls c endpoint ->
        answers env endpoint (PDict kwargs) -> raises c)
  /\ (forall env c endpoint ms,
        list_operation env cls c endpoint ->
        answers env endpoint (PList ms) -> In (PDict kwargs) ms -> raises c)
  /\ (forall env inner nested c endpoint,
        composite_operation env cls inner nested c endpoint ->
        answers env endpoint (PDict kwargs) -> raises c).
Proof.
  intros Hk Hf.
  pose proof (construct_unexpected cls kwargs k Hk Hf) as Hc.
  split; [exact Hc |]. destruct Hc as (k' & Hc & _).
  split; [| split].
  - intros env c endpoint Hop Ha. unfold raises.
    rewrite (single_operation_await env _ _ _ _ Hop Ha), Hc. eauto.
  - intros env c endpoint ms Hop Ha Hin. unfold raises.
    rewrite (list_operation_await env _ _ _ _ Hop Ha). cbn.
    destruct (comprehension_raise (ios.construct cls) ms _ _ Hin Hc) as [e' ->].
    cbn. eauto.
  - intros env inner nested c endpoint Hop Ha.
    apply (composite_operation_raises env _ _ _ _ _ _ Hop Ha).
    intros v.
    destruct (construct_unexpected cls (dict_set kwargs nested v) k) as (k2 & -> & _);
      [| exact Hf | eauto].
    rewrite dict_get_set. destruct (String.eqb nested k); [discriminate | exact Hk].
Qed.

Lemma C10_undeclared_key_raises_witness :
  exists k', ios.construct IPSW (PDict (("colour", PStr "red") :: firmware_19A5297e))
             = Raise (TypeError (UnexpectedKeyword "IPSW.__init__" k'))
    /\ dict_get (("colour", PStr "red") :: firmware_19A5297e) k' <> None
    /\ ios.is_field IPSW k' = false.
Proof.
  refine (proj1 (C10_undeclared_key_raises IPSW
                   (("colour", PStr "red") :: firmware_19A5297e) "colour" _ eq_refl)).
  cbn. discriminate.
Defined.

(** ** Lists of records *)

Lemma Forall2_construct_lookup (cls : dataclass) (ms recs : list pyobj) :
  Forall2 (fun m r => ios.construct cls m = Ok r) ms recs ->
  List.length recs = List.length ms
  /\ forall (i : nat) m, ms !! i = Some m ->
       exists r, recs !! i = Some r /\ ios.construct cls m = Ok r.
Proof.
  intros HF. split; [symmetry; apply (Forall2_length _ _ _ HF) |].
  intros i m Hi. destruct (Forall2_lookup_l _ _ _ _ _ HF Hi) as (r & Hr & Hc). eauto.
Qed.

(** ** Composite records *)

(** C6. [device] and [keys] answered with a mapping whose nested entry is a
    list of mappings: whenever the operation returns, the outer record holds
    under that name a list as long as the input one, whose i-th element is
    the record built from the i-th input mapping, so each of its fields is the
    mapping's value (a timestamp field, that value through [to_dt]); the other
    fields of the outer record are the payload's values. The operation
    returns whenever every nested mapping builds and the payload has exactly
    the declared keys. *)
Theorem C6_composite_operations (env : client.Collaborators) (outer inner : dataclass)
        (nested : string) (c : coroutine) (endpoint : string)
        (kwargs : list (string * pyobj)) (ms : list pyobj) :
  composite_operation env outer inner nested c endpoint ->
  answers env endpoint (PDict kwargs) ->
  dict_get kwargs nested = Some (PList ms) ->
  await c = (l ← comprehension (ios.construct inner) ms;
             ios.construct outer (PDict (dict_set kwargs nested (PList l))))
  /\ (forall obj, await c = Ok obj ->
        exists recs,
          is_instance outer obj = true
          /\ ios.field obj nested = Some (PList recs)
          /\ List.length recs = List.length ms
          /\ (forall (i : nat) m, ms !! i = Some m ->
                exists r, recs !! i = Some r /\ ios.construct inner m = Ok r)
          /\ (forall (i : nat) kw r f,
                ms !! i = Some (PDict kw) -> recs !! i = Some r ->
                ios.is_field inner f = true ->
                exists v, dict_get kw f = Some v
                  /\ if ios.is_timestamp inner f
                     then exists v', ios.to_dt v = Ok v' /\ ios.field r f = Some v'
                     else ios.field r f = Some v)
          /\ (forall f, ios.is_field outer f = true -> f <> nested ->
                ios.field obj f = dict_get kwargs f /\ dict_get kwargs f <> None))
  /\ ((forall m, In m ms -> exists r, ios.construct inner m = Ok r) ->
      ios.unexpected outer kwargs = None -> ios.missing outer kwargs = [] ->
      exists obj, await c = Ok obj).
Proof.
  intros Hop Ha Hn.
  assert (Hts : forall f, ios.is_timestamp outer f = false).
  { intros f. destruct Hop as [(i & -> & _) | (i & b & -> & _)]; reflexivity. }
  assert (Heq : await c = (l ← comprehension (ios.construct inner) ms;
             ios.construct outer (PDict (dict_set kwargs nested (PList l)))))
    by (rewrite (composite_operation_await env _ _ _ _ _ _ Hop Ha), Hn; reflexivity).
  split; [exact Heq |]. rewrite Heq. split.
  - intros obj Hobj.
    destruct (comprehension (ios.construct inner) ms) as [recs |] eqn:E; [| discriminate].
    cbn in Hobj. apply comprehension_Ok, Forall2_construct_lookup in E as [Hlen Hith].
    apply construct_Ok in Hobj as (slots & -> & Hu & Hfields).
    exists recs. split; [apply String.eqb_refl |].
    assert (Hnf : ios.is_field outer nested = true).
    { apply (unexpected_None _ _ _ Hu). rewrite dict_get_set, String.eqb_refl. discriminate. }
    split; [| split; [exact Hlen | split; [exact Hith | split]]].
    + destruct (Hfields nested Hnf) as (v & Hv & Hs).
      rewrite Hts in Hs. rewrite dict_get_set, String.eqb_refl in Hv.
      injection Hv as <-. exact Hs.
    + intros i kw r f Hi Hr Hf.
      destruct (Hith i _ Hi) as (r' & Hr' & Hc). rewrite Hr in Hr'. injection Hr' as <-.
      apply construct_Ok in Hc as (slots' & -> & _ & Hfs). apply Hfs, Hf.
    + intros f Hf Hne. destruct (Hfields f Hf) as (v & Hv & Hs).
      rewrite Hts in Hs. rewrite dict_get_set in Hv.
      destruct (String.eqb nested f) eqn:Enf;
        [apply String.eqb_eq in Enf; congruence |].
      cbn. rewrite Hs, Hv. split; [reflexivity | discriminate].
  - intros Hall Hu Hm. destruct (comprehension_total _ _ Hall) as [recs ->]. cbn.
    assert (Hp : dict_get kwargs nested <> None) by (rewrite Hn; discriminate).
    destruct (construct_total outer (dict_set kwargs nested (PList recs))) as [slots Hs].
    + apply unexpected_None_iff. intros k Hk.
      apply (dict_set_present _ _ _ Hp) in Hk. revert k Hk. apply unexpected_None_iff, Hu.
    + apply missing_nil_iff. intros f Hf.
      apply (dict_set_present _ _ _ Hp). revert f Hf. apply missing_nil_iff, Hm.
    + intros f v Hf. rewrite Hts in Hf. discriminate.
    + eauto.
Qed.

Lemma C6_composite_operations_witness :
  exists obj,
    await (client.device (always (PDict device_iPhone12_1)) "iPhone12,1") = Ok obj.
Proof.
  refine (proj2 (proj2 (C6_composite_operations
                          (always (PDict device_iPhone12_1)) iDevice IPSW "firmwares" _
                          "/device/iPhone12,1" device_iPhone12_1
                          [PDict firmware_19A5297e] _ eq_refl eq_refl))
                _ eq_refl eq_refl).
  - left. exists "iPhone12,1". repeat split.
  - intros m [<- | []]. eexists. vm_compute. reflexivity.
Defined.

(** The device scenario of the specification: one firmware, uploaded on
    2021-09-20 at 18:00:00 UTC, with no release date. *)
Example device_scenario :
  exists obj fw,
    await (client.device (always (PDict device_iPhone12_1)) "iPhone12,1") = Ok obj
    /\ ios.field obj "firmwares" = Some (PList [fw])
    /\ ios.field fw "uploaddate"
       = Some (PDatetime (mk_datetime 2021 9 20 18 0 0 0 (Some tzutc)))
    /\ ios.field fw "releasedate" = Some PNone.
Proof. eexists. eexists. vm_compute. repeat split. Qed.

(** In the list of key sets that [keys_device] returns, every record holds
    under ["keys"] the very value its mapping had: nothing converts it. *)
Lemma keys_device_keeps_keys (env : client.Collaborators) (identifier : string)
      (ms recs : list pyobj) (i : nat) (kw : list (string * pyobj)) (r : pyobj) :
  answers env ("/keys/device/" +:+ identifier) (PList ms) ->
  await (client.keys_device env identifier) = Ok (PList recs) ->
  ms !! i = Some (PDict kw) -> recs !! i = Some r ->
  ios.field r "keys" = dict_get kw "keys" /\ dict_get kw "keys" <> None.
Proof.
  intros Ha Hr Hi Hri. run_operation_in Hr.
  unfold answers in Ha. rewrite Ha in Hr. cbn in Hr.
  destruct (comprehension (ios.construct IPSWKeys) ms) as [recs' |] eqn:E; [| discriminate].
  cbn in Hr. injection Hr as <-.
  apply comprehension_Ok, Forall2_construct_lookup in E as [_ Hith].
  destruct (Hith i _ Hi) as (r' & Hr' & Hc). rewrite Hri in Hr'. injection Hr' as <-.
  apply construct_Ok in Hc as (slots & -> & _ & Hfs).
  destruct (Hfs "keys" eq_refl) as (v & Hv & Hs). cbn in Hs.
  cbn. rewrite Hs, Hv. split; [reflexivity | discriminate].
Qed.

(** C7. The key sets of [keys_device] keep their [keys] as decoded: for a
    payload of one key set with one key, the record's [keys] is the list
    holding the raw mapping, no [FirmwareKeys] record; the sibling [keys]
    builds the [FirmwareKeys] record from the same mapping. *)
Theorem C7_keys_device_leaves_raw_mappings :
  await (client.keys_device (always (PList [PDict keyset_19A5297e])) "iPhone12,1")
  = Ok (PList [PInstance DeviceKeys keyset_19A5297e])
  /\ ios.field (PInstance DeviceKeys keyset_19A5297e) "keys"
     = Some (PList [PDict key_iBoot])
  /\ is_instance FirmwareKeys (PDict key_iBoot) = false
  /\ exists obj k,
       await (client.keys (always (PDict keyset_19A5297e)) "iPhone12,1" "19A5297e")
       = Ok obj
       /\ ios.field obj "keys" = Some (PList [k])
       /\ is_instance FirmwareKeys k = true
       /\ ios.field k "date"
          = Some (PDatetime (mk_datetime 2021 9 20 18 0 0 0 (Some tzutc))).
Proof.
  split; [vm_compute; reflexivity |].
  split; [reflexivity |]. split; [reflexivity |].
  eexists. eexists. vm_compute. repeat split.
Qed.

(** ** The documentation lookup *)

(** C9. [ota_docs] hands the fetched text to [print] and returns [None]:
    its value is never the text. Its sibling [ota] prints nothing and returns
    the record it builds. *)
Theorem C9_ota_docs_prints_and_returns_None
        (HTTP_ipsw : string -> string -> result pyobj)
        (identifier version : string) (stdout : list pyobj) :
  (forall text,
      HTTP_ipsw ("/ota/documentation/" +:+ identifier +:+ "/" +:+ version) "text"
      = Ok text ->
      ipsw.ota_docs HTTP_ipsw identifier version stdout
      = (Ok PNone, (stdout ++ [text])%list))
  /\ (forall r out,
        ipsw.ota_docs HTTP_ipsw identifier version stdout = (Ok r, out) -> r = PNone)
  /\ (forall data,
        HTTP_ipsw ("/ota/" +:+ identifier +:+ "/" +:+ version) "json" = Ok data ->
        ipsw.ota HTTP_ipsw identifier version stdout
        = (ios.construct OTAIPSW data, stdout)).
Proof.
  unfold ipsw.ota_docs. split; [| split].
  - intros text ->. reflexivity.
  - intros r out. destruct (HTTP_ipsw _ _); intros [= <- _]; reflexivity.
  - intros data Hd. unfold ipsw.ota, ipsw.silent. rewrite Hd. reflexivity.
Qed.

Lemma C9_ota_docs_prints_and_returns_None_witness :
  ipsw.ota_docs (fun _ _ => Ok (PStr "What is new in 15.0")) "iPhone12,1" "15.0" []
  = (Ok PNone, [PStr "What is new in 15.0"]).
Proof.
  exact (proj1 (C9_ota_docs_prints_and_returns_None
                  (fun _ _ => Ok (PStr "What is new in 15.0")) "iPhone12,1" "15.0" [])
               (PStr "What is new in 15.0") eq_refl).
Defined.

(** ** The facade *)

Section Facade.
Variable env : client.Collaborators.

(** Every operation name resolves to the wrapped coroutine function. *)
Lemma getattribute_operation (self : client.Client) (inv : client.invocation) :
  client.getattribute self (client.method_name inv)
  = client.partial_run_coroutine (client.method_name inv).
Proof. destruct inv; reflexivity. Qed.

(** Attributes that are no operation pass through. *)
Lemma getattribute_loop (self : client.Client) :
  client.getattribute self "loop" = client.loop_handle (client.loop self).
Proof. reflexivity. Qed.

(** Running the body of an operation sends its one request, whatever was
    sent before, and yields what awaiting the operation yields. *)
Lemma HALFTIME_call_run (inv : client.invocation) (sent : list request) :
  client.HALFTIME_call env inv sent
  = (await (client.HALFTIME_call env inv), (sent ++ [request_of inv])%list).
Proof. destruct inv; reflexivity. Qed.

Lemma is_running_after_run (l l' : nat) (sent : list request) (w : World) :
  running_loop w = None -> is_running l (after_run l' sent w) = is_running l w.
Proof. intros Hr. unfold is_running, after_run. cbn. rewrite Hr. reflexivity. Qed.

Lemma is_closed_after_run (l l' : nat) (sent : list request) (w : World) :
  is_closed l (after_run l' sent w) = is_closed l w.
Proof. reflexivity. Qed.

Lemma invoke_idle (self : client.Client) (inv : client.invocation) (w : World) :
  running_loop w = None ->
  is_running (client.loop self) w = false ->
  is_closed (client.loop self) w = false ->
  client.invoke env self inv w
  = (Value <$> await (client.HALFTIME_call env inv),
     after_run (client.loop self) (requests w ++ [request_of inv]) w).
Proof.
  intros Hr Hrun Hclosed. unfold client.invoke. rewrite getattribute_operation.
  unfold client.run_coroutine. rewrite Hrun.
  unfold run_until_complete. rewrite Hclosed, Hrun, Hr, HALFTIME_call_run.
  reflexivity.
Qed.

Lemma invoke_own_loop_running (self : client.Client) (inv : client.invocation)
      (w : World) :
  is_running (client.loop self) w = true ->
  client.invoke env self inv w = (Ok (Pending (client.HALFTIME_call env inv)), w).
Proof.
  intros Hrun. unfold client.invoke. rewrite getattribute_operation.
  unfold client.run_coroutine. rewrite Hrun. reflexivity.
Qed.

(** While a loop other than the facade's is running on the thread and the
    facade's own is open and idle, the facade neither defers nor runs the
    operation. *)
Lemma invoke_other_loop_running (self : client.Client) (inv : client.invocation)
      (w : World) (l : nat) :
  running_loop w = Some l ->
  is_running (client.loop self) w = false ->
  is_closed (client.loop self) w = false ->
  client.invoke env self inv w
  = (Raise (RuntimeError "Cannot run the event loop while another loop is running"), w).
Proof.
  intros Hr Hrun Hclosed. unfold client.invoke. rewrite getattribute_operation.
  unfold client.run_coroutine. rewrite Hrun.
  unfold run_until_complete. rewrite Hclosed, Hrun, Hr. reflexivity.
Qed.

(** A facade whose loop has been closed refuses every call. *)
Lemma invoke_closed_loop (self : client.Client) (inv : client.invocation) (w : World) :
  is_running (client.loop self) w = false ->
  is_closed (client.loop self) w = true ->
  client.invoke env self inv w = (Raise (RuntimeError "Event loop is closed"), w).
Proof.
  intros Hrun Hclosed. unfold client.invoke. rewrite getattribute_operation.
  unfold client.run_coroutine. rewrite Hrun.
  unfold run_until_complete. rewrite Hclosed. reflexivity.
Qed.

Lemma fmap_Value_not_pending (r : result pyobj) (c : coroutine) :
  Value <$> r <> Ok (Pending c).
Proof. destruct r; cbn; congruence. Qed.

Lemma invoke_all_idle (self : client.Client) (invs : list client.invocation) :
  forall w, running_loop w = None ->
    is_running (client.loop self) w = false ->
    is_closed (client.loop self) w = false ->
    let out := client.invoke_all env self invs w in
    snd out = mk_world (current_loop w) None (running_elsewhere w) (closed_loops w)
                       (constructed w) (acquired w)
                       (driven w ++ repeat (client.loop self) (List.length invs))
                       (requests w ++ map request_of invs)
    /\ Forall (fun r => forall c, r <> Ok (Pending c)) (fst out)
    /\ List.length (fst out) = List.length invs.
Proof.
  induction invs as [| inv invs IH]; intros w Hr Hrun Hclosed.
  - cbn. rewrite !app_nil_r. destruct w; cbn in *; subst. auto.
  - cbn. rewrite (invoke_idle self inv w Hr Hrun Hclosed).
    specialize (IH (after_run (client.loop self) (requests w ++ [request_of inv]) w)
                   eq_refl).
    rewrite is_running_after_run, is_closed_after_run in IH by exact Hr.
    specialize (IH Hrun Hclosed).
    destruct (client.invoke_all env self invs _) as [rs wn].
    cbn in *. destruct IH as (Hw & Hrs & Hlen).
    split; [| split].
    + rewrite Hw, <- !app_assoc. reflexivity.
    + constructor; [intros c; apply fmap_Value_not_pending | exact Hrs].
    + rewrite Hlen. reflexivity.
Qed.

End Facade.

(** C1, counterexample. A facade built while the thread's loop 0 is idle
    holds loop 0. Called while another loop, 1, is running on the thread, it
    finds its own loop idle, asks it to run, and the call raises
    [RuntimeError]: no pending coroutine is handed back. *)
Lemma C1_counterexample :
  ~ (forall env self inv w,
       running_loop w <> None ->
       exists c, fst (client.invoke env self inv w) = Ok (Pending c)).
Proof.
  intros H.
  destruct (H (always (PDict firmware_19A5297e))
              (fst (client.Client_init (mk_world (Some 0%nat) None [] [] 1 0 [] [])))
              (client.call_ipsw "iPhone12,1" "19A5297e")
              (mk_world (Some 1%nat) (Some 1%nat) [] [] 2 1 [] []))
    as [c Hc]; [discriminate |].
  vm_compute in Hc. discriminate Hc.
Qed.

(** C1, amended. For every operation of the facade, every argument tuple
    and every transport. Called while no loop is running on the calling
    thread and the loop the facade acquired at construction is open and is
    not being run by any thread, the facade returns the finished result of
    the operation, or raises its failure, never a pending coroutine, and the
    operation's one request has been sent. Called while the facade's own loop
    is running, on whichever thread, it returns the operation's coroutine and
    leaves the world as it was: no request has been sent, nothing of the body
    has run. Running that coroutine later, whatever has been sent by then,
    sends the one request and yields the very result of the blocking call. *)
Theorem C1_dual_mode_equivalence (env : client.Collaborators) (self : client.Client)
        (inv : client.invocation) (w_idle w_busy : World) :
  running_loop w_idle = None ->
  is_running (client.loop self) w_idle = false ->
  is_closed (client.loop self) w_idle = false ->
  is_running (client.loop self) w_busy = true ->
  let blocking := client.invoke env self inv w_idle in
  let deferred := client.invoke env self inv w_busy in
  fst blocking = Value <$> await (client.HALFTIME_call env inv)
  /\ (forall c, fst blocking <> Ok (Pending c))
  /\ requests (snd blocking) = (requests w_idle ++ [request_of inv])%list
  /\ deferred = (Ok (Pending (client.HALFTIME_call env inv)), w_busy)
  /\ forall sent,
       Value <$> fst (client.HALFTIME_call env inv sent) = fst blocking
       /\ snd (client.HALFTIME_call env inv sent) = (sent ++ [request_of inv])%list.
Proof.
  intros Hidle Hrun Hclosed Hbusy. cbn zeta.
  rewrite (invoke_idle env self inv w_idle Hidle Hrun Hclosed). cbn [fst snd].
  split; [reflexivity |]. split; [intros c; apply fmap_Value_not_pending |].
  split; [reflexivity |].
  split; [apply invoke_own_loop_running, Hbusy |].
  intros sent. rewrite HALFTIME_call_run. split; reflexivity.
Qed.

Lemma C1_dual_mode_equivalence_witness :
  client.invoke (always (PDict firmware_19A5297e)) (client.mk_client 0)
                (client.call_ipsw "iPhone12,1" "19A5297e")
                (mk_world None None [0%nat] [] 1 1 [] [])
  = (Ok (Pending (client.HALFTIME_call (always (PDict firmware_19A5297e))
                                       (client.call_ipsw "iPhone12,1" "19A5297e"))),
     mk_world None None [0%nat] [] 1 1 [] [])
  /\ requests (snd (client.invoke (always (PDict firmware_19A5297e))
                                  (client.mk_client 0)
                                  (client.call_ipsw "iPhone12,1" "19A5297e")
                                  (mk_world (Some 0%nat) None [] [] 1 1 [] [])))
     = [HTTPRequest "GET" "/ipsw/iPhone12,1/19A5297e"].
Proof.
  pose proof (C1_dual_mode_equivalence
                (always (PDict firmware_19A5297e)) (client.mk_client 0)
                (client.call_ipsw "iPhone12,1" "19A5297e")
                (mk_world (Some 0%nat) None [] [] 1 1 [] [])
                (mk_world None None [0%nat] [] 1 1 [] [])
                eq_refl eq_refl eq_refl eq_refl) as (_ & _ & Hsent & Hdeferred & _).
  split; [exact Hdeferred | exact Hsent].
Defined.

(** C8. A facade built on a thread where no loop is running, its loop open
    and not run by another thread, then called any number of times in
    blocking mode: [asyncio.get_event_loop] is called once, by the
    constructor; at most one loop is constructed (exactly one when the thread
    had none), and none by the calls; every call is driven by the loop the
    constructor stored; and no call hands back a pending coroutine. *)
Theorem C8_scheduler_reused (env : client.Collaborators) (w0 : World)
        (invs : list client.invocation) :
  running_loop w0 = None ->
  let self := fst (client.Client_init w0) in
  let w1 := snd (client.Client_init w0) in
  is_running (client.loop self) w1 = false ->
  is_closed (client.loop self) w1 = false ->
  let out := client.invoke_all env self invs w1 in
  acquired (snd out) = S (acquired w0)
  /\ constructed (snd out) = constructed w1
  /\ (current_loop w0 = None -> constructed (snd out) = S (constructed w0))
  /\ (current_loop w0 <> None -> constructed (snd out) = constructed w0)
  /\ driven (snd out)
     = (driven w0 ++ repeat (client.loop self) (List.length invs))%list
  /\ current_loop (snd out) = Some (client.loop self)
  /\ running_loop (snd out) = None
  /\ Forall (fun r => forall c, r <> Ok (Pending c)) (fst out).
Proof.
  intros Hr. cbn zeta. intros Hrun Hclosed.
  assert (Hinit : running_loop (snd (client.Client_init w0)) = None
                  /\ acquired (snd (client.Client_init w0)) = S (acquired w0)
                  /\ driven (snd (client.Client_init w0)) = driven w0
                  /\ current_loop (snd (client.Client_init w0))
                     = Some (client.loop (fst (client.Client_init w0)))
                  /\ (current_loop w0 = None ->
                      constructed (snd (client.Client_init w0)) = S (constructed w0))
                  /\ (current_loop w0 <> None ->
                      constructed (snd (client.Client_init w0)) = constructed w0)).
  { unfold client.Client_init, get_event_loop. rewrite Hr.
    destruct (current_loop w0) as [l |]; cbn; repeat split; congruence. }
  destruct Hinit as (H1 & H2 & H3 & H4 & H5 & H6).
  destruct (invoke_all_idle env (fst (client.Client_init w0)) invs
                            (snd (client.Client_init w0)) H1 Hrun Hclosed)
    as (Hw & Hrs & _).
  rewrite Hw. cbn. rewrite H2, H3.
  repeat split; auto.
Qed.

Lemma C8_scheduler_reused_witness :
  let out := client.invoke_all (always (PDict firmware_19A5297e)) (client.mk_client 0)
               [client.call_ipsw "iPhone12,1" "19A5297e";
                client.call_ota "iPhone12,1" "19A5297e"]
               (mk_world (Some 0%nat) None [] [] 1 1 [] []) in
  constructed (snd out) = 1%nat /\ acquired (snd out) = 1%nat
  /\ driven (snd out) = [0%nat; 0%nat].
Proof.
  pose proof (C8_scheduler_reused (always (PDict firmware_19A5297e))
                (mk_world None None [] [] 0 0 [] [])
                [client.call_ipsw "iPhone12,1" "19A5297e";
                 client.call_ota "iPhone12,1" "19A5297e"] eq_refl eq_refl eq_refl)
    as (Ha & _ & Hc & _ & Hd & _).
  split; [exact (Hc eq_refl) | split; [exact Ha | exact Hd]].
Defined.

(** ** Further properties of [to_dt] *)

Section Acceptance.

Lemma digit_of_range (c : ascii) (a : Z) : digit_of c = Some a -> 0 <= a <= 9.
Proof.
  unfold digit_of. cbv zeta.
  destruct ((48 <=? Z.of_N (N_of_ascii c)) && (Z.of_N (N_of_ascii c) <=? 57)) eqn:E;
    [| discriminate].
  intros [= <-]. apply andb_true_iff in E as [E1 E2].
  apply Z.leb_le in E1, E2. lia.
Qed.

Lemma two_digits_both (ok : Z -> Z -> bool) (a b : ascii) (x y : Z) (rest : string) :
  digit_of a = Some x -> digit_of b = Some y ->
  two_digits ok (String a (String b rest))
  = if ok x y then [(10 * x + y, rest)] else [].
Proof. intros Ha Hb. unfold two_digits. rewrite Ha, Hb. reflexivity. Qed.

Lemma two_digits_one (ok : Z -> Z -> bool) (a c : ascii) (rest : string) :
  digit_of c = None -> two_digits ok (String a (String c rest)) = [].
Proof.
  intros Hc. unfold two_digits. rewrite Hc. destruct (digit_of a); reflexivity.
Qed.

Lemma two_digits_none (ok : Z -> Z -> bool) (a : ascii) (rest : string) :
  digit_of a = None -> two_digits ok (String a rest) = [].
Proof.
  intros Ha. unfold two_digits. destruct rest; [reflexivity |]. rewrite Ha. reflexivity.
Qed.

Lemma one_digit_some (ok : Z -> bool) (a : ascii) (x : Z) (rest : string) :
  digit_of a = Some x ->
  one_digit ok (String a rest) = if ok x then [(x, rest)] else [].
Proof. intros Ha. unfold one_digit. rewrite Ha. reflexivity. Qed.

Lemma one_digit_none (ok : Z -> bool) (a : ascii) (rest : string) :
  digit_of a = None -> one_digit ok (String a rest) = [].
Proof. intros Ha. unfold one_digit. rewrite Ha. reflexivity. Qed.

(** A short number is one digit or two. *)
Lemma short_number_cases (ds : string) (v : Z) :
  short_number ds = Some v ->
  (exists a, ds = String a EmptyString /\ digit_of a = Some v)
  \/ (exists a b x y, ds = String a (String b EmptyString)
        /\ digit_of a = Some x /\ digit_of b = Some y /\ v = 10 * x + y).
Proof.
  destruct ds as [| a [| b [| c ds']]]; cbn; try discriminate.
  - intros H. left. eauto.
  - destruct (digit_of a) as [x |] eqn:Ea; [| discriminate].
    destruct (digit_of b) as [y |] eqn:Eb; [| discriminate].
    intros [= <-]. right. exists a, b, x, y. auto.
Qed.

Ltac digit_bounds :=
  repeat match goal with
         | H : digit_of _ = Some _ |- _ => apply digit_of_range in H
         end.

Ltac first_alternative :=
  repeat match goal with
         | |- context [if ?b then _ else _] =>
             let E := fresh "E" in destruct b eqn:E
         end;
  cbn [app]; eauto; exfalso; digit_bounds; lia.

Ltac short_directive H Hc :=
  apply short_number_cases in H
    as [(a & -> & Ha) | (a & b & x & y & -> & Ha & Hb & ->)];
  rewrite ?append_String, ?append_empty;
  [ rewrite ?(two_digits_one _ _ _ _ Hc), ?(one_digit_some _ _ _ _ Ha)
  | rewrite ?(two_digits_both _ _ _ _ _ _ Ha Hb) ];
  first_alternative.

Lemma re_m_short (ds : string) (v : Z) (c : ascii) (rest : string) :
  short_number ds = Some v -> 1 <= v <= 12 -> digit_of c = None ->
  exists tl, re_m (ds +:+ String c rest) = (v, String c rest) :: tl.
Proof. intros H Hv Hc. unfold re_m. short_directive H Hc. Qed.

Lemma re_H_short (ds : string) (v : Z) (c : ascii) (rest : string) :
  short_number ds = Some v -> 0 <= v <= 23 -> digit_of c = None ->
  exists tl, re_H (ds +:+ String c rest) = (v, String c rest) :: tl.
Proof. intros H Hv Hc. unfold re_H. short_directive H Hc. Qed.

Lemma re_M_short (ds : string) (v : Z) (c : ascii) (rest : string) :
  short_number ds = Some v -> 0 <= v <= 59 -> digit_of c = None ->
  exists tl, re_M (ds +:+ String c rest) = (v, String c rest) :: tl.
Proof. intros H Hv Hc. unfold re_M. short_directive H Hc. Qed.

Lemma re_S_short (ds : string) (v : Z) (c : ascii) (rest : string) :
  short_number ds = Some v -> 0 <= v <= 59 -> digit_of c = None ->
  exists tl, re_S (ds +:+ String c rest) = (v, String c rest) :: tl.
Proof. intros H Hv Hc. unfold re_S. short_directive H Hc. Qed.

Lemma re_d_day (ds : string) (v : Z) (c : ascii) (rest : string) :
  day_number ds = Some v -> 1 <= v <= 31 -> digit_of c = None ->
  exists tl, re_d (ds +:+ String c rest) = (v, String c rest) :: tl.
Proof.
  intros H Hv Hc. unfold re_d.
  destruct ds as [| a [| b [| b' ds']]]; try discriminate H.
  - cbn in H. rewrite ?append_String, ?append_empty.
    rewrite ?(two_digits_one _ _ _ _ Hc), ?(one_digit_some _ _ _ _ H).
    first_alternative.
  - unfold day_number in H. rewrite ?append_String, ?append_empty.
    destruct (Ascii.eqb a " ") eqn:Ea.
    + apply Ascii.eqb_eq in Ea. subst a.
      rewrite ?two_digits_none, ?one_digit_none by reflexivity.
      rewrite (one_digit_some _ _ _ _ H). first_alternative.
    + cbn in H.
      destruct (digit_of a) as [x |] eqn:Ex; [| discriminate].
      destruct (digit_of b) as [y |] eqn:Ey; [| discriminate].
      injection H as <-.
      rewrite ?(two_digits_both _ _ _ _ _ _ Ex Ey). first_alternative.
Qed.

Lemma re_Y_year (ds : string) (v : Z) (rest : string) :
  year_number ds = Some v -> re_Y (ds +:+ rest) = [(v, rest)].
Proof.
  destruct ds as [| a [| b [| c [| d [| e ds']]]]]; cbn; try discriminate.
  destruct (digit_of a) as [x |] eqn:Ea; [| discriminate].
  destruct (digit_of b) as [y |] eqn:Eb; [| discriminate].
  destruct (digit_of c) as [u |] eqn:Ec; [| discriminate].
  destruct (digit_of d) as [w |] eqn:Ed; [| discriminate].
  intros [= <-]. rewrite ?append_String, ?append_empty.
  unfold re_Y. rewrite Ea, Eb, Ec, Ed. reflexivity.
Qed.

Lemma re_lit_lower (c x : ascii) (rest : string) :
  lower x = lower c -> re_lit c (String x rest) = [rest].
Proof. intros H. unfold re_lit. rewrite H, Ascii.eqb_refl. reflexivity. Qed.

Lemma digit_lower (x : ascii) (a : Z) : digit_of x = Some a -> lower x = x.
Proof.
  unfold digit_of, lower. cbv zeta.
  destruct ((48 <=? Z.of_N (N_of_ascii x)) && (Z.of_N (N_of_ascii x) <=? 57)) eqn:E;
    [| discriminate].
  intros _. apply andb_true_iff in E as [E1 E2]. apply Z.leb_le in E1, E2.
  destruct ((65 <=? N_of_ascii x) && (N_of_ascii x <=? 90))%N eqn:E'; [| reflexivity].
  apply andb_true_iff in E' as [E3 _]. apply N.leb_le in E3. lia.
Qed.

Lemma letter_no_digit (x y : ascii) :
  lower x = y -> digit_of y = None -> digit_of x = None.
Proof.
  intros Hl Hy. destruct (digit_of x) as [a |] eqn:E; [| reflexivity].
  rewrite (digit_lower x a E) in Hl. subst y. congruence.
Qed.

(** Every string of the lenient shape whose numbers form a valid date and
    time is matched, first and completely, with these numbers. *)
Lemma format_regex_complete (s : string) (g : time_groups) :
  lenient_format s g ->
  valid_datetime (g_Y g) (g_m g) (g_d g) (g_H g) (g_M g) (g_S g) = true ->
  head (format_regex s) = Some (g, EmptyString).
Proof.
  intros (sY & sm & sd & sH & sM & sS & t & z & -> & HY & Hm & Hd & HH & HM & HS & Ht & Hz) Hv.
  apply valid_datetime_bounds in Hv. destruct Hv as (BY & Bm & Bd & BH & BM & BS).
  assert (Dt : digit_of t = None) by (apply (letter_no_digit _ _ Ht); reflexivity).
  assert (Dz : digit_of z = None) by (apply (letter_no_digit _ _ Hz); reflexivity).
  destruct g as [gY gm gd gH gM gS]. cbn in *.
  unfold format_regex.
  rewrite (re_Y_year _ _ _ HY). apply head_bind_cons.
  rewrite ?append_String, ?append_empty.
  rewrite re_lit_same. apply head_bind_cons.
  match goal with |- context [re_m (sm +:+ String ?c ?r)] =>
    destruct (re_m_short sm gm c r Hm Bm eq_refl) as [tl ->] end.
  apply head_bind_cons. rewrite re_lit_same. apply head_bind_cons.
  match goal with |- context [re_d (sd +:+ String ?c ?r)] =>
    destruct (re_d_day sd gd c r Hd Bd Dt) as [tl' ->] end.
  apply head_bind_cons. rewrite (re_lit_lower "T" t) by exact Ht. apply head_bind_cons.
  match goal with |- context [re_H (sH +:+ String ?c ?r)] =>
    destruct (re_H_short sH gH c r HH BH eq_refl) as [tl'' ->] end.
  apply head_bind_cons. rewrite re_lit_same. apply head_bind_cons.
  match goal with |- context [re_M (sM +:+ String ?c ?r)] =>
    destruct (re_M_short sM gM c r HM BM eq_refl) as [tl3 ->] end.
  apply head_bind_cons. rewrite re_lit_same. apply head_bind_cons.
  match goal with |- context [re_S (sS +:+ String ?c ?r)] =>
    destruct (re_S_short sS gS c r HS BS Dz) as [tl4 ->] end.
  apply head_bind_cons. rewrite (re_lit_lower "Z" z) by exact Hz. reflexivity.
Qed.

Lemma to_dt_lenient (s : string) (g : time_groups) :
  lenient_format s g ->
  valid_datetime (g_Y g) (g_m g) (g_d g) (g_H g) (g_M g) (g_S g) = true ->
  ios.to_dt (PStr s) = Ok (instant_of g).
Proof.
  intros Hl Hv. unfold ios.to_dt, strptime.
  rewrite (format_regex_complete s g Hl Hv). cbn. rewrite Hv. reflexivity.
Qed.

Lemma to_dt_string_cases (s : string) :
  (exists msg, ios.to_dt (PStr s) = Raise (ValueError msg))
  \/ (exists g, lenient_format s g
        /\ valid_datetime (g_Y g) (g_m g) (g_d g) (g_H g) (g_M g) (g_S g) = true
        /\ ios.to_dt (PStr s) = Ok (instant_of g)).
Proof.
  pose proof (strptime_string s) as Hs. unfold ios.to_dt.
  destruct (strptime (PStr s)) as [dt | e].
  - right. destruct Hs as (g & Hl & Hv & ->). exists g. auto.
  - left. destruct Hs as [msg ->]. exists msg. reflexivity.
Qed.

End Acceptance.

(** C3, counterexample. A string that is not of the shape
    [dddd-dd-ddTdd:dd:ddZ] can still be accepted: with a one-digit month,
    ["2021-9-20T18:00:00Z"] is read as 20 September 2021, 18:00:00 UTC. *)
Lemma C3_counterexample :
  ~ (forall s : string,
       exact_format s = false -> exists e, ios.to_dt (PStr s) = Raise e).
Proof.
  intros H. destruct (H "2021-9-20T18:00:00Z" eq_refl) as [e He].
  vm_compute in He. discriminate He.
Qed.

(** C3, amended. Normalising a string of ASCII characters never passes it
    through: either [to_dt] raises a [ValueError], or the string has the
    lenient shape that [strptime] reads (a four-digit year; month, hour,
    minute and second of one or two digits; the day of one or two digits, or
    a space and a digit; the separators [-], [T] or [t], [:], and a final [Z]
    or [z]), denotes a valid date and time, and the result is that instant in
    UTC. Every such string of the lenient shape that denotes a valid date and
    time is accepted. ["2021-09-20"] raises; ["2021-09- 5T18:00:00Z"], its day
    a space and a digit, is read as 5 September. A record whose timestamp
    field holds a string that [to_dt] refuses is not built. *)
Theorem C3_malformed_timestamp_raises (s : string) :
  is_ascii s = true ->
  ((exists msg, ios.to_dt (PStr s) = Raise (ValueError msg))
   \/ (exists g, lenient_format s g
         /\ valid_datetime (g_Y g) (g_m g) (g_d g) (g_H g) (g_M g) (g_S g) = true
         /\ ios.to_dt (PStr s)
            = Ok (PDatetime (mk_datetime (g_Y g) (g_m g) (g_d g)
                                         (g_H g) (g_M g) (g_S g) 0 (Some tzutc)))))
  /\ (forall g, lenient_format s g ->
        valid_datetime (g_Y g) (g_m g) (g_d g) (g_H g) (g_M g) (g_S g) = true ->
        ios.to_dt (PStr s)
        = Ok (PDatetime (mk_datetime (g_Y g) (g_m g) (g_d g)
                                     (g_H g) (g_M g) (g_S g) 0 (Some tzutc))))
  /\ ios.to_dt (PStr "2021-09-20") = Raise (ValueError DoesNotMatchFormat)
  /\ ios.to_dt (PStr "2021-09- 5T18:00:00Z")
     = Ok (PDatetime (mk_datetime 2021 9 5 18 0 0 0 (Some tzutc)))
  /\ (forall cls f kwargs e,
        ios.is_timestamp cls f = true ->
        dict_get kwargs f = Some (PStr s) ->
        ios.to_dt (PStr s) = Raise e ->
        exists e', ios.construct cls (PDict kwargs) = Raise e').
Proof.
  intros _. split; [| split; [| split; [| split]]].
  - destruct (to_dt_string_cases s) as [[msg Hr] | (g & Hl & Hv & Hok)].
    + left. eauto.
    + right. exists g. auto.
  - intros g Hl Hv. apply (to_dt_lenient s g Hl Hv).
  - reflexivity.
  - reflexivity.
  - intros cls f kwargs e Ht Hg He.
    destruct (ios.construct cls (PDict kwargs)) as [obj |] eqn:Hc; [| eauto].
    destruct (construct_timestamp cls f kwargs obj Ht Hc) as (v & v' & Hg' & Hdt & _).
    congruence.
Qed.

Lemma C3_malformed_timestamp_raises_witness :
  exists e', ios.construct IPSW
               (PDict (dict_set firmware_19A5297e "releasedate" (PStr "2021-09-20")))
             = Raise e'.
Proof.
  exact (proj2 (proj2 (proj2 (proj2 (C3_malformed_timestamp_raises "2021-09-20"
                                       eq_refl))))
               IPSW "releasedate"
               (dict_set firmware_19A5297e "releasedate" (PStr "2021-09-20"))
               (ValueError DoesNotMatchFormat) eq_refl eq_refl eq_refl).
Defined.

(** X1. Among the strings of ASCII characters, [to_dt] accepts exactly
    those of the lenient shape that denote a valid date and time, and gives
    the instant they denote, in UTC. *)
Theorem X1_to_dt_accepts_exactly (s : string) (v : pyobj) :
  is_ascii s = true ->
  ios.to_dt (PStr s) = Ok v
  <-> exists g, lenient_format s g
        /\ valid_datetime (g_Y g) (g_m g) (g_d g) (g_H g) (g_M g) (g_S g) = true
        /\ v = instant_of g.
Proof.
  intros _. split.
  - intros Hv. destruct (to_dt_string_cases s) as [[msg Hr] | (g & Hl & Hvd & Hok)].
    + congruence.
    + exists g. split; [exact Hl |]. split; [exact Hvd | congruence].
  - intros (g & Hl & Hvd & ->). apply to_dt_lenient; assumption.
Qed.

(** X2. Whatever it is given, [to_dt] returns [None] (for [None] only) or a
    valid instant bound to UTC, or raises: a [ValueError] for a string and a
    [TypeError] for anything else. It never returns a naive instant nor hands
    a string back. *)
Theorem X2_to_dt_outcomes (v : pyobj) :
  match ios.to_dt v with
  | Ok v' => none_or_utc v' = true /\ (v' = PNone <-> v = PNone)
             /\ (v = PNone \/ exists s, v = PStr s)
  | Raise e =>
      match v with
      | PNone => False
      | PStr _ => exists msg, e = ValueError msg
      | _ => e = TypeError StrptimeArgNotStr
      end
  end.
Proof.
  destruct v as [| b | n | s | xs | items | dt | cls slots];
    try reflexivity.
  - cbn. split; [reflexivity |]. split; [tauto | auto].
  - destruct (to_dt_string_cases s) as [[msg Hr] | (g & Hl & Hvd & Hok)].
    + rewrite Hr. eauto.
    + rewrite Hok.
      split; [cbn; rewrite Hvd; reflexivity |].
      split; [split; discriminate | eauto].
Qed.

(** X3. Normalisation is canonical: when [to_dt] accepts a string, the text
    [YYYY-MM-DDTHH:MM:SSZ] of the instant it returned is of the exact shape
    and is read back as the same instant. *)
Theorem X3_to_dt_canonical_text (s : string) (dt : datetime) :
  ios.to_dt (PStr s) = Ok (PDatetime dt) ->
  exact_format (isoformat_of dt) = true
  /\ ios.to_dt (PStr (isoformat_of dt)) = Ok (PDatetime dt).
Proof.
  intros Hs. destruct (to_dt_string_cases s) as [[msg Hr] | (g & Hl & Hvd & Hok)];
    [congruence |].
  rewrite Hok in Hs. injection Hs as <-. unfold isoformat_of. cbn.
  split; [apply exact_format_isoformat, Hvd | apply to_dt_isoformat, Hvd].
Qed.

Lemma X3_to_dt_canonical_text_witness :
  ios.to_dt (PStr "2021-09-05T07:08:09Z")
  = Ok (PDatetime (mk_datetime 2021 9 5 7 8 9 0 (Some tzutc))).
Proof.
  exact (proj2 (X3_to_dt_canonical_text "2021-9-5t7:8:9z"
                  (mk_datetime 2021 9 5 7 8 9 0 (Some tzutc)) eq_refl)).
Defined.

Lemma X1_to_dt_accepts_exactly_witness :
  ios.to_dt (PStr "2021-9-5t7:8:9z")
  = Ok (instant_of (mk_groups 2021 9 5 7 8 9)).
Proof.
  apply (proj2 (X1_to_dt_accepts_exactly "2021-9-5t7:8:9z" _ eq_refl)).
  exists (mk_groups 2021 9 5 7 8 9). split; [| split; reflexivity].
  exists "2021", "9", "5", "7", "8", "9", "t"%char, "z"%char.
  repeat split.
Defined.

(** ** Further properties of record construction *)

Section Records.

Lemma to_dt_raise_cases (v : pyobj) (e : exn) :
  ios.to_dt v = Raise e ->
  e = TypeError StrptimeArgNotStr \/ exists msg, e = ValueError msg.
Proof.
  destruct v as [| b | n | s | xs | items | dt | cls slots];
    try (cbn; intros [= <-]; left; reflexivity).
  intros He. right.
  destruct (to_dt_string_cases s) as [[msg Hr] | (g & _ & _ & Hok)];
    [| congruence].
  rewrite Hr in He. injection He as <-. eauto.
Qed.

Lemma to_dt_Ok_none_or_utc (v v' : pyobj) :
  ios.to_dt v = Ok v' -> none_or_utc v' = true.
Proof.
  destruct v as [| b | n | s | xs | items | dt | cls slots]; try discriminate.
  - intros [= <-]. reflexivity.
  - intros Hs. destruct (to_dt_string_cases s) as [[msg Hr] | (g & _ & Hvd & Hok)];
      [congruence |].
    rewrite Hok in Hs. injection Hs as <-. cbn. rewrite Hvd. reflexivity.
Qed.

Lemma map_fst_bound (kwargs : list (string * pyobj)) (fs : list string) :
  (forall f, In f fs -> dict_get kwargs f <> None) ->
  map fst (omap (fun f0 => pair f0 <$> dict_get kwargs f0) fs) = fs.
Proof.
  induction fs as [| f fs IH]; intros Hall; [reflexivity |].
  cbn. destruct (dict_get kwargs f) as [v |] eqn:E.
  - cbn. f_equal. apply IH. intros f' Hf'. apply Hall. right. exact Hf'.
  - exfalso. apply (Hall f (or_introl eq_refl)). exact E.
Qed.

Lemma map_fst_dict_set (items : list (string * pyobj)) (k : string) (v : pyobj) :
  dict_get items k <> None -> map fst (dict_set items k v) = map fst items.
Proof.
  induction items as [| [k0 w] rest IH]; cbn; [congruence |].
  destruct (String.eqb k0 k) eqn:E; intros Hk; cbn; [reflexivity |].
  f_equal. apply IH, Hk.
Qed.

Lemma post_init_keys (names : list string) :
  forall self self',
    foldl ios.post_init_step (Ok self) names = Ok self' ->
    map fst self' = map fst self.
Proof.
  induction names as [| n names IH]; intros self self' Hfold.
  - cbn in Hfold. congruence.
  - cbn in Hfold.
    destruct (ios.normalize_slot self n) as [self1 |] eqn:E1;
      [| rewrite post_init_raise in Hfold; discriminate].
    apply normalize_slot_Ok in E1 as (v & v' & Hget & _ & ->).
    rewrite (IH _ _ Hfold). apply map_fst_dict_set. congruence.
Qed.

Lemma is_field_In (cls : dataclass) (f : string) :
  ios.is_field cls f = true <-> In f (ios.fields cls).
Proof.
  unfold ios.is_field. rewrite existsb_exists. split.
  - intros (f0 & Hin & Heq). apply String.eqb_eq in Heq. subst f0. exact Hin.
  - intros Hin. exists f. split; [exact Hin | apply String.eqb_refl].
Qed.

(** The slots of a built record are the declared fields, in declaration
    order. *)
Lemma construct_slots (cls : dataclass) (kwargs slots : list (string * pyobj)) :
  ios.construct cls (PDict kwargs) = Ok (PInstance cls slots) ->
  map fst slots = ios.fields cls.
Proof.
  unfold ios.construct.
  destruct (ios.bind_arguments cls kwargs) as [self |] eqn:Eb; [| discriminate].
  apply bind_arguments_Ok in Eb as (Hu & Hm & ->). cbn.
  destruct (ios.post_init cls (ios.bound cls kwargs)) as [self' |] eqn:Ep;
    [| discriminate].
  cbn. intros [= <-]. rewrite (post_init_keys _ _ _ Ep).
  apply map_fst_bound. intros f Hf. apply (missing_nil_iff cls kwargs); [exact Hm |].
  apply is_field_In, Hf.
Qed.

Lemma bound_ext (kwargs kwargs' : list (string * pyobj)) (fs : list string) :
  (forall k, dict_get kwargs k = dict_get kwargs' k) ->
  omap (fun f0 => pair f0 <$> dict_get kwargs f0) fs
  = omap (fun f0 => pair f0 <$> dict_get kwargs' f0) fs.
Proof.
  intros Hsame. induction fs as [| f fs IH]; [reflexivity |].
  cbn. rewrite Hsame, IH. reflexivity.
Qed.

Lemma missing_ext (cls : dataclass) (kwargs kwargs' : list (string * pyobj)) :
  (forall k, dict_get kwargs k = dict_get kwargs' k) ->
  ios.missing cls kwargs = ios.missing cls kwargs'.
Proof.
  intros Hsame. unfold ios.missing. apply filter_ext. intros f.
  unfold dict_has. rewrite Hsame. reflexivity.
Qed.

Lemma post_init_raise_cases (names : list string) :
  NoDup names ->
  forall self e,
    (forall f, In f names -> dict_get self f <> None) ->
    foldl ios.post_init_step (Ok self) names = Raise e ->
    exists f v, In f names /\ dict_get self f = Some v /\ ios.to_dt v = Raise e.
Proof.
  induction 1 as [| n names Hn Hnd IH]; intros self e Hall Hfold; [discriminate |].
  cbn in Hfold. unfold ios.normalize_slot, ios.getattr in Hfold.
  destruct (dict_get self n) as [v |] eqn:Ev;
    [| exfalso; apply (Hall n (or_introl eq_refl)), Ev].
  cbn in Hfold. destruct (ios.to_dt v) as [v' |] eqn:Edt.
  - cbn in Hfold. apply IH in Hfold as (f & u & Hf & Hu & Hdt).
    + exists f, u. split; [right; exact Hf |]. split; [| exact Hdt].
      unfold ios.setattr in Hu. rewrite dict_get_set in Hu.
      destruct (String.eqb n f) eqn:E; [| exact Hu].
      apply String.eqb_eq in E. subst f. exfalso. apply Hn, list_elem_of_In, Hf.
    + intros f Hf. unfold ios.setattr.
      apply dict_set_present; [congruence | apply Hall; right; exact Hf].
  - cbn in Hfold. rewrite post_init_raise in Hfold. injection Hfold as <-.
    exists n, v. split; [left; reflexivity | auto].
Qed.

End Records.

(** X4. A record that was built holds exactly the declared fields, in
    declaration order; every field that is no timestamp has the value the
    mapping gave it, unchanged, and every timestamp is [None] or a valid
    instant bound to UTC. *)
Theorem X4_record_fields_preserved (cls : dataclass)
        (kwargs : list (string * pyobj)) (obj : pyobj) :
  ios.construct cls (PDict kwargs) = Ok obj ->
  exists slots, obj = PInstance cls slots
    /\ map fst slots = ios.fields cls
    /\ forall f, ios.is_field cls f = true ->
         if ios.is_timestamp cls f
         then exists v', dict_get slots f = Some v' /\ none_or_utc v' = true
         else dict_get slots f = dict_get kwargs f /\ dict_get kwargs f <> None.
Proof.
  intros Hc. destruct (construct_Ok cls kwargs obj Hc) as (slots & -> & _ & Hf).
  exists slots. split; [reflexivity |].
  split; [apply (construct_slots cls kwargs), Hc |].
  intros f Hfield. destruct (Hf f Hfield) as (v & Hv & Hs).
  destruct (ios.is_timestamp cls f).
  - destruct Hs as (v' & Hdt & Hs). exists v'. split; [exact Hs |].
    apply (to_dt_Ok_none_or_utc v), Hdt.
  - rewrite Hs, Hv. split; [reflexivity | discriminate].
Qed.

Lemma X4_record_fields_preserved_witness :
  exists slots,
    PInstance IPSW
      [("identifier", PStr "iPhone12,1"); ("buildid", PStr "19A5297e");
       ("version", PStr "15.0"); ("url", PStr "http://x/fw.ipsw");
       ("filesize", PInt 1000); ("sha1sum", PStr "a"); ("md5sum", PStr "b");
       ("releasedate", PNone);
       ("uploaddate", PDatetime (mk_datetime 2021 9 20 18 0 0 0 (Some tzutc)));
       ("signed", PBool true)]
    = PInstance IPSW slots
    /\ map fst slots = ios.fields IPSW
    /\ forall f, ios.is_field IPSW f = true ->
         if ios.is_timestamp IPSW f
         then exists v', dict_get slots f = Some v' /\ none_or_utc v' = true
         else dict_get slots f = dict_get firmware_19A5297e f
              /\ dict_get firmware_19A5297e f <> None.
Proof.
  exact (X4_record_fields_preserved IPSW firmware_19A5297e _ eq_refl).
Defined.

(** X5. The constructor returns a record exactly when the keys of the
    mapping are the declared fields, no more and no less, and [to_dt]
    accepts the value of every timestamp field. *)
Theorem X5_construct_succeeds_iff (cls : dataclass) (kwargs : list (string * pyobj)) :
  (exists obj, ios.construct cls (PDict kwargs) = Ok obj)
  <-> (forall k, dict_get kwargs k <> None <-> ios.is_field cls k = true)
      /\ (forall f v, ios.is_timestamp cls f = true -> dict_get kwargs f = Some v ->
                      exists v', ios.to_dt v = Ok v').
Proof.
  split.
  - intros [obj Hc]. destruct (construct_Ok cls kwargs obj Hc) as (slots & -> & Hu & Hf).
    split.
    + intros k. split; [apply unexpected_None, Hu |].
      intros Hk. destruct (Hf k Hk) as (v & -> & _). discriminate.
    + intros f v Ht Hv.
      destruct (Hf f (timestamp_is_field cls f Ht)) as (v0 & Hv0 & Hs).
      rewrite Ht in Hs. destruct Hs as (v' & Hdt & _). exists v'. congruence.
  - intros [Hkeys Hts].
    destruct (construct_total cls kwargs) as [slots Hs].
    + apply unexpected_None_iff. intros k. apply Hkeys.
    + apply missing_nil_iff. intros f. apply Hkeys.
    + exact Hts.
    + eauto.
Qed.

Lemma X5_construct_succeeds_iff_witness :
  (forall k, dict_get firmware_19A5297e k <> None <-> ios.is_field IPSW k = true)
  /\ (forall f v, ios.is_timestamp IPSW f = true ->
                  dict_get firmware_19A5297e f = Some v ->
                  exists v', ios.to_dt v = Ok v').
Proof.
  apply (proj1 (X5_construct_succeeds_iff IPSW firmware_19A5297e)).
  eexists. vm_compute. reflexivity.
Defined.

(** X6. The order of the keys in the payload does not matter: two mappings
    that give every key the same value are treated alike, whenever the first
    holds declared keys only. *)
Theorem X6_key_order_irrelevant (cls : dataclass)
        (kwargs kwargs' : list (string * pyobj)) :
  (forall k, dict_get kwargs k = dict_get kwargs' k) ->
  ios.unexpected cls kwargs = None ->
  ios.construct cls (PDict kwargs') = ios.construct cls (PDict kwargs).
Proof.
  intros Hsame Hu.
  assert (Hu' : ios.unexpected cls kwargs' = None).
  { apply unexpected_None_iff. intros k Hk. rewrite <- Hsame in Hk.
    revert k Hk. apply unexpected_None_iff, Hu. }
  unfold ios.construct, ios.bind_arguments. rewrite Hu, Hu'.
  rewrite (missing_ext cls kwargs kwargs' Hsame).
  unfold ios.bound. rewrite (bound_ext kwargs kwargs' _ Hsame). reflexivity.
Qed.

Lemma X6_key_order_irrelevant_witness :
  ios.construct FirmwareKeys (PDict (rev key_iBoot))
  = ios.construct FirmwareKeys (PDict key_iBoot).
Proof.
  refine (X6_key_order_irrelevant FirmwareKeys key_iBoot (rev key_iBoot) _ eq_refl).
  intros k. unfold key_iBoot. cbn [rev app dict_get].
  repeat match goal with
         | |- context [String.eqb ?a k] =>
             destruct (String.eqb_spec a k) as [<- | ?]; [reflexivity |]
         end.
  reflexivity.
Defined.

(** X7. Why the constructor raises, in this order of precedence: the
    payload is no mapping; else it has an undeclared key, which is reported
    even when fields are missing; else fields are missing, and all of them are
    listed; else [to_dt] refuses the value of a timestamp field, and its
    exception comes out unchanged. The exception is therefore always a
    [TypeError] or a [ValueError]. *)
Theorem X7_construct_error_causes (cls : dataclass) (data : pyobj) (e : exn) :
  ios.construct cls data = Raise e ->
  ((forall kwargs, data <> PDict kwargs) /\ e = TypeError NotAMapping
   \/ exists kwargs, data = PDict kwargs
      /\ ((exists k, e = TypeError (UnexpectedKeyword (ios.init_qualname cls) k)
             /\ dict_get kwargs k <> None /\ ios.is_field cls k = false)
          \/ (ios.unexpected cls kwargs = None
              /\ ios.missing cls kwargs <> []
              /\ e = TypeError (MissingArguments (ios.init_qualname cls)
                                                 (ios.missing cls kwargs)))
          \/ (ios.unexpected cls kwargs = None /\ ios.missing cls kwargs = []
              /\ exists f v, ios.is_timestamp cls f = true
                   /\ dict_get kwargs f = Some v /\ ios.to_dt v = Raise e)))
  /\ ((exists msg, e = TypeError msg) \/ (exists msg, e = ValueError msg)).
Proof.
  intros Hc.
  assert (Hcause :
    (forall kwargs, data <> PDict kwargs) /\ e = TypeError NotAMapping
    \/ exists kwargs, data = PDict kwargs
      /\ ((exists k, e = TypeError (UnexpectedKeyword (ios.init_qualname cls) k)
             /\ dict_get kwargs k <> None /\ ios.is_field cls k = false)
          \/ (ios.unexpected cls kwargs = None
              /\ ios.missing cls kwargs <> []
              /\ e = TypeError (MissingArguments (ios.init_qualname cls)
                                                 (ios.missing cls kwargs)))
          \/ (ios.unexpected cls kwargs = None /\ ios.missing cls kwargs = []
              /\ exists f v, ios.is_timestamp cls f = true
                   /\ dict_get kwargs f = Some v /\ ios.to_dt v = Raise e))).
  { destruct data as [| b | n | s | xs | kwargs | dt | cls' slots];
      try (left; split; [intros kw; discriminate | cbn in Hc; congruence]).
    right. exists kwargs. split; [reflexivity |].
    unfold ios.construct, ios.bind_arguments in Hc.
    destruct (ios.unexpected cls kwargs) as [[k w] |] eqn:Hu.
    - left. cbn in Hc. injection Hc as <-. exists k.
      unfold ios.unexpected in Hu. apply find_some in Hu as [Hin Hnf]. cbn in Hnf.
      split; [reflexivity |]. split.
      + apply dict_get_In, in_map_iff. exists (k, w). auto.
      + apply negb_true_iff, Hnf.
    - right. destruct (ios.missing cls kwargs) as [| f0 rest] eqn:Hm.
      + right. split; [reflexivity |]. split; [reflexivity |].
        cbn in Hc. unfold ios.post_init in Hc.
        destruct (foldl ios.post_init_step (Ok (ios.bound cls kwargs))
                        (ios.post_init_slots cls)) as [self' | e'] eqn:Ef;
          [discriminate |].
        cbn in Hc. injection Hc as <-.
        assert (Hb : forall f, ios.is_timestamp cls f = true ->
                       dict_get (ios.bound cls kwargs) f = dict_get kwargs f
                       /\ dict_get kwargs f <> None).
        { intros f Ht. pose proof (timestamp_is_field cls f Ht) as Hfld.
          unfold ios.bound. rewrite dict_get_bound.
          unfold ios.is_field in Hfld. rewrite Hfld. split; [reflexivity |].
          apply (missing_nil_iff cls kwargs); [exact Hm |].
          unfold ios.is_field. exact Hfld. }
        apply post_init_raise_cases in Ef as (f & v & Hf & Hv & Hdt).
        * assert (Ht : ios.is_timestamp cls f = true)
            by (apply existsb_exists; exists f; split;
                [exact Hf | apply String.eqb_refl]).
          exists f, v. split; [exact Ht |]. split; [| exact Hdt].
          rewrite <- (proj1 (Hb f Ht)). exact Hv.
        * apply post_init_slots_NoDup.
        * intros f Hf.
          assert (Ht : ios.is_timestamp cls f = true)
            by (apply existsb_exists; exists f; split;
                [exact Hf | apply String.eqb_refl]).
          destruct (Hb f Ht) as [-> Hne]. exact Hne.
      + left. split; [reflexivity |]. split; [discriminate |].
        cbn in Hc. congruence. }
  split; [exact Hcause |].
  destruct Hcause as [[_ ->] | (kwargs & _ & [(k & -> & _) | [(_ & _ & ->) | (_ & _ & f & v & _ & _ & Hdt)]])];
    eauto.
  destruct (to_dt_raise_cases v e Hdt) as [-> | [msg ->]]; eauto.
Qed.

Lemma X7_construct_error_causes_witness :
  exists msg, TypeError (UnexpectedKeyword "IPSW.__init__" "colour") = TypeError msg.
Proof.
  destruct (proj2 (X7_construct_error_causes IPSW
                     (PDict [("colour", PStr "red")])
                     (TypeError (UnexpectedKeyword "IPSW.__init__" "colour")) eq_refl))
    as [H | [msg H]]; [exact H | discriminate H].
Defined.

Section Rebuilding.

Lemma dict_set_same (items : list (string * pyobj)) (k : string) (v : pyobj) :
  dict_get items k = Some v -> dict_set items k v = items.
Proof.
  induction items as [| [k0 w] rest IH]; cbn; [discriminate |].
  destruct (String.eqb k0 k) eqn:E.
  - intros [= ->]. reflexivity.
  - intros H. rewrite (IH H). reflexivity.
Qed.

Lemma bound_self (items : list (string * pyobj)) :
  NoDup (map fst items) ->
  omap (fun f0 => pair f0 <$> dict_get items f0) (map fst items) = items.
Proof.
  induction items as [| [k v] rest IH]; intros Hnd; [reflexivity |].
  cbn in Hnd. apply NoDup_cons in Hnd as [Hk Hnd].
  cbn. rewrite String.eqb_refl. cbn. f_equal.
  rewrite <- (IH Hnd) at 2. clear IH.
  assert (Hext : forall fs, (forall f, In f fs -> f <> k) ->
            omap (fun f0 => pair f0 <$> (if String.eqb k f0 then Some v
                                         else dict_get rest f0)) fs
            = omap (fun f0 => pair f0 <$> dict_get rest f0) fs).
  { induction fs as [| f fs IHfs]; intros Hne; [reflexivity |].
    cbn. destruct (String.eqb k f) eqn:E.
    - apply String.eqb_eq in E. subst f. exfalso. apply (Hne k); [left |]; reflexivity.
    - rewrite IHfs; [reflexivity |]. intros f' Hf'. apply Hne. right. exact Hf'. }
  apply Hext. intros f Hf ->. apply Hk, list_elem_of_In, Hf.
Qed.

Lemma fields_NoDup (cls : dataclass) : NoDup (ios.fields cls).
Proof.
  destruct cls; cbn; repeat constructor; intros H;
    repeat (apply elem_of_cons in H as [H | H]; [discriminate |]);
    inversion H.
Qed.

Lemma post_init_all_None (names : list string) :
  forall self,
    (forall f, In f names -> dict_get self f = Some PNone) ->
    foldl ios.post_init_step (Ok self) names = Ok self.
Proof.
  induction names as [| n names IH]; intros self Hall; [reflexivity |].
  cbn. unfold ios.normalize_slot, ios.getattr, ios.setattr.
  rewrite (Hall n (or_introl eq_refl)). cbn.
  rewrite (dict_set_same _ _ _ (Hall n (or_introl eq_refl))).
  apply IH. intros f Hf. apply Hall. right. exact Hf.
Qed.

Lemma timestamp_In (cls : dataclass) (f : string) :
  ios.is_timestamp cls f = true <-> In f (ios.post_init_slots cls).
Proof.
  unfold ios.is_timestamp. rewrite existsb_exists. split.
  - intros (f0 & Hin & Heq). apply String.eqb_eq in Heq. subst f0. exact Hin.
  - intros Hin. exists f. split; [exact Hin | apply String.eqb_refl].
Qed.

Lemma construct_record_of (cls : dataclass) (data r : pyobj) :
  ios.construct cls data = Ok r -> record_of cls r.
Proof.
  destruct data as [| b | n | s | xs | kwargs | dt | cls' slots']; try discriminate.
  intros Hc. destruct (construct_Ok cls kwargs r Hc) as (slots & -> & _ & Hf).
  exists slots. split; [reflexivity |].
  split; [apply (construct_slots cls kwargs), Hc |].
  intros f Ht. destruct (Hf f (timestamp_is_field cls f Ht)) as (v & _ & Hs).
  rewrite Ht in Hs. destruct Hs as (v' & Hdt & Hs). exists v'.
  split; [exact Hs | apply (to_dt_Ok_none_or_utc v), Hdt].
Qed.

Lemma none_or_utc_cases (v : pyobj) :
  none_or_utc v = true -> v = PNone \/ exists dt, v = PDatetime dt.
Proof. destruct v; try discriminate; eauto. Qed.

End Rebuilding.

(** X8. Feeding the slots of a built record back to its constructor: when
    every timestamp of the record is [None] the very same record comes out;
    as soon as one timestamp is an instant the constructor raises
    [TypeError], because [to_dt] takes [None] or a string, not an instant. *)
Theorem X8_rebuild_from_slots (cls : dataclass)
        (kwargs slots : list (string * pyobj)) :
  ios.construct cls (PDict kwargs) = Ok (PInstance cls slots) ->
  ((forall f, ios.is_timestamp cls f = true -> dict_get slots f = Some PNone) ->
   ios.construct cls (PDict slots) = Ok (PInstance cls slots))
  /\ ((exists f, ios.is_timestamp cls f = true /\ dict_get slots f <> Some PNone) ->
      ios.construct cls (PDict slots) = Raise (TypeError StrptimeArgNotStr)).
Proof.
  intros Hc.
  destruct (construct_record_of cls _ _ Hc) as (slots0 & Heq & Hkeys & Hts).
  injection Heq as <-.
  assert (Hu : ios.unexpected cls slots = None).
  { apply unexpected_None_iff. intros k Hk. apply dict_get_In in Hk.
    rewrite Hkeys in Hk. apply is_field_In, Hk. }
  assert (Hm : ios.missing cls slots = []).
  { apply missing_nil_iff. intros f Hf. apply dict_get_In. rewrite Hkeys.
    apply is_field_In, Hf. }
  assert (Hb : ios.bound cls slots = slots).
  { unfold ios.bound. rewrite <- Hkeys. apply bound_self. rewrite Hkeys.
    apply fields_NoDup. }
  assert (Hpre : ios.construct cls (PDict slots)
                 = (self' ← ios.post_init cls slots; Ok (PInstance cls self'))).
  { unfold ios.construct, ios.bind_arguments. rewrite Hu, Hm, Hb. reflexivity. }
  rewrite Hpre. unfold ios.post_init. split.
  - intros Hnone. rewrite post_init_all_None; [reflexivity |].
    intros f Hf. apply Hnone, timestamp_In, Hf.
  - intros (f & Ht & Hne).
    destruct (foldl ios.post_init_step (Ok slots) (ios.post_init_slots cls))
      as [self' | e] eqn:Ef.
    + exfalso.
      pose proof (post_init_fold _ (post_init_slots_NoDup cls) _ _ Ef f) as Hp.
      unfold ios.is_timestamp in Ht. rewrite Ht in Hp.
      destruct Hp as (v & v' & Hv & Hdt & _).
      destruct (Hts f Ht) as (u & Hu' & Hok). rewrite Hv in Hu'. injection Hu' as <-.
      destruct (none_or_utc_cases v Hok) as [-> | [dt ->]];
        [apply Hne, Hv | discriminate Hdt].
    + cbn. apply post_init_raise_cases in Ef as (f' & v & Hf' & Hv & Hdt).
      * destruct (Hts f' (proj2 (timestamp_In cls f') Hf')) as (u & Hu' & Hok).
        rewrite Hv in Hu'. injection Hu' as <-.
        destruct (none_or_utc_cases v Hok) as [-> | [dt ->]];
          [discriminate Hdt |].
        cbn in Hdt. congruence.
      * apply post_init_slots_NoDup.
      * intros f' Hf'.
        destruct (Hts f' (proj2 (timestamp_In cls f') Hf')) as (u & -> & _).
        discriminate.
Qed.

Lemma X8_rebuild_from_slots_witness :
  ios.construct FirmwareKeys
    (PDict [("image", PStr "iBoot"); ("filename", PStr "Firmware/all_flash/iBoot.img4");
            ("kbag", PStr "k"); ("key", PStr "0011"); ("iv", PStr "2233");
            ("date", PDatetime (mk_datetime 2021 9 20 18 0 0 0 (Some tzutc)))])
  = Raise (TypeError StrptimeArgNotStr).
Proof.
  refine (proj2 (X8_rebuild_from_slots FirmwareKeys key_iBoot _ eq_refl) _).
  exists "date". split; [reflexivity | discriminate].
Defined.

(** ** Further properties of the operations *)

Section OperationErrors.
Variable env : client.Collaborators.

Lemma bind_raise_inv {A B : Type} (r : result A) (f : A -> result B) (e : exn) :
  r ≫= f = Raise e -> r = Raise e \/ exists a, r = Ok a /\ f a = Raise e.
Proof. destruct r as [a | e']; cbn; [eauto | intros [= ->]; auto]. Qed.

Lemma fmap_raise_inv {A B : Type} (g : A -> B) (r : result A) (e : exn) :
  g <$> r = Raise e -> r = Raise e.
Proof. destruct r; cbn; [discriminate | intros [= ->]; reflexivity]. Qed.

Lemma getitem_raise (data : pyobj) (key : string) (e : exn) :
  getitem data key = Raise e ->
  (e = KeyError key /\ exists items, data = PDict items /\ dict_get items key = None)
  \/ (e = TypeError NotSubscriptable /\ forall items, data <> PDict items).
Proof.
  destruct data as [| b | n | s | xs | items | dt | cls slots]; cbn;
    try (intros [= <-]; right; split; [reflexivity | intros items'; discriminate]).
  destruct (dict_get items key) eqn:E; [discriminate |].
  intros [= <-]. left. eauto.
Qed.

Lemma iterate_raise (data : pyobj) (e : exn) :
  iterate data = Raise e -> e = TypeError NotIterable.
Proof. destruct data; cbn; try discriminate; intros [= <-]; reflexivity. Qed.

Lemma setitem_raise (data : pyobj) (key : string) (v : pyobj) (e : exn) :
  setitem data key v = Raise e -> e = TypeError NotSubscriptable.
Proof. destruct data; cbn; try discriminate; intros [= <-]; reflexivity. Qed.

Lemma construct_raise_kinds (cls : dataclass) (data : pyobj) (e : exn) :
  ios.construct cls data = Raise e ->
  (exists msg, e = TypeError msg) \/ (exists msg, e = ValueError msg).
Proof.
  destruct data as [| b | n | s | xs | kwargs | dt | cls' slots'];
    try (cbn; intros [= <-]; eauto).
  unfold ios.construct, ios.bind_arguments.
  destruct (ios.unexpected cls kwargs) as [[k w] |] eqn:Hu;
    [cbn; intros [= <-]; eauto |].
  destruct (ios.missing cls kwargs) as [| f0 rest] eqn:Hm;
    [| cbn; intros [= <-]; eauto].
  cbn. unfold ios.post_init.
  destruct (foldl ios.post_init_step (Ok (ios.bound cls kwargs))
                  (ios.post_init_slots cls)) as [self' | e'] eqn:Ef; [discriminate |].
  cbn. intros [= <-].
  apply post_init_raise_cases in Ef as (f & v & _ & _ & Hdt).
  - destruct (to_dt_raise_cases v e' Hdt) as [-> | [msg ->]]; eauto.
  - apply post_init_slots_NoDup.
  - intros f Hf. apply timestamp_In in Hf.
    unfold ios.bound. rewrite dict_get_bound.
    pose proof (timestamp_is_field cls f Hf) as Hfld.
    unfold ios.is_field in Hfld. rewrite Hfld.
    apply (missing_nil_iff cls kwargs); [exact Hm | exact Hfld].
Qed.

Lemma comprehension_raise_source {A B : Type} (f : A -> result B)
      (xs : list A) (e : exn) :
  comprehension f xs = Raise e -> exists x, In x xs /\ f x = Raise e.
Proof.
  induction xs as [| x xs IH]; cbn; [discriminate |].
  destruct (f x) as [y |] eqn:Ex.
  - destruct (comprehension f xs) as [ys |] eqn:Exs; [discriminate |].
    intros [= <-]. destruct (IH eq_refl) as (x' & Hin & Hx'). eauto.
  - intros [= <-]. eauto.
Qed.

Lemma comprehension_raise_kinds (cls : dataclass) (items : list pyobj) (e : exn) :
  comprehension (ios.construct cls) items = Raise e ->
  (exists msg, e = TypeError msg) \/ (exists msg, e = ValueError msg).
Proof.
  intros H. apply comprehension_raise_source in H as (x & _ & Hx).
  apply (construct_raise_kinds cls x), Hx.
Qed.

(** The shape of every operation that asks the transport. *)
Lemma invocation_cases (inv : client.invocation) (ep : string) :
  endpoint_of inv = Some ep ->
  (exists cls, single_operation env cls (client.HALFTIME_call env inv) ep)
  \/ (exists cls, list_operation env cls (client.HALFTIME_call env inv) ep)
  \/ (exists outer inner nested,
        composite_operation env outer inner nested (client.HALFTIME_call env inv) ep).
Proof.
  destruct inv; cbn; intros [= <-].
  - right. right. exists iDevice, IPSW, "firmwares". left. eauto 10.
  - left. exists IPSW. left. eauto 10.
  - right. left. exists IPSW. left. eauto 10.
  - right. left. exists IPSWKeys. right. left. eauto 10.
  - right. right. exists IPSWKeys, KeysObject, "keys". right. eauto 10.
  - left. exists OTAIPSW. right. eauto 10.
  - right. left. exists OTAIPSW. right. right. eauto 10.
Qed.

(** An operation is its transport request followed by a normalisation of
    the payload, which depends on nothing else. *)
Lemma await_request (inv : client.invocation) (ep : string) :
  endpoint_of inv = Some ep ->
  exists normalise : pyobj -> result pyobj,
    (forall env', await (client.HALFTIME_call env' inv)
                  = client.Parser_ipsw env' "GET" ep ≫= normalise).
Proof.
  destruct inv; cbn; intros [= <-]; eexists; intros env'; reflexivity.
Qed.

End OperationErrors.

(** X9. A failure of the transport comes out of every operation unchanged,
    and in blocking mode (no loop running on the thread, the facade's own
    open and idle) the facade raises it at the call site. *)
Theorem X9_transport_error_propagates (env : client.Collaborators)
        (inv : client.invocation) (ep : string) (e : exn) :
  endpoint_of inv = Some ep ->
  client.Parser_ipsw env "GET" ep = Raise e ->
  await (client.HALFTIME_call env inv) = Raise e
  /\ forall self w, running_loop w = None ->
       is_running (client.loop self) w = false ->
       is_closed (client.loop self) w = false ->
       fst (client.invoke env self inv w) = Raise e.
Proof.
  intros Hep He.
  assert (Ha : await (client.HALFTIME_call env inv) = Raise e).
  { destruct (await_request inv ep Hep) as [normalise Hn]. rewrite Hn, He. reflexivity. }
  split; [exact Ha |].
  intros self w Hw Hrun Hclosed.
  rewrite (invoke_idle env self inv w Hw Hrun Hclosed). cbn [fst].
  rewrite Ha. reflexivity.
Qed.

Lemma X9_transport_error_propagates_witness :
  await (client.device
           (client.mk_collaborators (fun _ _ => Raise (TransportError "timeout"))
                                    (fun _ => Ok PNone) (fun _ _ _ _ => Ok PNone))
           "iPhone12,1")
  = Raise (TransportError "timeout").
Proof.
  exact (proj1 (X9_transport_error_propagates
                  (client.mk_collaborators (fun _ _ => Raise (TransportError "timeout"))
                                           (fun _ => Ok PNone) (fun _ _ _ _ => Ok PNone))
                  (client.call_device "iPhone12,1") "/device/iPhone12,1"
                  (TransportError "timeout") eq_refl eq_refl)).
Defined.

(** X10. Each operation that asks the transport sends one request, a
    [GET] of its own endpoint, and nothing else: run after any requests, its
    body adds that one to them, and a blocking call through the facade adds
    that one to the requests of the process. Its result depends on the
    transport through the answer to that request only: two transports that
    give the same answer there give the same result, whatever they answer
    elsewhere. *)
Theorem X10_single_request (env env' : client.Collaborators)
        (inv : client.invocation) (ep : string) :
  endpoint_of inv = Some ep ->
  (forall sent,
      snd (client.HALFTIME_call env inv sent) = (sent ++ [HTTPRequest "GET" ep])%list)
  /\ (forall self w,
        running_loop w = None ->
        is_running (client.loop self) w = false ->
        is_closed (client.loop self) w = false ->
        requests (snd (client.invoke env self inv w))
        = (requests w ++ [HTTPRequest "GET" ep])%list)
  /\ (client.Parser_ipsw env "GET" ep = client.Parser_ipsw env' "GET" ep ->
      await (client.HALFTIME_call env inv) = await (client.HALFTIME_call env' inv)).
Proof.
  intros Hep.
  assert (Hreq : request_of inv = HTTPRequest "GET" ep)
    by (destruct inv; cbn in Hep; try discriminate Hep; injection Hep as <-; reflexivity).
  split; [| split].
  - intros sent. rewrite HALFTIME_call_run, Hreq. reflexivity.
  - intros self w Hw Hrun Hclosed.
    rewrite (invoke_idle env self inv w Hw Hrun Hclosed), Hreq. reflexivity.
  - intros Hsame. destruct (await_request inv ep Hep) as [normalise Hn].
    rewrite !Hn, Hsame. reflexivity.
Qed.

Lemma X10_single_request_witness :
  requests (snd (client.invoke (always (PDict firmware_19A5297e)) (client.mk_client 0)
                   (client.call_ipsw "iPhone12,1" "19A5297e")
                   (mk_world (Some 0%nat) None [] [] 1 1 []
                             [HTTPRequest "GET" "/device/iPhone12,1"])))
  = [HTTPRequest "GET" "/device/iPhone12,1";
     HTTPRequest "GET" "/ipsw/iPhone12,1/19A5297e"].
Proof.
  exact (proj1 (proj2 (X10_single_request (always (PDict firmware_19A5297e))
                         (always PNone)
                         (client.call_ipsw "iPhone12,1" "19A5297e")
                         "/ipsw/iPhone12,1/19A5297e" eq_refl))
               (client.mk_client 0)
               (mk_world (Some 0%nat) None [] [] 1 1 []
                         [HTTPRequest "GET" "/device/iPhone12,1"])
               eq_refl eq_refl eq_refl).
Defined.

(** X11. What an operation can raise: the transport's own exception, a
    [TypeError], a [ValueError], and, for [device] and [keys] only, the
    [KeyError] of a payload without its nested list. *)
Theorem X11_operation_error_kinds (env : client.Collaborators)
        (inv : client.invocation) (ep : string) (e : exn) :
  endpoint_of inv = Some ep ->
  await (client.HALFTIME_call env inv) = Raise e ->
  client.Parser_ipsw env "GET" ep = Raise e
  \/ (exists msg, e = TypeError msg)
  \/ (exists msg, e = ValueError msg)
  \/ (exists identifier kwargs,
        inv = client.call_device identifier /\ e = KeyError "firmwares"
        /\ client.Parser_ipsw env "GET" ep = Ok (PDict kwargs)
        /\ dict_get kwargs "firmwares" = None)
  \/ (exists identifier buildid kwargs,
        inv = client.call_keys identifier buildid /\ e = KeyError "keys"
        /\ client.Parser_ipsw env "GET" ep = Ok (PDict kwargs)
        /\ dict_get kwargs "keys" = None).
Proof.
  intros Hep Hr.
  destruct (client.Parser_ipsw env "GET" ep) as [data | e0] eqn:Hp.
  2:{ left. destruct (await_request inv ep Hep) as [normalise Hn].
      rewrite Hn, Hp in Hr. cbn in Hr. congruence. }
  right.
  assert (Hkinds : forall cls d, ios.construct cls d = Raise e ->
            (exists msg, e = TypeError msg) \/ (exists msg, e = ValueError msg) \/
            False) by (intros cls d H; apply construct_raise_kinds in H; tauto).
  destruct inv; cbn in Hep; try discriminate Hep;
    injection Hep as <-; cbn [client.HALFTIME_call] in Hr; run_operation_in Hr;
    rewrite Hp in Hr; cbn in Hr.
  - apply bind_raise_inv in Hr as [Hr | (fw & Hfw & Hr)].
    + apply getitem_raise in Hr as [[-> (items & -> & Hn)] | [-> _]]; [| eauto].
      right. right. left. exists identifier, items. auto.
    + apply bind_raise_inv in Hr as [Hr | (items & _ & Hr)];
        [apply iterate_raise in Hr; subst; eauto |].
      apply bind_raise_inv in Hr as [Hr | (l & _ & Hr)];
        [destruct (comprehension_raise_kinds _ _ _ Hr); eauto |].
      apply bind_raise_inv in Hr as [Hr | (d & _ & Hr)];
        [apply setitem_raise in Hr; subst; eauto |].
      destruct (construct_raise_kinds _ _ _ Hr); eauto.
  - destruct (construct_raise_kinds _ _ _ Hr); eauto.
  - apply bind_raise_inv in Hr as [Hr | (items & _ & Hr)];
      [apply iterate_raise in Hr; subst; eauto |].
    apply fmap_raise_inv in Hr.
    destruct (comprehension_raise_kinds _ _ _ Hr); eauto.
  - apply bind_raise_inv in Hr as [Hr | (items & _ & Hr)];
      [apply iterate_raise in Hr; subst; eauto |].
    apply fmap_raise_inv in Hr.
    destruct (comprehension_raise_kinds _ _ _ Hr); eauto.
  - apply bind_raise_inv in Hr as [Hr | (fw & Hfw & Hr)].
    + apply getitem_raise in Hr as [[-> (items & -> & Hn)] | [-> _]]; [| eauto].
      right. right. right. exists identifier, buildid, items. auto.
    + apply bind_raise_inv in Hr as [Hr | (items & _ & Hr)];
        [apply iterate_raise in Hr; subst; eauto |].
      apply bind_raise_inv in Hr as [Hr | (l & _ & Hr)];
        [destruct (comprehension_raise_kinds _ _ _ Hr); eauto |].
      apply bind_raise_inv in Hr as [Hr | (d & _ & Hr)];
        [apply setitem_raise in Hr; subst; eauto |].
      destruct (construct_raise_kinds _ _ _ Hr); eauto.
  - destruct (construct_raise_kinds _ _ _ Hr); eauto.
  - apply bind_raise_inv in Hr as [Hr | (items & _ & Hr)];
      [apply iterate_raise in Hr; subst; eauto |].
    apply fmap_raise_inv in Hr.
    destruct (comprehension_raise_kinds _ _ _ Hr); eauto.
Qed.

Lemma X11_operation_error_kinds_witness :
  exists identifier kwargs,
    client.call_device "iPhone12,1" = client.call_device identifier
    /\ KeyError "firmwares" = KeyError "firmwares"
    /\ client.Parser_ipsw (always (PDict device_without_firmwares)) "GET"
                          "/device/iPhone12,1" = Ok (PDict kwargs)
    /\ dict_get kwargs "firmwares" = None.
Proof.
  destruct (X11_operation_error_kinds (always (PDict device_without_firmwares))
              (client.call_device "iPhone12,1") "/device/iPhone12,1"
              (KeyError "firmwares") eq_refl eq_refl)
    as [H | [[msg H] | [[msg H] | [H | (i & b & kw & H & _)]]]];
    try discriminate H.
  exact H.
Defined.

(** X12. No partial result: when an element of the payload fails to build,
    a list-valued operation raises the exception of the first such element,
    and [device] and [keys] raise that of the first nested element that
    fails, before the outer mapping is looked at. *)
Theorem X12_first_failure_wins (cls : dataclass) (pre : list pyobj) (bad : pyobj)
        (post : list pyobj) (e : exn) :
  (forall m, In m pre -> exists r, ios.construct cls m = Ok r) ->
  ios.construct cls bad = Raise e ->
  (forall env c endpoint,
      list_operation env cls c endpoint ->
      answers env endpoint (PList (pre ++ bad :: post)) ->
      await c = Raise e)
  /\ (forall env outer nested c endpoint kwargs,
        composite_operation env outer cls nested c endpoint ->
        answers env endpoint (PDict kwargs) ->
        dict_get kwargs nested = Some (PList (pre ++ bad :: post)) ->
        await c = Raise e).
Proof.
  intros Hpre Hbad.
  pose proof (comprehension_first_raise (ios.construct cls) pre bad post e Hpre Hbad)
    as Hc.
  split.
  - intros env c endpoint Hop Ha.
    rewrite (list_operation_await env _ _ _ _ Hop Ha). cbn. rewrite Hc. reflexivity.
  - intros env outer nested c endpoint kwargs Hop Ha Hn.
    rewrite (composite_operation_await env _ _ _ _ _ _ Hop Ha), Hn. cbn.
    rewrite Hc. reflexivity.
Qed.

Lemma X12_first_failure_wins_witness :
  await (client.ipsw_version
           (always (PList [PDict firmware_19A5297e; PNone; PDict []])) "15.0")
  = Raise (TypeError NotAMapping).
Proof.
  refine (proj1 (X12_first_failure_wins IPSW [PDict firmware_19A5297e] PNone [PDict []]
                   (TypeError NotAMapping) _ eq_refl)
                (always (PList [PDict firmware_19A5297e; PNone; PDict []]))
                _ "/ipsw/15.0" _ eq_refl).
  - intros m [<- | []]. eexists. vm_compute. reflexivity.
  - left. exists "15.0". repeat split.
Defined.

(** X13. A list-valued operation answered with a JSON object instead of an
    array iterates over its keys: with at least one key it raises
    [TypeError], with none it returns the empty list; answered with [null],
    a number or a boolean it raises [TypeError]. *)
Theorem X13_list_operation_wrong_payload (env : client.Collaborators) (cls : dataclass)
        (c : coroutine) (endpoint : string) (data : pyobj) :
  list_operation env cls c endpoint ->
  answers env endpoint data ->
  (forall k v rest, data = PDict ((k, v) :: rest) ->
                    await c = Raise (TypeError NotAMapping))
  /\ (data = PDict [] -> await c = Ok (PList []))
  /\ (data = PNone \/ (exists b, data = PBool b) \/ (exists n, data = PInt n) ->
      await c = Raise (TypeError NotIterable)).
Proof.
  intros Hop Ha. rewrite (list_operation_await env _ _ _ _ Hop Ha).
  split; [| split].
  - intros k v rest ->. reflexivity.
  - intros ->. reflexivity.
  - intros [-> | [[b ->] | [n ->]]]; reflexivity.
Qed.

Lemma X13_list_operation_wrong_payload_witness :
  await (client.ota_version (always (PDict [("error", PStr "not found")])) "15.0")
  = Raise (TypeError NotAMapping).
Proof.
  refine (proj1 (X13_list_operation_wrong_payload
                   (always (PDict [("error", PStr "not found")])) OTAIPSW _
                   "/ota/15.0" _ _ eq_refl)
                "error" (PStr "not found") [] eq_refl).
  right. right. exists "15.0". repeat split.
Defined.

(** X14. A payload of the wrong kind for a record: an operation that builds
    one record raises [TypeError] unless the payload is a mapping; [device]
    and [keys] raise [TypeError] unless it is a mapping, and also when the
    nested entry is [null], a number or a boolean. *)
Theorem X14_record_operation_wrong_payload (env : client.Collaborators)
        (c : coroutine) (endpoint : string) (data : pyobj) :
  answers env endpoint data ->
  (forall cls, single_operation env cls c endpoint ->
               (forall kwargs, data <> PDict kwargs) ->
               await c = Raise (TypeError NotAMapping))
  /\ (forall outer inner nested,
        composite_operation env outer inner nested c endpoint ->
        ((forall kwargs, data <> PDict kwargs) ->
         await c = Raise (TypeError NotSubscriptable))
        /\ (forall kwargs v, data = PDict kwargs -> dict_get kwargs nested = Some v ->
              v = PNone \/ (exists b, v = PBool b) \/ (exists n, v = PInt n) ->
              await c = Raise (TypeError NotIterable))).
Proof.
  intros Ha. split.
  - intros cls Hop Hnot. rewrite (single_operation_await env _ _ _ _ Hop Ha).
    destruct data; try reflexivity. exfalso. apply (Hnot items). reflexivity.
  - intros outer inner nested Hop. split.
    + intros Hnot. unfold answers in Ha.
      destruct Hop as [(i & -> & -> & -> & -> & ->) | (i & b & -> & -> & -> & -> & ->)];
        run_operation; rewrite Ha;
        destruct data; try reflexivity; exfalso; apply (Hnot items); reflexivity.
    + intros kwargs v -> Hv Hkind.
      rewrite (composite_operation_await env _ _ _ _ _ _ Hop Ha), Hv.
      destruct Hkind as [-> | [[b ->] | [n ->]]]; reflexivity.
Qed.

Lemma X14_record_operation_wrong_payload_witness :
  await (client.ipsw (always (PList [])) "iPhone12,1" "19A5297e")
  = Raise (TypeError NotAMapping).
Proof.
  refine (proj1 (X14_record_operation_wrong_payload (always (PList [])) _
                   "/ipsw/iPhone12,1/19A5297e" (PList []) eq_refl) IPSW _ _).
  - left. exists "iPhone12,1", "19A5297e". repeat split.
  - intros kwargs. discriminate.
Defined.

Lemma comprehension_record_of (cls : dataclass) (items recs : list pyobj) :
  comprehension (ios.construct cls) items = Ok recs ->
  Forall (record_of cls) recs /\ List.length recs = List.length items.
Proof.
  intros H. apply comprehension_Ok in H. split.
  - induction H as [| m r ms rs Hm _ IH]; constructor; [| exact IH].
    apply (construct_record_of cls m), Hm.
  - symmetry. apply (Forall2_length _ _ _ H).
Qed.

(** C5. A list-valued operation ([ipsw_version], [keys_device],
    [ota_version]) answered with a sequence of mappings returns the records
    built from them one by one, in the same order and as many: every element
    of the result is a record of the operation's class, the i-th holding in
    each field the value the i-th mapping gives it (a timestamp field, that
    value through [to_dt]). It returns them whenever every mapping builds;
    and an empty sequence gives the empty list, not an error. *)
Theorem C5_list_operations_elementwise (env : client.Collaborators) (cls : dataclass)
        (c : coroutine) (endpoint : string) (ms : list pyobj) :
  list_operation env cls c endpoint ->
  answers env endpoint (PList ms) ->
  await c = PList <$> comprehension (ios.construct cls) ms
  /\ (ms = [] -> await c = Ok (PList []))
  /\ (forall out, await c = Ok out ->
        exists recs, out = PList recs /\ List.length recs = List.length ms
          /\ Forall (record_of cls) recs
          /\ (forall (i : nat) m, ms !! i = Some m ->
                exists r, recs !! i = Some r /\ ios.construct cls m = Ok r)
          /\ (forall (i : nat) r, recs !! i = Some r ->
                is_instance cls r = true
                /\ exists kw, ms !! i = Some (PDict kw)
                     /\ forall f, ios.is_field cls f = true ->
                          exists v, dict_get kw f = Some v
                            /\ if ios.is_timestamp cls f
                               then exists v', ios.to_dt v = Ok v'
                                               /\ ios.field r f = Some v'
                               else ios.field r f = Some v))
  /\ ((forall m, In m ms -> exists r, ios.construct cls m = Ok r) ->
      exists recs, await c = Ok (PList recs) /\ List.length recs = List.length ms).
Proof.
  intros Hop Ha.
  assert (Heq : await c = PList <$> comprehension (ios.construct cls) ms)
    by (rewrite (list_operation_await env _ _ _ _ Hop Ha); reflexivity).
  split; [exact Heq |]. rewrite Heq. split; [| split].
  - intros ->. reflexivity.
  - intros out Hout.
    destruct (comprehension (ios.construct cls) ms) as [recs |] eqn:E; [| discriminate].
    cbn in Hout. injection Hout as <-. exists recs. split; [reflexivity |].
    pose proof (comprehension_record_of cls ms recs E) as [Hrec Hlen].
    apply comprehension_Ok in E.
    split; [exact Hlen |]. split; [exact Hrec |]. split.
    + apply Forall2_construct_lookup, E.
    + intros i r Hi.
      destruct (Forall2_lookup_r _ _ _ _ _ E Hi) as (m & Hm & Hc).
      destruct m as [| b | n | s | xs | kw | dt | cls' slots']; try discriminate Hc.
      apply construct_Ok in Hc as (slots & -> & _ & Hfs).
      split; [apply String.eqb_refl |]. exists kw. split; [exact Hm | exact Hfs].
  - intros Hall. destruct (comprehension_total _ _ Hall) as [recs Hrecs].
    rewrite Hrecs. exists recs. split; [reflexivity |].
    apply comprehension_Ok, Forall2_construct_lookup in Hrecs. tauto.
Qed.

Lemma C5_list_operations_elementwise_witness :
  exists recs,
    await (client.ipsw_version
             (always (PList [PDict firmware_19A5297e; PDict firmware_19A5297e])) "15.0")
    = Ok (PList recs)
    /\ List.length recs = 2%nat.
Proof.
  refine (proj2 (proj2 (proj2 (C5_list_operations_elementwise
                   (always (PList [PDict firmware_19A5297e; PDict firmware_19A5297e]))
                   IPSW _ "/ipsw/15.0"
                   [PDict firmware_19A5297e; PDict firmware_19A5297e] _ eq_refl))) _).
  - left. exists "15.0". repeat split.
  - intros m [<- | [<- | []]]; eexists; vm_compute; reflexivity.
Defined.

(** X15. Whatever an operation returns is well formed throughout: a single
    record, every element of a returned list, the outer record of [device]
    and [keys] and every element of its nested list are records of the
    expected class, holding the declared fields in declaration order, with
    every timestamp [None] or a valid instant in UTC. *)
Theorem X15_results_well_formed (env : client.Collaborators) (c : coroutine)
        (endpoint : string) (data out : pyobj) :
  answers env endpoint data ->
  await c = Ok out ->
  (forall cls, single_operation env cls c endpoint -> record_of cls out)
  /\ (forall cls, list_operation env cls c endpoint ->
        exists recs, out = PList recs /\ Forall (record_of cls) recs)
  /\ (forall outer inner nested,
        composite_operation env outer inner nested c endpoint ->
        record_of outer out
        /\ exists recs, ios.field out nested = Some (PList recs)
                        /\ Forall (record_of inner) recs).
Proof.
  intros Ha Hout. split; [| split].
  - intros cls Hop. rewrite (single_operation_await env _ _ _ _ Hop Ha) in Hout.
    apply (construct_record_of cls data), Hout.
  - intros cls Hop. rewrite (list_operation_await env _ _ _ _ Hop Ha) in Hout.
    destruct (iterate data) as [items |]; [| discriminate]. cbn in Hout.
    destruct (comprehension (ios.construct cls) items) as [recs |] eqn:E;
      [| discriminate].
    cbn in Hout. injection Hout as <-. exists recs. split; [reflexivity |].
    apply (comprehension_record_of cls items), E.
  - intros outer inner nested Hop.
    assert (Hts : forall f, ios.is_timestamp outer f = false).
    { intros f. destruct Hop as [(i & -> & _) | (i & b & -> & _)]; reflexivity. }
    destruct data as [| b | n | s | xs | kwargs | dt | cls' slots'];
      try (exfalso; unfold answers in Ha;
           destruct Hop as [(i & -> & -> & -> & -> & ->) | (i & b' & -> & -> & -> & -> & ->)];
           run_operation_in Hout; rewrite Ha in Hout; discriminate Hout).
    rewrite (composite_operation_await env _ _ _ _ _ _ Hop Ha) in Hout.
    destruct (dict_get kwargs nested) as [v |]; [| discriminate].
    destruct (iterate v) as [items |]; [| discriminate]. cbn in Hout.
    destruct (comprehension (ios.construct inner) items) as [recs |] eqn:E;
      [| discriminate].
    change (ios.construct outer (PDict (dict_set kwargs nested (PList recs))) = Ok out)
      in Hout.
    split; [apply (construct_record_of outer _ _ Hout) |].
    exists recs. split; [| apply (comprehension_record_of inner items), E].
    apply construct_Ok in Hout as (slots & -> & Hu & Hf).
    assert (Hnf : ios.is_field outer nested = true).
    { apply (unexpected_None _ _ _ Hu). rewrite dict_get_set, String.eqb_refl.
      discriminate. }
    destruct (Hf nested Hnf) as (u & Hu' & Hs). rewrite Hts in Hs.
    rewrite dict_get_set, String.eqb_refl in Hu'. injection Hu' as <-. exact Hs.
Qed.

Lemma X15_results_well_formed_witness :
  record_of IPSW
    (PInstance IPSW
      [("identifier", PStr "iPhone12,1"); ("buildid", PStr "19A5297e");
       ("version", PStr "15.0"); ("url", PStr "http://x/fw.ipsw");
       ("filesize", PInt 1000); ("sha1sum", PStr "a"); ("md5sum", PStr "b");
       ("releasedate", PNone);
       ("uploaddate", PDatetime (mk_datetime 2021 9 20 18 0 0 0 (Some tzutc)));
       ("signed", PBool true)]).
Proof.
  refine (proj1 (X15_results_well_formed (always (PDict firmware_19A5297e))
                   (client.ipsw (always (PDict firmware_19A5297e))
                                "iPhone12,1" "19A5297e")
                   "/ipsw/iPhone12,1/19A5297e" (PDict firmware_19A5297e) _
                   eq_refl eq_refl) IPSW _).
  left. exists "iPhone12,1", "19A5297e". repeat split.
Defined.

(** ** Further properties of the facade *)

(** X16. Called while a loop other than its own is running on the thread,
    its own being open and idle, the facade raises [RuntimeError] and leaves
    the state of the process as it was, no request sent; the transport has no
    part in the outcome, so the operation is not even started. *)
Theorem X16_foreign_loop_refused (env : client.Collaborators) (self : client.Client)
        (inv : client.invocation) (w : World) (l : nat) :
  running_loop w = Some l ->
  is_running (client.loop self) w = false ->
  is_closed (client.loop self) w = false ->
  client.invoke env self inv w
  = (Raise (RuntimeError "Cannot run the event loop while another loop is running"), w)
  /\ forall env', client.invoke env' self inv w = client.invoke env self inv w.
Proof.
  intros Hr Hrun Hclosed. split.
  - apply (invoke_other_loop_running env self inv w l Hr Hrun Hclosed).
  - intros env'.
    rewrite (invoke_other_loop_running env self inv w l Hr Hrun Hclosed).
    apply (invoke_other_loop_running env' self inv w l Hr Hrun Hclosed).
Qed.

Lemma X16_foreign_loop_refused_witness :
  client.invoke (always (PDict firmware_19A5297e)) (client.mk_client 0)
                (client.call_ipsw "iPhone12,1" "19A5297e")
                (mk_world (Some 1%nat) (Some 1%nat) [] [] 2 1 [] [])
  = (Raise (RuntimeError "Cannot run the event loop while another loop is running"),
     mk_world (Some 1%nat) (Some 1%nat) [] [] 2 1 [] []).
Proof.
  exact (proj1 (X16_foreign_loop_refused (always (PDict firmware_19A5297e))
                  (client.mk_client 0) (client.call_ipsw "iPhone12,1" "19A5297e")
                  (mk_world (Some 1%nat) (Some 1%nat) [] [] 2 1 [] []) 1
                  eq_refl eq_refl eq_refl)).
Defined.

(** X17. While the facade's own loop is running, on the calling thread or
    on another, any number of calls in a row each hand back the coroutine of
    the operation asked for; none is run, no loop is driven, no request is
    sent, and the state of the process stays as it was. *)
Theorem X17_calls_deferred_while_running (env : client.Collaborators)
        (self : client.Client) (invs : list client.invocation) (w : World) :
  is_running (client.loop self) w = true ->
  client.invoke_all env self invs w
  = (map (fun inv => Ok (Pending (client.HALFTIME_call env inv))) invs, w).
Proof.
  intros Hr. induction invs as [| inv invs IH]; [reflexivity |].
  cbn [client.invoke_all map].
  rewrite (invoke_own_loop_running env self inv w Hr), IH. reflexivity.
Qed.

Lemma X17_calls_deferred_while_running_witness :
  snd (client.invoke_all (always (PDict firmware_19A5297e)) (client.mk_client 0)
         [client.call_ipsw "iPhone12,1" "19A5297e"; client.call_device "iPhone12,1"]
         (mk_world (Some 0%nat) (Some 0%nat) [] [] 1 1 [] []))
  = mk_world (Some 0%nat) (Some 0%nat) [] [] 1 1 [] [].
Proof.
  exact (f_equal snd
           (X17_calls_deferred_while_running (always (PDict firmware_19A5297e))
              (client.mk_client 0)
              [client.call_ipsw "iPhone12,1" "19A5297e"; client.call_device "iPhone12,1"]
              (mk_world (Some 0%nat) (Some 0%nat) [] [] 1 1 [] []) eq_refl)).
Defined.

(** X23. A facade whose loop has been closed refuses every call:
    [run_until_complete] raises [RuntimeError] before anything of the
    operation runs, so no request is sent, the state of the process stays as
    it was, and the transport has no part in the outcome. *)
Theorem X23_closed_loop_refused (env : client.Collaborators) (self : client.Client)
        (inv : client.invocation) (w : World) :
  is_closed (client.loop self) w = true ->
  is_running (client.loop self) w = false ->
  client.invoke env self inv w = (Raise (RuntimeError "Event loop is closed"), w)
  /\ forall env', client.invoke env' self inv w = client.invoke env self inv w.
Proof.
  intros Hclosed Hrun. split.
  - apply (invoke_closed_loop env self inv w Hrun Hclosed).
  - intros env'. rewrite (invoke_closed_loop env self inv w Hrun Hclosed).
    apply (invoke_closed_loop env' self inv w Hrun Hclosed).
Qed.

Lemma X23_closed_loop_refused_witness :
  client.invoke (always (PDict firmware_19A5297e)) (client.mk_client 0)
                (client.call_ipsw "iPhone12,1" "19A5297e")
                (mk_world (Some 0%nat) None [] [0%nat] 1 1 [] [])
  = (Raise (RuntimeError "Event loop is closed"),
     mk_world (Some 0%nat) None [] [0%nat] 1 1 [] []).
Proof.
  exact (proj1 (X23_closed_loop_refused (always (PDict firmware_19A5297e))
                  (client.mk_client 0) (client.call_ipsw "iPhone12,1" "19A5297e")
                  (mk_world (Some 0%nat) None [] [0%nat] 1 1 [] [])
                  eq_refl eq_refl)).
Defined.

(** X19. A facade constructed while a loop is running takes that loop as
    its own and constructs none; every call made while that loop is still
    running is deferred. *)
Theorem X19_facade_built_inside_loop (env : client.Collaborators) (w : World) (l : nat)
        (inv : client.invocation) :
  running_loop w = Some l ->
  let self := fst (client.Client_init w) in
  let w1 := snd (client.Client_init w) in
  client.loop self = l
  /\ constructed w1 = constructed w
  /\ running_loop w1 = Some l
  /\ client.invoke env self inv w1 = (Ok (Pending (client.HALFTIME_call env inv)), w1).
Proof.
  intros Hr. cbn zeta.
  assert (Hinit : client.Client_init w
                  = (client.mk_client l,
                     mk_world (current_loop w) (running_loop w) (running_elsewhere w)
                              (closed_loops w) (constructed w)
                              (S (acquired w)) (driven w) (requests w))).
  { unfold client.Client_init, get_event_loop. rewrite Hr. reflexivity. }
  rewrite Hinit. cbn [fst snd client.loop constructed running_loop].
  repeat split; [exact Hr |].
  apply invoke_own_loop_running. unfold is_running.
  cbn [running_loop client.loop]. rewrite Hr, Nat.eqb_refl. reflexivity.
Qed.

Lemma X19_facade_built_inside_loop_witness :
  client.loop (fst (client.Client_init
                      (mk_world (Some 3%nat) (Some 3%nat) [] [] 4 0 [] [])))
  = 3%nat.
Proof.
  exact (proj1 (X19_facade_built_inside_loop (always PNone)
                  (mk_world (Some 3%nat) (Some 3%nat) [] [] 4 0 [] []) 3
                  (client.call_device "iPhone12,1") eq_refl)).
Defined.

(** ** The two operation sets *)

(** X20. The operations of class [IPSW] in [src/ipsw.py] whose body does
    not mention the rebound name [IPSW], that is [keys_device], [keys], [ota]
    and [ota_version], build the same values as those of [HALFTIME] from the
    same answers, and print nothing. *)
Theorem X20_operation_sets_agree (env : client.Collaborators)
        (HTTP_ipsw : string -> string -> result pyobj) (stdout : list pyobj) :
  (forall endpoint, HTTP_ipsw endpoint "json" = client.Parser_ipsw env "GET" endpoint) ->
  (forall i, ipsw.keys_device HTTP_ipsw i stdout
             = (await (client.HALFTIME_call env (client.call_keys_device i)), stdout))
  /\ (forall i b, ipsw.keys HTTP_ipsw i b stdout
                  = (await (client.HALFTIME_call env (client.call_keys i b)), stdout))
  /\ (forall i b, ipsw.ota HTTP_ipsw i b stdout
                  = (await (client.HALFTIME_call env (client.call_ota i b)), stdout))
  /\ (forall v, ipsw.ota_version HTTP_ipsw v stdout
                = (await (client.HALFTIME_call env (client.call_ota_version v)), stdout)).
Proof.
  intros Hsame. exact (ipsw_agrees_with_client env HTTP_ipsw stdout Hsame).
Qed.

Lemma X20_operation_sets_agree_witness :
  ipsw.keys (fun _ _ => Ok (PDict keyset_19A5297e)) "iPhone12,1" "19A5297e" []
  = (await (client.keys (always (PDict keyset_19A5297e)) "iPhone12,1" "19A5297e"), []).
Proof.
  exact (proj1 (proj2 (X20_operation_sets_agree
                         (always (PDict keyset_19A5297e))
                         (fun _ _ => Ok (PDict keyset_19A5297e)) []
                         (fun _ => eq_refl)))
               "iPhone12,1" "19A5297e").
Defined.

(** X22. In [src/ipsw.py] the name [IPSW] is rebound by the class of the
    operations, so [ipsw] and [ipsw_version] hand the firmware mapping to the
    constructor of that class, which takes no argument: a mapping with a key
    is refused with a [TypeError] about its first key, and nothing is
    printed. In particular a payload from which the firmware record can be
    built makes [ipsw] raise. *)
Theorem X22_rebound_name_refuses_firmware
        (HTTP_ipsw : string -> string -> result pyobj) (AsyncRequest : result unit)
        (stdout : list pyobj) :
  (forall identifier buildid key v rest,
      HTTP_ipsw ("/ipsw/" +:+ identifier +:+ "/" +:+ buildid) "json"
      = Ok (PDict ((key, v) :: rest)) ->
      ipsw.ipsw HTTP_ipsw AsyncRequest identifier buildid stdout
      = (Raise (TypeError (UnexpectedKeyword "IPSW.__init__" key)), stdout))
  /\ (forall version key v rest others,
        HTTP_ipsw ("/ipsw/" +:+ version) "json"
        = Ok (PList (PDict ((key, v) :: rest) :: others)) ->
        ipsw.ipsw_version HTTP_ipsw AsyncRequest version stdout
        = (Raise (TypeError (UnexpectedKeyword "IPSW.__init__" key)), stdout))
  /\ (forall identifier buildid data r,
        HTTP_ipsw ("/ipsw/" +:+ identifier +:+ "/" +:+ buildid) "json" = Ok data ->
        ios.construct IPSW data = Ok r ->
        exists key,
          ipsw.ipsw HTTP_ipsw AsyncRequest identifier buildid stdout
          = (Raise (TypeError (UnexpectedKeyword "IPSW.__init__" key)), stdout)).
Proof.
  split; [| split].
  - intros identifier buildid key v rest Hd. unfold ipsw.ipsw, ipsw.silent.
    rewrite Hd. reflexivity.
  - intros version key v rest others Hd. unfold ipsw.ipsw_version, ipsw.silent.
    rewrite Hd. reflexivity.
  - intros identifier buildid data r Hd Hc. unfold ipsw.ipsw, ipsw.silent. rewrite Hd.
    destruct data as [| b | n | s | xs | kw | dt | cls' slots']; try discriminate Hc.
    apply construct_Ok in Hc as (slots & _ & _ & Hfs).
    destruct kw as [| [key v] rest].
    + destruct (Hfs "signed" eq_refl) as (v & Hv & _). discriminate Hv.
    + exists key. reflexivity.
Qed.

Lemma X22_rebound_name_refuses_firmware_witness :
  ipsw.ipsw (fun _ _ => Ok (PDict firmware_19A5297e)) (Ok tt) "iPhone12,1" "19A5297e" []
  = (Raise (TypeError (UnexpectedKeyword "IPSW.__init__" "identifier")), []).
Proof.
  exact (proj1 (X22_rebound_name_refuses_firmware
                  (fun _ _ => Ok (PDict firmware_19A5297e)) (Ok tt) [])
               "iPhone12,1" "19A5297e" "identifier" (PStr "iPhone12,1")
               (List.tl firmware_19A5297e) eq_refl).
Defined.

(** X21. [keys_device] hands every key set its [keys] as decoded: whatever
    the payload holds under ["keys"] is what the record holds, element for
    element, with no conversion. *)
Theorem X21_keys_device_keys_untouched (env : client.Collaborators)
        (identifier : string) (ms recs : list pyobj) :
  answers env ("/keys/device/" +:+ identifier) (PList ms) ->
  await (client.keys_device env identifier) = Ok (PList recs) ->
  List.length recs = List.length ms
  /\ forall (i : nat) r, recs !! i = Some r ->
       exists kw, ms !! i = Some (PDict kw)
         /\ ios.field r "keys" = dict_get kw "keys"
         /\ dict_get kw "keys" <> None.
Proof.
  intros Ha Hr.
  assert (HF : Forall2 (fun m r => ios.construct IPSWKeys m = Ok r) ms recs).
  { run_operation_in Hr. unfold answers in Ha.
    rewrite Ha in Hr. cbn in Hr.
    destruct (comprehension (ios.construct IPSWKeys) ms) as [recs' |] eqn:E;
      [| discriminate].
    cbn in Hr. injection Hr as <-. apply comprehension_Ok, E. }
  split; [symmetry; apply (Forall2_length _ _ _ HF) |].
  intros i r Hi.
  destruct (Forall2_lookup_r _ _ _ _ _ HF Hi) as (m & Hm & Hc).
  destruct m as [| b | n | s | xs | kw | dt | cls slots]; try discriminate Hc.
  exists kw. split; [exact Hm |].
  apply (keys_device_keeps_keys env identifier ms recs i kw r Ha Hr Hm Hi).
Qed.

Lemma X21_keys_device_keys_untouched_witness :
  exists kw, [PDict keyset_19A5297e] !! 0%nat = Some (PDict kw)
    /\ ios.field (PInstance DeviceKeys keyset_19A5297e) "keys" = dict_get kw "keys"
    /\ dict_get kw "keys" <> None.
Proof.
  exact (proj2 (X21_keys_device_keys_untouched
                  (always (PList [PDict keyset_19A5297e])) "iPhone12,1"
                  [PDict keyset_19A5297e] [PInstance DeviceKeys keyset_19A5297e]
                  eq_refl eq_refl)
               0%nat (PInstance DeviceKeys keyset_19A5297e) eq_refl).
Defined.
